(** * Milestone verification and disbursement backend: a shallow embedding

    The JavaScript services and routes of the subsidy backend are embedded
    as Rocq functions.  Asynchronous code is written in explicit
    state-passing style; a JavaScript [throw] is the [Throw] constructor of
    [Completion]; calls that leave the process (the subsidy and oracle
    contracts, axios, the clock, [Math.random]) are answered by an
    environment the theorems quantify over. *)

From Stdlib Require Import ZArith NArith QArith Qround List String Ascii Bool Lia.
From Stdlib Require PrimFloat Uint63 SpecFloat FloatOps.
From stdpp Require Import base option strings pretty gmap.
From Equations Require Import Equations.
Import ListNotations.

Local Open Scope string_scope.
Local Open Scope Z_scope.

(** ** JavaScript values shared by every service

    A text is a [string] whose characters are the text's UTF-16 units,
    which covers every text with characters up to U+00FF; for these
    [String.length] is the [length] the code and the validators count. *)
Module Js.

(** An [Error] object: its [name], its [message] and, for an axios error
    that carries a response, [error.response.status]. *)
Record JsError := mkJsError {
  err_name : string;
  err_message : string;
  err_status : option Z
}.

(** [new Error(msg)] *)
Definition Error (msg : string) : JsError :=
  {| err_name := "Error"; err_message := msg; err_status := None |}.

(** The result of evaluating a call: a value, or a thrown error. *)
Inductive Completion (A : Type) : Type :=
| Return (a : A)
| Throw (e : JsError).
Arguments Return {A} a.
Arguments Throw {A} e.

Definition bind {A B} (c : Completion A) (k : A -> Completion B) : Completion B :=
  match c with
  | Return a => k a
  | Throw e => Throw e
  end.

(** [try { c } catch (error) { throw new Error(prefix + error.message) }] *)
Definition rethrow {A} (pre : string) (c : Completion A) : Completion A :=
  match c with
  | Return a => Return a
  | Throw e => Throw (Error (pre ++ err_message e))
  end.

(** [s.includes(needle)] *)
Fixpoint includes (s needle : string) : bool :=
  if String.prefix needle s then true
  else match s with
       | EmptyString => false
       | String _ rest => includes rest needle
       end.

(** [list.includes(x)] on strings, with [===]. *)
Definition array_includes (l : list string) (x : string) : bool :=
  existsb (String.eqb x) l.

(** A [TypeError] of the runtime. *)
Definition TypeError (msg : string) : JsError :=
  {| err_name := "TypeError"; err_message := msg; err_status := None |}.

(** [new Date(ms)] as its time value in milliseconds: beyond 8.64e15
    milliseconds either side of the epoch the date is invalid, [None], and
    its [getTime()] is [NaN]. *)
Definition maxDate : Z := 8640000000000000.

Definition newDate (ms : Z) : option Z :=
  if Z.abs ms <=? maxDate then Some ms else None.

End Js.
Export Js.

(** [Completion] is a monad: stdpp's [x ← c; k] sequences two calls and
    lets a throw of the first skip the second. *)
#[export] Instance Completion_ret : MRet Completion := @Return.
#[export] Instance Completion_bind : MBind Completion := fun A B k c => Js.bind c k.

(** ** The ethers package

    [blockchainService.js] requires the ethers package, which is not part
    of the repository.  Its releases come in two families that name things
    differently, and the service uses names of both.
    - Up to release 5 a contract returns its numbers as [BigNumber]
      objects, which have [toNumber()]; the package has
      [ethers.constants], and keeps the provider, [formatEther] and
      [parseEther] under [ethers.providers] and [ethers.utils]; the
      receipt of a mined transaction has [events].
    - Release 6 returns the numbers as [bigint] values, which have no
      [toNumber]; the package has [ethers.JsonRpcProvider],
      [ethers.formatEther] and [ethers.parseEther], and no
      [ethers.constants]; a receipt has [logs] and no [events].
    What an expression of the service evaluates to depends on the family
    that is installed. *)
Module Ethers.

Inductive Release := Ethers5 | Ethers6.

(** Calling what is [undefined]: the runtime's message quotes the
    expression called. *)
Definition notAFunction {A} (expression : string) : Completion A :=
  Throw (TypeError (expression ++ " is not a function")).

(** Reading [property] of what is [undefined]. *)
Definition undefinedHas {A} (property : string) : Completion A :=
  Throw (TypeError ("Cannot read properties of undefined (reading '"
                    ++ property ++ "')")).

(** [new ethers.JsonRpcProvider(providerUrl)] *)
Definition JsonRpcProvider (release : Release) : Completion unit :=
  match release with
  | Ethers5 => Throw (TypeError "ethers.JsonRpcProvider is not a constructor")
  | Ethers6 => Return tt
  end.

(** [expression.toNumber()] on a number a contract has returned.  A
    [BigNumber] gives the number, or throws when it needs more than 53
    bits (of the library's message the first word is kept); a [bigint] has
    no such method. *)
Definition toNumber (release : Release) (expression : string) (b : N) : Completion Z :=
  match release with
  | Ethers5 => if (b <? 2 ^ 53)%N then Return (Z.of_N b) else Throw (Error "overflow")
  | Ethers6 => notAFunction (expression ++ ".toNumber")
  end.

Fixpoint zeros (n : nat) : string :=
  match n with
  | O => ""
  | S n' => String "0" (zeros n')
  end.

(** The zeros a reversed run of digits starts with, but for its last
    character. *)
Fixpoint trimZeros (reversed : string) : string :=
  match reversed with
  | String a (String _ _ as rest) =>
      if Ascii.eqb a "0" then trimZeros rest else reversed
  | _ => reversed
  end.

(** An amount of wei in ether, as release 6 writes it: the whole part, a
    point, and the eighteen decimals without their trailing zeros but for
    one ([1.0], [0.5], [0.000000000000000001]). *)
Definition etherText (wei : N) : string :=
  let decimals := pretty (wei mod 10 ^ 18)%N in
  pretty (wei / 10 ^ 18)%N ++ "."
  ++ String.rev (trimZeros (String.rev (zeros (18 - String.length decimals) ++ decimals))).

(** [ethers.formatEther(wei)] *)
Definition formatEther (release : Release) (wei : N) : Completion string :=
  match release with
  | Ethers5 => notAFunction "ethers.formatEther"
  | Ethers6 => Return (etherText wei)
  end.

(** [ethers.parseEther(text)], [text] denoting [wei]. *)
Definition parseEther (release : Release) (wei : N) : Completion N :=
  match release with
  | Ethers5 => notAFunction "ethers.parseEther"
  | Ethers6 => Return wei
  end.

(** [ethers.constants.AddressZero] *)
Definition constantsAddressZero (release : Release) : Completion string :=
  match release with
  | Ethers5 => Return "0x0000000000000000000000000000000000000000"
  | Ethers6 => undefinedHas "AddressZero"
  end.

End Ethers.

(** ** services/blockchainService.js *)
Module BlockchainService.
Import Ethers.

(** The zero address. *)
Definition AddressZero : string := "0x0000000000000000000000000000000000000000".

(** The tuple the subsidy contract's [getMilestone] view returns
    (uint256 fields as [N], [uint8 status] as [N], the address as its
    string). *)
Record RawMilestone := {
  raw_id : N;
  raw_projectId : N;
  raw_description : string;
  raw_subsidyAmount : N;
  raw_targetValue : N;
  raw_actualValue : N;
  raw_verificationSource : string;
  raw_deadline : N;
  raw_status : N;
  raw_verifiedAt : N;
  raw_verifiedBy : string;
  raw_paid : bool
}.

(** The object [getMilestone] returns.  [subsidyAmount] is the text
    [ethers.formatEther] gives; a [Date] is what [newDate] makes of its
    milliseconds; for [verifiedAt] and [verifiedBy], [None] is [null]. *)
Record Milestone := {
  id : Z;
  projectId : Z;
  description : string;
  subsidyAmount : string;
  targetValue : Z;
  actualValue : Z;
  verificationSource : string;
  deadline : option Z;
  status : string;
  verifiedAt : option (option Z);
  verifiedBy : option string;
  paid : bool
}.

Definition _getProjectStatusName (status : N) : string :=
  let statuses := ["Pending"; "Active"; "Completed"; "Suspended"; "Cancelled"] in
  match nth_error statuses (N.to_nat status) with
  | Some s => s
  | None => "Unknown"
  end.

Definition _getMilestoneStatusName (status : N) : string :=
  let statuses := ["Pending"; "Verified"; "Failed"; "Disputed"] in
  match nth_error statuses (N.to_nat status) with
  | Some s => s
  | None => "Unknown"
  end.

(** The object literal built in [getMilestone] from the contract's
    tuple, its properties evaluated in the order they are written. *)
Definition decodeMilestone (release : Release) (m : RawMilestone) : Completion Milestone :=
  id' ← toNumber release "milestone.id" (raw_id m);
  projectId' ← toNumber release "milestone.projectId" (raw_projectId m);
  subsidyAmount' ← formatEther release (raw_subsidyAmount m);
  targetValue' ← toNumber release "milestone.targetValue" (raw_targetValue m);
  actualValue' ← toNumber release "milestone.actualValue" (raw_actualValue m);
  deadline' ← toNumber release "milestone.deadline" (raw_deadline m);
  verifiedAt0 ← toNumber release "milestone.verifiedAt" (raw_verifiedAt m);
  verifiedAt' ← (if verifiedAt0 >? 0
                 then t ← toNumber release "milestone.verifiedAt" (raw_verifiedAt m);
                      Return (Some (newDate (t * 1000)))
                 else Return None);
  zero ← constantsAddressZero release;
  Return {| id := id';
            projectId := projectId';
            description := raw_description m;
            subsidyAmount := subsidyAmount';
            targetValue := targetValue';
            actualValue := actualValue';
            verificationSource := raw_verificationSource m;
            deadline := newDate (deadline' * 1000);
            status := _getMilestoneStatusName (raw_status m);
            verifiedAt := verifiedAt';
            verifiedBy := if String.eqb (raw_verifiedBy m) zero
                          then None else Some (raw_verifiedBy m);
            paid := raw_paid m |}.

(** The tuple of the contract's [getProject] view, and the object
    [getProject] makes of it. *)
Record RawProject := {
  rawp_id : N;
  rawp_producer : string;
  rawp_name : string;
  rawp_description : string;
  rawp_totalSubsidyAmount : N;
  rawp_disbursedAmount : N;
  rawp_createdAt : N;
  rawp_status : N
}.

Record Project := {
  p_id : Z;
  producer : string;
  name : string;
  p_description : string;
  totalSubsidyAmount : string;
  disbursedAmount : string;
  createdAt : option Z;
  p_status : string
}.

Definition decodeProject (release : Release) (p : RawProject) : Completion Project :=
  id' ← toNumber release "project.id" (rawp_id p);
  totalSubsidyAmount' ← formatEther release (rawp_totalSubsidyAmount p);
  disbursedAmount' ← formatEther release (rawp_disbursedAmount p);
  createdAt' ← toNumber release "project.createdAt" (rawp_createdAt p);
  Return {| p_id := id';
            producer := rawp_producer p;
            name := rawp_name p;
            p_description := rawp_description p;
            totalSubsidyAmount := totalSubsidyAmount';
            disbursedAmount := disbursedAmount';
            createdAt := newDate (createdAt' * 1000);
            p_status := _getProjectStatusName (rawp_status p) |}.

(** A mined transaction: its hash, its block and the events it emitted.
    Of an event's arguments only the numeric ones, which the service
    reads, are kept. *)
Record Event := {
  event : string;
  args : list (string * N)
}.

Record Receipt := {
  transactionHash : string;
  blockNumber : Z;
  events : list Event
}.

(** [receipt.events], which only a receipt of release 5 has. *)
Definition receiptEvents (release : Release) (receipt : Receipt) : option (list Event) :=
  match release with
  | Ethers5 => Some (events receipt)
  | Ethers6 => None
  end.

(** What [require('ethers')] and the chain give the service: the release
    of the package, and the two contracts over a ledger state [L].  A view
    reads the ledger; a transaction returns its receipt and the new
    ledger, or throws and leaves the ledger as it was (a reverted
    transaction has no effect).  The contracts' code is not part of the
    backend: every theorem below quantifies over them and over the
    release. *)
Record Contracts (L : Type) := {
  library : Release;
  subsidy_getProject : L -> Z -> Completion RawProject;
  subsidy_getMilestone : L -> Z -> Completion RawMilestone;
  subsidy_addMilestone :
    L -> Z -> string -> N -> Z -> string -> Z -> Completion (Receipt * L);
  subsidy_verifyMilestone : L -> Z -> Z -> bool -> Completion (Receipt * L);
  oracle_getAggregateValue : L -> string -> Z -> Z -> Completion (N * N)
}.
Arguments library {L}.
Arguments subsidy_getProject {L}.
Arguments subsidy_getMilestone {L}.
Arguments subsidy_addMilestone {L}.
Arguments subsidy_verifyMilestone {L}.
Arguments oracle_getAggregateValue {L}.

Record TxResult := {
  tx_transactionHash : string;
  tx_blockNumber : Z;
  tx_events : list Event
}.

Record AddResult := {
  add_milestoneId : Z;
  add_transactionHash : string;
  add_blockNumber : Z
}.

Record AggregateValue := {
  totalValue : Z;
  dataPointCount : Z
}.

Definition lookup_arg (key : string) (a : list (string * N)) : option N :=
  snd <$> List.find (fun kv => String.eqb (fst kv) key) a.

(** [process.env], of which [initialize] reads three variables. *)
Record Environment := {
  BLOCKCHAIN_PRIVATE_KEY : option string;
  SUBSIDY_CONTRACT_ADDRESS : option string;
  ORACLE_CONTRACT_ADDRESS : option string
}.

(** A variable is set, and not to [placeholder]. *)
Definition configured (placeholder : string) (v : option string) : bool :=
  match v with
  | Some text => negb (String.eqb text "") && negb (String.eqb text placeholder)
  | None => false
  end.

(** [initialize()], by what it leaves in [this.initialized].  [connect]
    is how making the wallet and the contracts and asking the provider for
    its network end. *)
Definition initialize (release : Release) (env : Environment) (connect : Completion unit)
    : bool :=
  if negb (configured "0xyour_private_key_here" (BLOCKCHAIN_PRIVATE_KEY env)
           && configured AddressZero (SUBSIDY_CONTRACT_ADDRESS env)
           && configured AddressZero (ORACLE_CONTRACT_ADDRESS env))
  then false
  else match (_ ← JsonRpcProvider release; connect) with
       | Return _ => true
       | Throw _ => false
       end.

Section Service.
Context {L : Type} (c : Contracts L).
(** [this.initialized], which [initialize] alone sets. *)
Variable initialized : bool.

Definition notInitialized {A} : Completion A :=
  Throw (Error "Service not initialized").

Definition getProject (l : L) (projectId : Z) : Completion Project :=
  if negb initialized then notInitialized
  else rethrow "Failed to get project: "
         (project ← subsidy_getProject c l projectId;
          decodeProject (library c) project).

Definition getMilestone (l : L) (milestoneId : Z) : Completion Milestone :=
  if negb initialized then notInitialized
  else rethrow "Failed to get milestone: "
         (milestone ← subsidy_getMilestone c l milestoneId;
          decodeMilestone (library c) milestone).

(** [addMilestone].  [subsidyAmount] is the amount in wei that the text
    [subsidyAmount.toString()] denotes, [None] when that expression or the
    reading of the text throws (the message is then not modelled);
    [deadline] is a [Date].  The second component is the ledger the call
    leaves: the transaction is mined before its receipt is read. *)
Definition addMilestone (l : L) (projectId : Z) (description : string)
    (subsidyAmount : option N) (targetValue : Z) (verificationSource : string)
    (deadline : Z) : Completion AddResult * L :=
  if negb initialized then (notInitialized, l)
  else
    match (wei ← match subsidyAmount with
                 | Some w => parseEther (library c) w
                 | None => Throw (Error "invalid decimal value")
                 end;
           subsidy_addMilestone c l projectId description wei
             targetValue verificationSource (deadline / 1000)) with
    | Throw error => (Throw (Error ("Failed to add milestone: " ++ err_message error)), l)
    | Return (receipt, l') =>
        (rethrow "Failed to add milestone: "
           (match receiptEvents (library c) receipt with
            | None => undefinedHas "find"
            | Some emitted =>
                match List.find (fun e => String.eqb (event e) "MilestoneAdded") emitted with
                | None => undefinedHas "args"
                | Some ev =>
                    match lookup_arg "milestoneId" (args ev) with
                    | None => undefinedHas "toNumber"
                    | Some mid =>
                        milestoneId ← toNumber (library c) "event.args.milestoneId" mid;
                        Return {| add_milestoneId := milestoneId;
                                  add_transactionHash := transactionHash receipt;
                                  add_blockNumber := blockNumber receipt |}
                    end
                end
            end), l')
    end.

(** [verifyMilestone]; the second component is the ledger the call
    leaves. *)
Definition verifyMilestone (l : L) (milestoneId actualValue : Z) (success : bool)
    : Completion TxResult * L :=
  if negb initialized then (notInitialized, l)
  else
    match subsidy_verifyMilestone c l milestoneId actualValue success with
    | Throw error => (Throw (Error ("Failed to verify milestone: " ++ err_message error)), l)
    | Return (receipt, l') =>
        (rethrow "Failed to verify milestone: "
           (match receiptEvents (library c) receipt with
            | None => undefinedHas "map"
            | Some emitted =>
                Return {| tx_transactionHash := transactionHash receipt;
                          tx_blockNumber := blockNumber receipt;
                          tx_events := emitted |}
            end), l')
    end.

(** [x.getTime()] on a [Date] or on [null]. *)
Definition getTime (x : option Z) : Completion Z :=
  match x with
  | Some ms => Return ms
  | None => Throw (TypeError "Cannot read properties of null (reading 'getTime')")
  end.

(** [getAggregateValue]; [fromTimestamp] and [toTimestamp] are [Date]s, or
    [null]. *)
Definition getAggregateValue (l : L) (source : string)
    (fromTimestamp toTimestamp : option Z) : Completion AggregateValue :=
  if negb initialized then notInitialized
  else rethrow "Failed to get aggregate value: "
         (from ← getTime fromTimestamp;
          to ← getTime toTimestamp;
          '(total, count) ← oracle_getAggregateValue c l source (from / 1000) (to / 1000);
          totalValue' ← toNumber (library c) "result.totalValue" total;
          dataPointCount' ← toNumber (library c) "result.dataPointCount" count;
          Return {| totalValue := totalValue'; dataPointCount := dataPointCount' |}).
End Service.

End BlockchainService.

(** ** middleware/errorHandler.js *)
Module ErrorHandler.

Definition ForbiddenError (message : string) : JsError :=
  {| err_name := "ForbiddenError"; err_message := message; err_status := None |}.

Definition NotFoundError (message : string) : JsError :=
  {| err_name := "NotFoundError"; err_message := message; err_status := None |}.

Definition ConflictError (message : string) : JsError :=
  {| err_name := "ConflictError"; err_message := message; err_status := None |}.

(** The status and the [error] text [errorHandler] answers with. *)
Definition errorHandler (error : JsError) : Z * string :=
  let named n := String.eqb (err_name error) n in
  let says s := includes (err_message error) s in
  let r :=
    if named "ValidationError" then (400, "Validation error")
    else if named "UnauthorizedError" || says "unauthorized" then (401, "Unauthorized access")
    else if named "ForbiddenError" || says "forbidden" then (403, "Forbidden")
    else if named "NotFoundError" || says "not found" then (404, "Resource not found")
    else if named "ConflictError" || says "conflict" then (409, "Resource conflict")
    else if named "TooManyRequestsError" then (429, "Too many requests")
    else (500, "Internal server error") in
  let r :=
    if says "revert" || says "transaction failed"
    then (400, "Blockchain transaction failed") else r in
  if named "MongoError" || named "SequelizeError"
  then (500, "Database operation failed") else r.

End ErrorHandler.

(** ** middleware/auth.js *)
Module Auth.

Module USER_ROLES.
Definition GOVERNMENT : string := "government".
Definition PRODUCER : string := "producer".
Definition AUDITOR : string := "auditor".
Definition ORACLE : string := "oracle".
End USER_ROLES.

(** [req.user], the payload of the verified token. *)
Record User := {
  user_id : Z;
  role : string;
  walletAddress : string
}.

(** What a route answers with: [res.status(s).json(body)]. *)
Inductive ResponseBody :=
| ErrorJson (error : string)
| InsufficientPermissions (required : list string) (current : string)
| ValidationFailed
| TooManyRequests
| MilestoneAdded (id projectId : Z) (transactionHash : string) (blockNumber : Z)
| MilestoneVerified (id actualValue : Z) (success : bool) (transactionHash : string)
    (blockNumber : Z) (events : list BlockchainService.Event)
| DisputeSubmitted (milestoneId : Z) (reason : string) (submittedBy : Z) (submittedAt : Z)
| AutoVerified (milestoneId targetValue actualValue dataPointCount : Z) (success : bool)
    (transactionHash : string).

(** How a request ends: a response is sent, or an error is handed to
    [next], that is to [errorHandler]. *)
Inductive Outcome :=
| Respond (status : Z) (body : ResponseBody)
| Next (error : JsError).

(** [authorize(...roles)] either ends the request or calls [next()], the
    request then carrying the user it has found. *)
Definition authorize (roles : list string) (user : option User) : Outcome + User :=
  match user with
  | None => inl (Respond 401 (ErrorJson "Authentication required"))
  | Some u =>
      if negb (array_includes roles (role u))
      then inl (Respond 403 (InsufficientPermissions roles (role u)))
      else inr u
  end.

(** The other middlewares end the request ([Some]) or call [next()]
    ([None]).  [sensitiveOperationLimiter]: express-rate-limit keeps its
    counters per address; [limited] is its verdict on the request at hand. *)
Definition sensitiveOperationLimiter (limited : bool) : option Outcome :=
  if limited then Some (Respond 429 TooManyRequests) else None.

(** [validateRequest]: each validation has run and reported whether it
    passed. *)
Definition validateRequest (validations : list bool) : option Outcome :=
  if forallb (fun ok => ok) validations then None
  else Some (Respond 400 ValidationFailed).

(** The white space of [.trim()] among the characters up to U+00FF: tab
    to carriage return, the space and the no-break space. *)
Definition isSpace (a : ascii) : bool :=
  let n := nat_of_ascii a in
  ((9 <=? n) && (n <=? 13) || (n =? 32) || (n =? 160))%nat.

(** [.trim()] *)
Fixpoint trimStart (s : string) : string :=
  match s with
  | String a rest => if isSpace a then trimStart rest else s
  | EmptyString => s
  end.

Definition trim (s : string) : string :=
  String.rev (trimStart (String.rev (trimStart s))).

(** [.isLength({ min, max })] *)
Definition isLength (min max : nat) (s : string) : bool :=
  (min <=? String.length s)%nat && (String.length s <=? max)%nat.

(** [.isInt({ min })] on a field that is [None] when it is not an
    integer. *)
Definition isInt (min : Z) (v : option Z) : bool :=
  match v with
  | Some n => min <=? n
  | None => false
  end.

(** [.isFloat({ min })] *)
Definition isFloat (min : Q) (v : option Q) : bool :=
  match v with
  | Some q => Qle_bool min q
  | None => false
  end.

(** A field under [.isISO8601().toDate()].  The validator rejects the
    text, or accepts it; [toDate()] then replaces it by the date that
    [Date.parse] reads, and by [null] where [Date.parse] reads none (a week
    date such as [2023-W46-2] is ISO 8601 and is not parsed). *)
Inductive DateField :=
| NotISO8601
| NullDate
| ADate (ms : Z).

Definition isISO8601 (v : DateField) : bool :=
  match v with
  | NotISO8601 => false
  | NullDate | ADate _ => true
  end.

(** The field as the handler reads it after [toDate()]: a [Date], or
    [null]. *)
Definition sanitized (v : DateField) : option Z :=
  match v with
  | ADate ms => Some ms
  | NotISO8601 | NullDate => None
  end.

(** A date field given as a date, or as a text that is none. *)
Definition dateField (v : option Z) : DateField :=
  match v with
  | Some ms => ADate ms
  | None => NotISO8601
  end.

(** [.isBoolean()] on a field that holds a JSON boolean, [None] when the
    validator rejects it.  The validator also accepts the numbers 1 and 0
    and the texts of the two booleans and of these numbers, which a handler
    would read as they are; a body with such a field is outside the
    model. *)
Definition isBoolean (v : option bool) : bool := bool_decide (is_Some v).

End Auth.

(** ** routes/milestones.js *)
Module MilestoneRoutes.
Import BlockchainService ErrorHandler Auth.

(** [logger.audit(action, userId, details)], one constructor per action. *)
Inductive AuditEntry :=
| MILESTONE_ADDED (userId projectId milestoneId : Z) (description : string)
    (targetValue : Z) (transactionHash : string)
| MILESTONE_VERIFIED (userId milestoneId projectId actualValue : Z) (success : bool)
    (verificationNotes : option string) (transactionHash : string)
| MILESTONE_DISPUTED (userId milestoneId projectId : Z) (reason originalStatus : string)
| MILESTONE_AUTO_VERIFIED (userId milestoneId projectId targetValue actualValue
    dataPointCount : Z) (success : bool) (transactionHash : string).

(** What a request can change: the ledger behind the contracts, the audit
    trail, and the lines of [logger.error] (title and error message). *)
Record World (L : Type) := {
  ledger : L;
  audit : list AuditEntry;
  errors : list (string * string)
}.
Arguments ledger {L}.
Arguments audit {L}.
Arguments errors {L}.

(** A request: [req.user], the limiter's verdict, [req.params.id] ([None]
    when it is not an integer) and [req.body]. *)
Record Request (B : Type) := {
  user : option User;
  limited : bool;
  params_id : option Z;
  body : B
}.
Arguments user {B}.
Arguments limited {B}.
Arguments params_id {B}.
Arguments body {B}.

(** [deadline] is [None] when [isISO8601()] rejects it and when [toDate()]
    leaves [null], which the validator's custom check then rejects. *)
Record CreateBody := {
  c_projectId : option Z;
  c_description : string;
  c_amount : option Q;
  c_subsidyAmount : option N;
  c_targetValue : option Z;
  c_verificationSource : string;
  c_deadline : option Z
}.

Record VerifyBody := {
  v_actualValue : option Z;
  v_success : option bool;
  v_verificationNotes : option string
}.

Record DisputeBody := { d_reason : string }.

Record AutoVerifyBody := {
  a_fromDate : DateField;
  a_toDate : DateField
}.

Section Routes.
Context {L : Type} (c : Contracts L).
Variable initialized : bool.

Definition logAudit (e : AuditEntry) (l : L) (w : World L) : World L :=
  {| ledger := l; audit := audit w ++ [e]; errors := errors w |}.

Definition logError (title : string) (e : JsError) (w : World L) : World L :=
  {| ledger := ledger w; audit := audit w;
     errors := errors w ++ [(title, err_message e)] |}.

(** The middlewares in front of a handler, in the order the route lists
    them; [limiter] tells whether the route has the rate limiter.  The
    handler receives [req.user], which [authorize] has found present. *)
Definition route {B} (roles : list string) (limiter : bool)
    (validations : Request B -> list bool)
    (handler : User -> Request B -> World L -> Outcome * World L)
    (req : Request B) (w : World L) : Outcome * World L :=
  match authorize roles (user req) with
  | inl o => (o, w)
  | inr u =>
      match (if limiter then sensitiveOperationLimiter (limited req) else None) with
      | Some o => (o, w)
      | None =>
          match validateRequest (validations req) with
          | Some o => (o, w)
          | None => handler u req w
          end
      end
  end.

(** The world with the ledger a transaction has left. *)
Definition withLedger (l : L) (w : World L) : World L :=
  {| ledger := l; audit := audit w; errors := errors w |}.

(** The [catch] blocks of the [:id] routes.  A [try] block ends with what
    it returns or with the error thrown, and with the world as it is by
    then. *)
Definition catchMilestone (title : string)
    (r : Completion (Outcome * World L) * World L) : Outcome * World L :=
  match r with
  | (Return ow, _) => ow
  | (Throw error, w) =>
      if includes (err_message error) "does not exist"
      then (Next (NotFoundError "Milestone not found"), w)
      else (Next error, logError title error w)
  end.

(** POST /api/milestones.  The validators check [amount]; the handler
    reads [subsidyAmount]. *)
Definition createMilestone (now : Z)
    : Request CreateBody -> World L -> Outcome * World L :=
  route [USER_ROLES.GOVERNMENT] true
    (fun req =>
       let b := body req in
       [ isInt 1 (c_projectId b);
         isLength 10 1000 (trim (c_description b));
         isFloat (1 # 100) (c_amount b);
         isInt 1 (c_targetValue b);
         isLength 1 100 (trim (c_verificationSource b));
         match c_deadline b with
         | Some value => negb (value <=? now)
         | None => false
         end ])
    (fun u req w =>
       let b := body req in
       let projectId := default 0 (c_projectId b) in
       let description := trim (c_description b) in
       let targetValue := default 0 (c_targetValue b) in
       match getProject c initialized (ledger w) projectId with
       | Throw error => (Next error, logError "Failed to add milestone" error w)
       | Return _ =>
           match addMilestone c initialized (ledger w) projectId description
                   (c_subsidyAmount b) targetValue (trim (c_verificationSource b))
                   (default 0 (c_deadline b)) with
           | (Return result, l') =>
               (Respond 201 (MilestoneAdded (add_milestoneId result) projectId
                               (add_transactionHash result) (add_blockNumber result)),
                logAudit (MILESTONE_ADDED (user_id u) projectId (add_milestoneId result)
                            description targetValue (add_transactionHash result)) l' w)
           | (Throw error, l') =>
               (Next error, logError "Failed to add milestone" error (withLedger l' w))
           end
       end).

(** POST /api/milestones/:id/verify *)
Definition verify : Request VerifyBody -> World L -> Outcome * World L :=
  route [USER_ROLES.ORACLE; USER_ROLES.AUDITOR] true
    (fun req =>
       let b := body req in
       [ isInt 1 (params_id req);
         isInt 0 (v_actualValue b);
         isBoolean (v_success b);
         match v_verificationNotes b with
         | Some notes => isLength 0 500 (trim notes)
         | None => true
         end ])
    (fun u req w =>
       let b := body req in
       let milestoneId := default 0 (params_id req) in
       let actualValue := default 0 (v_actualValue b) in
       let success := default false (v_success b) in
       let verificationNotes := trim <$> v_verificationNotes b in
       catchMilestone "Failed to verify milestone"
         match getMilestone c initialized (ledger w) milestoneId with
         | Throw error => (Throw error, w)
         | Return milestone =>
             match verifyMilestone c initialized (ledger w) milestoneId
                     actualValue success with
             | (Throw error, l') => (Throw error, withLedger l' w)
             | (Return result, l') =>
                 (Return
                    (Respond 200 (MilestoneVerified milestoneId actualValue success
                                    (tx_transactionHash result) (tx_blockNumber result)
                                    (tx_events result)),
                     logAudit (MILESTONE_VERIFIED (user_id u) milestoneId
                                 (projectId milestone) actualValue success
                                 verificationNotes (tx_transactionHash result)) l' w),
                  withLedger l' w)
             end
         end).

(** POST /api/milestones/:id/dispute; [now] is the clock's reading for
    [submittedAt]. *)
Definition dispute (now : Z) : Request DisputeBody -> World L -> Outcome * World L :=
  route [USER_ROLES.PRODUCER; USER_ROLES.GOVERNMENT] false
    (fun req =>
       [ isInt 1 (params_id req);
         isLength 10 500 (trim (d_reason (body req))) ])
    (fun u req w =>
       let milestoneId := default 0 (params_id req) in
       let reason := trim (d_reason (body req)) in
       catchMilestone "Failed to dispute milestone"
         (milestone ← getMilestone c initialized (ledger w) milestoneId;
          project ← getProject c initialized (ledger w) (projectId milestone);
          if String.eqb (role u) USER_ROLES.PRODUCER
             && negb (String.eqb (producer project) (walletAddress u))
          then Throw (ForbiddenError
                        "You can only dispute milestones for your own projects")
          else if negb (array_includes ["Verified"; "Failed"] (status milestone))
          then Return (Respond 400 (ErrorJson
                                      "Only verified or failed milestones can be disputed"),
                       w)
          else Return
                 (Respond 200 (DisputeSubmitted milestoneId reason (user_id u) now),
                  logAudit (MILESTONE_DISPUTED (user_id u) milestoneId
                              (projectId milestone) reason (status milestone))
                           (ledger w) w),
          w)).

(** POST /api/milestones/:id/auto-verify *)
Definition autoVerify : Request AutoVerifyBody -> World L -> Outcome * World L :=
  route [USER_ROLES.ORACLE] true
    (fun req =>
       [ isInt 1 (params_id req);
         isISO8601 (a_fromDate (body req));
         isISO8601 (a_toDate (body req)) ])
    (fun u req w =>
       let milestoneId := default 0 (params_id req) in
       let fromDate := sanitized (a_fromDate (body req)) in
       let toDate := sanitized (a_toDate (body req)) in
       catchMilestone "Failed to auto-verify milestone"
         match getMilestone c initialized (ledger w) milestoneId with
         | Throw error => (Throw error, w)
         | Return milestone =>
             if negb (String.eqb (status milestone) "Pending")
             then (Return (Respond 400 (ErrorJson "Milestone is not in pending status"),
                           w), w)
             else
               match getAggregateValue c initialized (ledger w)
                       (verificationSource milestone) fromDate toDate with
               | Throw error => (Throw error, w)
               | Return aggregateData =>
                   let success := totalValue aggregateData >=? targetValue milestone in
                   match verifyMilestone c initialized (ledger w) milestoneId
                           (totalValue aggregateData) success with
                   | (Throw error, l') => (Throw error, withLedger l' w)
                   | (Return result, l') =>
                       (Return
                          (Respond 200 (AutoVerified milestoneId (targetValue milestone)
                                          (totalValue aggregateData)
                                          (dataPointCount aggregateData)
                                          success (tx_transactionHash result)),
                           logAudit (MILESTONE_AUTO_VERIFIED (user_id u) milestoneId
                                       (projectId milestone) (targetValue milestone)
                                       (totalValue aggregateData)
                                       (dataPointCount aggregateData)
                                       success (tx_transactionHash result)) l' w),
                        withLedger l' w)
                   end
               end
         end).
End Routes.

(** Requests that reach a handler: sent by user [u], not held back by the
    rate limiter. *)
Definition autoVerifyRequest (u : User) (milestoneId : Z) (fromDate toDate : option Z)
    : Request AutoVerifyBody :=
  {| user := Some u; limited := false; params_id := Some milestoneId;
     body := {| a_fromDate := dateField fromDate; a_toDate := dateField toDate |} |}.

Definition verifyRequest (u : User) (milestoneId actualValue : Z) (success : bool)
    : Request VerifyBody :=
  {| user := Some u; limited := false; params_id := Some milestoneId;
     body := {| v_actualValue := Some actualValue; v_success := Some success;
                v_verificationNotes := None |} |}.

Definition disputeRequest (u : User) (milestoneId : Z) (reason : string)
    : Request DisputeBody :=
  {| user := Some u; limited := false; params_id := Some milestoneId;
     body := {| d_reason := reason |} |}.

(** The status [errorHandler] answers a thrown error with, or the status
    sent. *)
Definition statusOf (o : Outcome) : Z :=
  match o with
  | Respond status _ => status
  | Next error => fst (errorHandler error)
  end.

(** A response with a status of the 2xx range. *)
Definition succeeded (o : Outcome) : bool :=
  match o with
  | Respond status _ => (200 <=? status) && (status <? 300)
  | Next _ => false
  end.

End MilestoneRoutes.

(** ** services/paymentGatewayService.js *)
Module PaymentGatewayService.

(** [this.gateways[name]] *)
Record Gateway := {
  baseURL : string;
  timeout : Z
}.

Definition gateways : gmap string Gateway :=
  list_to_map
    [ ("stripe", {| baseURL := "https://api.stripe.com/v1"; timeout := 30000 |});
      ("paypal", {| baseURL := "https://api-m.paypal.com/v1"; timeout := 30000 |});
      ("ach", {| baseURL := "https://api.ach.com/v1"; timeout := 45000 |});
      ("wire", {| baseURL := "https://api.wire.com/v1"; timeout := 60000 |});
      ("crypto", {| baseURL := "https://api.crypto.com/v1"; timeout := 30000 |}) ].

Record RetryConfig := {
  maxAttempts : Z;
  baseDelay : Z;
  maxDelay : Z
}.

Definition retryConfig : RetryConfig :=
  {| maxAttempts := 3; baseDelay := 1000; maxDelay := 30000 |}.

(** The argument of [processPayment]; [None] is a property left out. *)
Record PaymentData := {
  amount : Q;
  currency : option string;
  method : option string;
  beneficiaryAccount : string;
  reference : string;
  milestoneId : option Z;
  projectId : option Z;
  retryOnFailure : option bool
}.

(** The body of a POST to a gateway. *)
Inductive Payload :=
| StripeTransfer (amount : Z) (currency destination description : string)
    (project_id milestone_id : option Z)
| PayPalToken
| PayPalPayout (sender_batch_id : string) (value : Q) (currency : option string)
    (receiver note : string) (accessToken : option string)
| AchTransfer (amount : Q) (currency : option string)
    (recipient_account reference : string) (project_id milestone_id : option Z)
| WireTransfer (amount : Q) (currency : option string)
    (beneficiary_account reference : string) (project_id milestone_id : option Z)
| CryptoTransfer (amount : Q) (currency : option string)
    (destination_address reference : string) (project_id milestone_id : option Z).

Record Post := {
  url : string;
  payload : Payload
}.

(** [response.data], with the properties the service reads.
    [data_batch_header] is [None] when [batch_header] is missing and
    [Some None] when it has no [payout_batch_id]. *)
Record ResponseData := {
  data_id : option string;
  data_transfer_id : option string;
  data_wire_id : option string;
  data_transaction_hash : option string;
  data_batch_header : option (option string);
  data_access_token : option string;
  data_fees : option Q;
  data_network_fee : option Q
}.

(** What the outside answers: the [k]-th reading of the clock
    ([Date.now()], [new Date()]), the [k]-th [Math.random()] rendered by
    [.toString(36).substr(2, 9)], and the reply to the [k]-th POST. *)
Record Env := {
  now : nat -> Z;
  random : nat -> string;
  post : nat -> Post -> Completion ResponseData
}.

(** An entry of [this.paymentStatuses]. *)
Record PaymentStatus := {
  st_status : string;
  st_method : string;
  st_amount : Q;
  st_currency : string;
  st_timestamp : Z;
  st_gatewayReference : option string;
  st_fees : option Q;
  st_error : option string
}.

(** An entry [scheduleRetry] puts in [this.scheduledPayments]. *)
Record ScheduledRetry := {
  sr_paymentData : PaymentData;
  sr_retryTime : Z;
  sr_attempts : Z
}.

(** [logger.audit('PAYMENT_COMPLETED', null, ...)] *)
Record PaymentAudit := {
  pa_paymentId : string;
  pa_milestoneId : option Z;
  pa_projectId : option Z;
  pa_amount : Q;
  pa_method : string;
  pa_gatewayReference : option string
}.

(** The service's maps and everything it has done to the outside: clock
    readings and random draws taken, POSTs issued, [setTimeout] delays
    waited, audit lines written. *)
Record World := {
  clock : nat;
  draws : nat;
  posts : list Post;
  sleeps : list Z;
  paymentStatuses : gmap string PaymentStatus;
  scheduledPayments : gmap string ScheduledRetry;
  audit : list PaymentAudit
}.

(** What a gateway call returns. *)
Record PaymentResult := {
  gatewayReference : option string;
  estimatedCompletion : Z;
  fees : Q
}.

(** What [processPayment] returns. *)
Record PaymentRecord := {
  success : bool;
  paymentId : string;
  pr_status : string;
  pr_gatewayReference : option string;
  pr_estimatedCompletion : Z;
  pr_fees : Q
}.

(** [x || d] on an optional number: [undefined] and [0] are falsy. *)
Definition orElse (x : option Q) (d : Q) : Q :=
  match x with
  | Some q => if Qeq_bool q 0 then d else q
  | None => d
  end.

(** [Math.round], of the exact number: the code rounds the double that
    [amount * 100] gives, which is the same number of cents but for amounts
    such as 1.005, whose double product lies below the half. *)
Definition round (q : Q) : Z := Qfloor (q + (1 # 2)).

(** A template literal's rendering of an optional number. *)
Definition show (x : option Z) : string :=
  match x with
  | Some n => pretty n
  | None => "undefined"
  end.

(** [s.toLowerCase()] *)
Definition lower (a : ascii) : ascii :=
  let n := nat_of_ascii a in
  if ((65 <=? n) && (n <=? 90))%nat then ascii_of_nat (n + 32) else a.

Fixpoint toLowerCase (s : string) : string :=
  match s with
  | EmptyString => EmptyString
  | String a rest => String (lower a) (toLowerCase rest)
  end.

Definition day : Z := 24 * 60 * 60 * 1000.

Section Service.
Variable env : Env.

(** [Date.now()] *)
Definition dateNow (w : World) : Z * World :=
  (now env (clock w),
   {| clock := S (clock w); draws := draws w; posts := posts w; sleeps := sleeps w;
      paymentStatuses := paymentStatuses w;
      scheduledPayments := scheduledPayments w; audit := audit w |}).

(** [Math.random().toString(36).substr(2, 9)] *)
Definition mathRandom (w : World) : string * World :=
  (random env (draws w),
   {| clock := clock w; draws := S (draws w); posts := posts w; sleeps := sleeps w;
      paymentStatuses := paymentStatuses w;
      scheduledPayments := scheduledPayments w; audit := audit w |}).

(** [await axios.post(url, payload, ...)] *)
Definition axiosPost (p : Post) (w : World) : Completion ResponseData * World :=
  (post env (length (posts w)) p,
   {| clock := clock w; draws := draws w; posts := posts w ++ [p]; sleeps := sleeps w;
      paymentStatuses := paymentStatuses w;
      scheduledPayments := scheduledPayments w; audit := audit w |}).

(** [await new Promise(resolve => setTimeout(resolve, delay))] *)
Definition sleep (delay : Z) (w : World) : World :=
  {| clock := clock w; draws := draws w; posts := posts w;
     sleeps := sleeps w ++ [delay];
     paymentStatuses := paymentStatuses w;
     scheduledPayments := scheduledPayments w; audit := audit w |}.

(** The tail shared by the gateway calls: send the transfer, read the
    reference and the fees off the reply, then the clock for
    [estimatedCompletion]. *)
Definition transfer (p : Post) (read : ResponseData -> option string * Q)
    (eta : Z) (w : World) : Completion PaymentResult * World :=
  match axiosPost p w with
  | (Throw e, w1) => (Throw e, w1)
  | (Return d, w1) =>
      let '(t, w2) := dateNow w1 in
      (Return {| gatewayReference := fst (read d);
                 estimatedCompletion := t + eta;
                 fees := snd (read d) |}, w2)
  end.

(** The five gateways.  Where a property of [undefined] is read, the
    runtime's [TypeError] is kept with its message, as a plain error: no
    caller reads its name. *)
Definition processStripePayment (gateway : Gateway) (paymentData : PaymentData)
    (w : World) : Completion PaymentResult * World :=
  match currency paymentData with
  | None =>
      (Throw (Error "Cannot read properties of undefined (reading 'toLowerCase')"), w)
  | Some cur =>
      transfer
        {| url := baseURL gateway ++ "/transfers";
           payload := StripeTransfer (round (amount paymentData * 100))
                        (toLowerCase cur) (beneficiaryAccount paymentData)
                        (reference paymentData)
                        (projectId paymentData) (milestoneId paymentData) |}
        (fun d => (data_id d, orElse (data_fees d) 0)) (2 * day) w
  end.

Definition processPayPalPayment (gateway : Gateway) (paymentData : PaymentData)
    (w : World) : Completion PaymentResult * World :=
  match axiosPost {| url := baseURL gateway ++ "/oauth2/token";
                     payload := PayPalToken |} w with
  | (Throw e, w1) => (Throw e, w1)
  | (Return authResponse, w1) =>
      match axiosPost
              {| url := baseURL gateway ++ "/payments/payouts";
                 payload := PayPalPayout (reference paymentData) (amount paymentData)
                              (currency paymentData) (beneficiaryAccount paymentData)
                              (reference paymentData)
                              (data_access_token authResponse) |} w1 with
      | (Throw e, w2) => (Throw e, w2)
      | (Return d, w2) =>
          match data_batch_header d with
          | None =>
              (Throw (Error
                        "Cannot read properties of undefined (reading 'payout_batch_id')"),
               w2)
          | Some payout_batch_id =>
              let '(t, w3) := dateNow w2 in
              (Return {| gatewayReference := payout_batch_id;
                         estimatedCompletion := t + 3 * day;
                         fees := 0 |}, w3)
          end
      end
  end.

Definition processACHPayment (gateway : Gateway) (paymentData : PaymentData)
    : World -> Completion PaymentResult * World :=
  transfer
    {| url := baseURL gateway ++ "/transfers/ach";
       payload := AchTransfer (amount paymentData) (currency paymentData)
                    (beneficiaryAccount paymentData) (reference paymentData)
                    (projectId paymentData) (milestoneId paymentData) |}
    (fun d => (data_transfer_id d, orElse (data_fees d) (1 # 4))) (1 * day).

Definition processWirePayment (gateway : Gateway) (paymentData : PaymentData)
    : World -> Completion PaymentResult * World :=
  transfer
    {| url := baseURL gateway ++ "/transfers/wire";
       payload := WireTransfer (amount paymentData) (currency paymentData)
                    (beneficiaryAccount paymentData) (reference paymentData)
                    (projectId paymentData) (milestoneId paymentData) |}
    (fun d => (data_wire_id d, orElse (data_fees d) 25)) (2 * day).

Definition processCryptoPayment (gateway : Gateway) (paymentData : PaymentData)
    : World -> Completion PaymentResult * World :=
  transfer
    {| url := baseURL gateway ++ "/transfers/crypto";
       payload := CryptoTransfer (amount paymentData) (currency paymentData)
                    (beneficiaryAccount paymentData) (reference paymentData)
                    (projectId paymentData) (milestoneId paymentData) |}
    (fun d => (data_transaction_hash d, orElse (data_network_fee d) (1 # 1000)))
    (10 * 60 * 1000).

Definition unsupported {A} (method : string) (w : World) : Completion A * World :=
  (Throw (Error ("Unsupported payment method: " ++ method)), w).

(** [executePayment(method, paymentData)]: [this.gateways[method]] is
    defined exactly for the five methods of the [switch].  A method named
    like a property every object inherits ([constructor], [__proto__]) is
    outside the model: the code finds that property in place of a gateway
    and throws from the default case of the [switch]. *)
Definition executePayment (method : string) (paymentData : PaymentData)
    (w : World) : Completion PaymentResult * World :=
  match gateways !! method with
  | None => unsupported method w
  | Some gateway =>
      if String.eqb method "stripe" then processStripePayment gateway paymentData w
      else if String.eqb method "paypal" then processPayPalPayment gateway paymentData w
      else if String.eqb method "ach" then processACHPayment gateway paymentData w
      else if String.eqb method "wire" then processWirePayment gateway paymentData w
      else if String.eqb method "crypto" then processCryptoPayment gateway paymentData w
      else unsupported method w
  end.

(** [processWithRetry(operation, paymentId, attempt = 1)], for
    [attempt >= 1].  The recursion descends on the attempts left,
    [maxAttempts - attempt]. *)
Equations? processWithRetry {A} (cfg : RetryConfig)
    (operation : World -> Completion A * World) (paymentId : string)
    (attempt : Z) (w : World) : Completion A * World
    by wf (Z.to_nat (maxAttempts cfg - attempt)) lt :=
  processWithRetry cfg operation paymentId attempt w with operation w => {
    | (Return r, w1) => (Return r, w1)
    | (Throw error, w1) with Z_ge_lt_dec attempt (maxAttempts cfg) => {
        | left _ => (Throw error, w1)
        | right _ =>
            let delay := Z.min (baseDelay cfg * 2 ^ (attempt - 1)) (maxDelay cfg) in
            processWithRetry cfg operation paymentId (attempt + 1) (sleep delay w1) } }.
Proof. lia. Qed.

(** [generatePaymentId(milestoneId, projectId)] *)
Definition generatePaymentId (milestoneId projectId : option Z) (w : World)
    : string * World :=
  let '(t, w1) := dateNow w in
  let '(r, w2) := mathRandom w1 in
  ("PAY_" ++ show projectId ++ "_" ++ show milestoneId ++ "_" ++ pretty t ++ "_" ++ r,
   w2).

Definition setStatus (paymentId : string) (st : PaymentStatus) (w : World) : World :=
  {| clock := clock w; draws := draws w; posts := posts w; sleeps := sleeps w;
     paymentStatuses := <[paymentId := st]> (paymentStatuses w);
     scheduledPayments := scheduledPayments w; audit := audit w |}.

Definition logAudit (a : PaymentAudit) (w : World) : World :=
  {| clock := clock w; draws := draws w; posts := posts w; sleeps := sleeps w;
     paymentStatuses := paymentStatuses w;
     scheduledPayments := scheduledPayments w; audit := audit w ++ [a] |}.

(** [scheduleRetry(paymentId, paymentData)] *)
Definition scheduleRetry (paymentId : string) (paymentData : PaymentData)
    (w : World) : World :=
  let '(t, w1) := dateNow w in
  {| clock := clock w1; draws := draws w1; posts := posts w1; sleeps := sleeps w1;
     paymentStatuses := paymentStatuses w1;
     scheduledPayments :=
       <[paymentId := {| sr_paymentData := paymentData;
                         sr_retryTime := t + 5 * 60 * 1000;
                         sr_attempts := 1 |}]> (scheduledPayments w1);
     audit := audit w1 |}.

(** [processPayment(paymentData)] *)
Definition processPayment (paymentData : PaymentData) (w : World)
    : Completion PaymentRecord * World :=
  let amount' := amount paymentData in
  let currency' := default "USD" (currency paymentData) in
  let method' := default "ach" (method paymentData) in
  let retryOnFailure' := default true (retryOnFailure paymentData) in
  let '(paymentId', w0) :=
    generatePaymentId (milestoneId paymentData) (projectId paymentData) w in
  let attempt :=
    match gateways !! method' with
    | None => unsupported method' w0
    | Some _ =>
        processWithRetry retryConfig (executePayment method' paymentData)
          paymentId' 1 w0
    end in
  match attempt with
  | (Return result, w1) =>
      let '(t, w2) := dateNow w1 in
      let w3 :=
        setStatus paymentId'
          {| st_status := "completed"; st_method := method'; st_amount := amount';
             st_currency := currency'; st_timestamp := t;
             st_gatewayReference := gatewayReference result;
             st_fees := Some (fees result); st_error := None |} w2 in
      let w4 :=
        logAudit {| pa_paymentId := paymentId';
                    pa_milestoneId := milestoneId paymentData;
                    pa_projectId := projectId paymentData;
                    pa_amount := amount'; pa_method := method';
                    pa_gatewayReference := gatewayReference result |} w3 in
      (Return {| success := true; paymentId := paymentId'; pr_status := "completed";
                 pr_gatewayReference := gatewayReference result;
                 pr_estimatedCompletion := estimatedCompletion result;
                 pr_fees := fees result |}, w4)
  | (Throw error, w1) =>
      let '(t, w2) := dateNow w1 in
      let w3 :=
        setStatus paymentId'
          {| st_status := "failed"; st_method := method'; st_amount := amount';
             st_currency := currency'; st_timestamp := t;
             st_gatewayReference := None; st_fees := None;
             st_error := Some (err_message error) |} w2 in
      (Throw error,
       if retryOnFailure' then scheduleRetry paymentId' paymentData w3 else w3)
  end.
End Service.

End PaymentGatewayService.

(** ** services/bankingService.js *)
Module BankingService.

(** The axios request [_makeRequest] builds. *)
Record Config := {
  cfg_method : string;
  cfg_url : string;
  cfg_timeout : Z;
  cfg_data : option string
}.

(** [this.baseURL], [this.timeout], [this.retryAttempts] *)
Record Service := {
  baseURL : string;
  timeout : Z;
  retryAttempts : Z
}.

Definition service : Service :=
  {| baseURL := "https://api.bank.gov"; timeout := 30000; retryAttempts := 3 |}.

(** Requests sent and [setTimeout] delays waited so far. *)
Record World := {
  requests : list Config;
  sleeps : list Z
}.

Section Requests.
(** The response type, and the banking API's answer to the [k]-th
    request. *)
Context {R : Type}.
Variable axios : nat -> Config -> Completion R.
Variable this : Service.

(** [await axios(config)] *)
Definition send (config : Config) (w : World) : Completion R * World :=
  (axios (length (requests w)) config,
   {| requests := requests w ++ [config]; sleeps := sleeps w |}).

(** [await new Promise(resolve => setTimeout(resolve, delay))] *)
Definition sleep (delay : Z) (w : World) : World :=
  {| requests := requests w; sleeps := sleeps w ++ [delay] |}.

(** [error.response && error.response.status >= 400 &&
    error.response.status < 500] *)
Definition isClientError (error : JsError) : bool :=
  match err_status error with
  | Some status => (status >=? 400) && (status <? 500)
  | None => false
  end.

(** [throw lastError]; [lastError] is still [undefined] when the loop
    body never ran. *)
Definition throwLast (lastError : option JsError) : Completion R :=
  Throw (default {| err_name := "undefined"; err_message := "undefined";
                    err_status := None |} lastError).

(** The [for] loop of [_makeRequest], entered with the loop variable at
    [attempt]; the iterations left, [retryAttempts + 1 - attempt],
    decrease. *)
Equations? attempts (config : Config) (attempt : Z) (lastError : option JsError)
    (w : World) : Completion R * World
    by wf (Z.to_nat (retryAttempts this + 1 - attempt)) lt :=
  attempts config attempt lastError w with Z_le_gt_dec attempt (retryAttempts this) => {
    | right _ => (throwLast lastError, w)
    | left _ with send config w => {
        | (Return response, w1) => (Return response, w1)
        | (Throw error, w1) with isClientError error => {
            | true => (throwLast (Some error), w1)
            | false =>
                attempts config (attempt + 1) (Some error)
                  (if attempt <? retryAttempts this
                   then sleep (2 ^ attempt * 1000) w1 else w1) } } }.
Proof. lia. Qed.

(** [_makeRequest(method, endpoint, data = null)] *)
Definition _makeRequest (method endpoint : string) (data : option string)
    (w : World) : Completion R * World :=
  attempts {| cfg_method := method; cfg_url := baseURL this ++ endpoint;
              cfg_timeout := timeout this; cfg_data := data |} 1 None w.
End Requests.

End BankingService.

(** ** services/dataIntegrationService.js *)
Module DataIntegrationService.

(** The numbers of this module are exact rationals: what is proved of it
    holds of the doubles the code computes with as far as it compares them
    with 0 and with 100.  [DataIntegrationDoubles] below has the
    aggregation on doubles. *)

(** An element of the [sources] argument. *)
Record Source := {
  type : string;
  id : string;
  src_projectId : option string
}.

(** A query parameter: a date as [toISOString()] renders it, the day of
    that rendering, or a text. *)
Inductive Param :=
| IsoDate (date : Z)
| IsoDay (date : Z)
| Text (value : string).

(** A GET request of one of the three fetchers. *)
Record GetRequest := {
  url : string;
  params : list (string * Param);
  timeout : Z
}.

Record RawMeasurement := {
  m_timestamp : Z;
  m_value : Q;
  m_unit : string;
  m_quality_score : option Q;
  m_device_status : string
}.

Record EnergyRecord := {
  rec_date : Z;
  renewable_kwh : Q;
  total_kwh : Q;
  renewable_percentage : Q;
  carbon_footprint_kg : Q
}.

(** [response.data], by the shape of the endpoint that answers.  A reply
    of another shape makes the fetcher's property reads throw. *)
Inductive ReplyData :=
| IoTReply (measurements : list RawMeasurement)
    (total_production average_quality device_uptime : option Q)
    (model last_calibration certification : string)
| GovernmentReply (energy_records : list EnergyRecord)
    (total_renewable_kwh avg_renewable_percentage carbon_saved_kg compliance_score : option Q)
    (certifications : list string)
| VerifierReply (verification_status verifier_name verifier_certification : string)
    (production_verified : option Q) (completed_at expires_at : Z)
| OtherReply.

(** What a fetcher returns, or the [{ error, sourceId }] object the
    aggregation puts in place of a fetch that threw. *)
Inductive SourceResult :=
| IoTProductionData (deviceId : string) (measurements : list RawMeasurement)
    (totalProduction averageQuality : option Q) (dataPoints : nat)
    (deviceUptime : option Q) (deviceModel calibrationDate certificationLevel : string)
| GovernmentEnergyData (facilityId : string) (energyData : list EnergyRecord)
    (totalRenewableEnergy averageRenewablePercentage totalCarbonSaved
       complianceScore : option Q) (certifications : list string)
| ThirdPartyVerification (verificationId : string) (projectId : option string)
    (status verifierName verifierCertification : string)
    (productionVerified : option Q) (completedAt expiresAt : Z)
| FailedSource (error : string) (sourceId : string).

(** [result.error] is set *)
Definition hasError (r : SourceResult) : bool :=
  match r with
  | FailedSource _ _ => true
  | _ => false
  end.

(** [result.summary && result.summary.totalProduction]: only the IoT
    result has a [summary.totalProduction]. *)
Definition summaryTotalProduction (r : SourceResult) : option Q :=
  match r with
  | IoTProductionData _ _ totalProduction _ _ _ _ _ _ => totalProduction
  | _ => None
  end.

(** [result.summary && result.summary.averageQuality] *)
Definition summaryAverageQuality (r : SourceResult) : option Q :=
  match r with
  | IoTProductionData _ _ _ averageQuality _ _ _ _ _ => averageQuality
  | _ => None
  end.

(** A number read in a condition: [undefined] and [0] are falsy. *)
Definition truthy (x : option Q) : option Q :=
  match x with
  | Some q => if Qeq_bool q 0 then None else Some q
  | None => None
  end.

(** A promise once [Promise.allSettled] has seen it. *)
Inductive Settled :=
| fulfilled (value : SourceResult)
| rejected (reason : JsError).

Record Aggregated := {
  totalProduction : Q;
  averageQuality : Q;
  sourcesUsed : nat;
  dataReliability : option Q
}.

(** What [getAggregatedProductionData] returns; [dataReliability] is
    [None] when the division gives [NaN]. *)
Record AggregatedProductionData := {
  period : Z * Z;
  sources : list Settled;
  aggregated : Aggregated;
  timestamp : Z
}.

Definition iotURL : string := "https://iot.greenhydrogen.com".
Definition governmentURL : string := "https://data.energy.gov".
Definition thirdPartyURL : string := "https://api.verifier.com".

Definition typeError {A} : Completion A :=
  Throw (Error "Cannot read properties of undefined").

Section Aggregation.
(** The answer to the request made for the [i]-th source. *)
Variable axios : nat -> GetRequest -> Completion ReplyData.

Definition getIoTProductionData (i : nat) (deviceId : string) (fromDate toDate : Z)
    : Completion SourceResult :=
  rethrow "IoT data retrieval failed: "
    (data ← axios i {| url := iotURL ++ "/devices/" ++ deviceId ++ "/production";
                       params := [("from", IsoDate fromDate); ("to", IsoDate toDate);
                                  ("metric", Text "hydrogen_production_kg")];
                       timeout := 15000 |};
     match data with
     | IoTReply ms total quality uptime model calibration certification =>
         Return (IoTProductionData deviceId ms total quality (length ms) uptime
                   model calibration certification)
     | _ => typeError
     end).

Definition getGovernmentEnergyData (i : nat) (facilityId : string) (fromDate toDate : Z)
    : Completion SourceResult :=
  rethrow "Government data retrieval failed: "
    (data ← axios i {| url := governmentURL ++ "/facilities/" ++ facilityId
                                ++ "/energy-consumption";
                       params := [("start_date", IsoDay fromDate);
                                  ("end_date", IsoDay toDate);
                                  ("data_type", Text "renewable_energy_usage")];
                       timeout := 30000 |};
     match data with
     | GovernmentReply records total avg carbon compliance certifications =>
         Return (GovernmentEnergyData facilityId records total avg carbon compliance
                   certifications)
     | _ => typeError
     end).

Definition getThirdPartyVerification (i : nat) (verificationId : string)
    (projectId : option string) : Completion SourceResult :=
  rethrow "Third-party verification failed: "
    (data ← axios i {| url := thirdPartyURL ++ "/verifications/" ++ verificationId;
                       params := []; timeout := 20000 |};
     match data with
     | VerifierReply status verifier certification verified completed expires =>
         Return (ThirdPartyVerification verificationId projectId status verifier
                   certification verified completed expires)
     | _ => typeError
     end).

(** The [switch] on the source's type. *)
Definition fetchByType (fromDate toDate : Z) (i : nat) (source : Source)
    : Completion SourceResult :=
  if String.eqb (type source) "iot"
  then getIoTProductionData i (id source) fromDate toDate
  else if String.eqb (type source) "government"
  then getGovernmentEnergyData i (id source) fromDate toDate
  else if String.eqb (type source) "third_party"
  then getThirdPartyVerification i (id source) (src_projectId source)
  else Throw (Error ("Unsupported source type: " ++ type source)).

(** The callback of [sources.map]: the fetch, under the [try] whose
    [catch] returns [{ error, sourceId }]. *)
Definition fetchSource (fromDate toDate : Z) (i : nat) (source : Source)
    : Completion SourceResult :=
  match fetchByType fromDate toDate i source with
  | Return data => Return data
  | Throw error => Return (FailedSource (err_message error) (id source))
  end.

(** [Promise.allSettled] *)
Definition allSettled (promises : list (Completion SourceResult)) : list Settled :=
  map (fun p => match p with
                | Return v => fulfilled v
                | Throw e => rejected e
                end) promises.

(** [results.filter(r => r.status === 'fulfilled' && !r.value.error)
           .map(r => r.value)] *)
Definition validResultsOf (results : list Settled) : list SourceResult :=
  omap (fun r => match r with
                 | fulfilled value => if hasError value then None else Some value
                 | rejected _ => None
                 end) results.

(** [getAggregatedProductionData(sources, fromDate, toDate)], [now]
    being the clock's reading for [timestamp]. *)
Definition getAggregatedProductionData (now : Z) (sources : list Source)
    (fromDate toDate : Z) : Completion AggregatedProductionData :=
  let dataPromises := imap (fetchSource fromDate toDate) sources in
  let results := allSettled dataPromises in
  let validResults := validResultsOf results in
  let totalProduction :=
    fold_left (fun sum result =>
                 match truthy (summaryTotalProduction result) with
                 | Some t => (sum + t)%Q
                 | None => sum
                 end) validResults 0%Q in
  let averageQuality :=
    fold_left (fun sum result =>
                 match truthy (summaryAverageQuality result) with
                 | Some q => (sum + q / inject_Z (Z.of_nat (length validResults)))%Q
                 | None => sum
                 end) validResults 0%Q in
  Return {| period := (fromDate, toDate);
            sources := results;
            aggregated :=
              {| totalProduction := totalProduction;
                 averageQuality := averageQuality;
                 sourcesUsed := length validResults;
                 dataReliability :=
                   match sources with
                   | [] => None
                   | _ => Some (inject_Z (Z.of_nat (length validResults))
                                / inject_Z (Z.of_nat (length sources)) * 100)%Q
                   end |};
            timestamp := now |}.
End Aggregation.

(** The sources that succeed, by the data their fetch returned, and what a
    source reports as its total production: its [summary.totalProduction],
    nothing when it has none. *)
Definition succeededData (axios : nat -> GetRequest -> Completion ReplyData)
    (sources : list Source) (fromDate toDate : Z) : list SourceResult :=
  omap (fun p => p)
    (imap (fun i source =>
             match fetchByType axios fromDate toDate i source with
             | Return data => Some data
             | Throw _ => None
             end) sources).

Definition reportedProduction (r : SourceResult) : Q :=
  default 0%Q (summaryTotalProduction r).

Definition sumQ (l : list Q) : Q := fold_right Qplus 0%Q l.

End DataIntegrationService.

(** ** The ledger behind the contracts *)

(** Modelled from the spec: the LedgerGateway, that is the subsidy and the
    oracle contract, of which the backend holds the ABI only.  Projects and
    milestones are the entities of the data model; [verifyMilestone]
    requires the milestone to exist and to be Pending, records the actual
    value, the time and the verifier, and sets Verified or Failed;
    [addMilestone] requires a project that is neither Completed nor
    Cancelled, a deadline in the future and a positive amount;
    [getAggregateValue] totals the readings of a source in the window
    [[from, to)].  It instantiates [Contracts] where a theorem is applied to
    a concrete ledger. *)
Module SpecLedger.
Import BlockchainService.

(** A reading the oracle contract holds for a source. *)
Record Reading := {
  rd_source : string;
  rd_timestamp : Z;
  rd_value : N
}.

Record Ledger := {
  projects : gmap Z RawProject;
  milestones : gmap Z RawMilestone;
  readings : list Reading;
  blockTime : N;
  height : Z;
  signer : string
}.

Definition receipt (l : Ledger) (name : string) (a : list (string * N)) : Receipt :=
  {| transactionHash := "0x" ++ pretty (height l + 1);
     blockNumber := height l + 1;
     events := [ {| event := name; args := a |} ] |}.

Definition getProject (l : Ledger) (projectId : Z) : Completion RawProject :=
  match projects l !! projectId with
  | Some p => Return p
  | None => Throw (Error "Project does not exist")
  end.

Definition getMilestone (l : Ledger) (milestoneId : Z) : Completion RawMilestone :=
  match milestones l !! milestoneId with
  | Some m => Return m
  | None => Throw (Error "Milestone does not exist")
  end.

Definition withMilestone (l : Ledger) (milestoneId : Z) (m : RawMilestone) : Ledger :=
  {| projects := projects l;
     milestones := <[milestoneId := m]> (milestones l);
     readings := readings l;
     blockTime := blockTime l;
     height := height l + 1;
     signer := signer l |}.

Definition addMilestone (l : Ledger) (projectId : Z) (description : string)
    (subsidyAmount : N) (targetValue : Z) (verificationSource : string) (deadline : Z)
    : Completion (Receipt * Ledger) :=
  match projects l !! projectId with
  | None => Throw (Error "Project does not exist")
  | Some p =>
      if (rawp_status p =? 2)%N || (rawp_status p =? 4)%N
         || (deadline <=? Z.of_N (blockTime l)) || (subsidyAmount =? 0)%N
      then Throw (Error "invalid argument")
      else
        let milestoneId := Z.of_nat (size (milestones l)) + 1 in
        Return
          (receipt l "MilestoneAdded" [("milestoneId", Z.to_N milestoneId)],
           withMilestone l milestoneId
             {| raw_id := Z.to_N milestoneId;
                raw_projectId := Z.to_N projectId;
                raw_description := description;
                raw_subsidyAmount := subsidyAmount;
                raw_targetValue := Z.to_N targetValue;
                raw_actualValue := 0;
                raw_verificationSource := verificationSource;
                raw_deadline := Z.to_N deadline;
                raw_status := 0;
                raw_verifiedAt := 0;
                raw_verifiedBy := AddressZero;
                raw_paid := false |})
  end.

Definition verifyMilestone (l : Ledger) (milestoneId actualValue : Z) (success : bool)
    : Completion (Receipt * Ledger) :=
  match milestones l !! milestoneId with
  | None => Throw (Error "Milestone does not exist")
  | Some m =>
      if negb (raw_status m =? 0)%N
      then Throw (Error "execution reverted: milestone is not pending")
      else
        Return
          (receipt l "MilestoneVerified"
             [("milestoneId", raw_id m); ("actualValue", Z.to_N actualValue)],
           withMilestone l milestoneId
             {| raw_id := raw_id m;
                raw_projectId := raw_projectId m;
                raw_description := raw_description m;
                raw_subsidyAmount := raw_subsidyAmount m;
                raw_targetValue := raw_targetValue m;
                raw_actualValue := Z.to_N actualValue;
                raw_verificationSource := raw_verificationSource m;
                raw_deadline := raw_deadline m;
                raw_status := if success then 1 else 2;
                raw_verifiedAt := blockTime l;
                raw_verifiedBy := signer l;
                raw_paid := raw_paid m |})
  end.

Definition getAggregateValue (l : Ledger) (source : string) (fromTimestamp toTimestamp : Z)
    : Completion (N * N) :=
  let window :=
    List.filter (fun r => String.eqb (rd_source r) source
                          && (fromTimestamp <=? rd_timestamp r)
                          && (rd_timestamp r <? toTimestamp)) (readings l) in
  Return (fold_right N.add 0%N (map rd_value window), N.of_nat (length window)).

Definition contractsOn (release : Ethers.Release) : Contracts Ledger :=
  {| library := release;
     subsidy_getProject := getProject;
     subsidy_getMilestone := getMilestone;
     subsidy_addMilestone := addMilestone;
     subsidy_verifyMilestone := verifyMilestone;
     oracle_getAggregateValue := getAggregateValue |}.

(** The contracts made with release 6, with which the service can be
    initialised. *)
Definition contracts : Contracts Ledger := contractsOn Ethers.Ethers6.

End SpecLedger.

(** ** A ledger, its users and their requests *)
Module Scenarios.
Import BlockchainService Auth MilestoneRoutes.

Definition producerWallet : string := "0x00000000000000000000000000000000000000B2".
Definition otherWallet : string := "0x00000000000000000000000000000000000000C3".

(** A project with a subsidy of 1.0, owned by [producerWallet]. *)
Definition project1 : RawProject :=
  {| rawp_id := 1; rawp_producer := producerWallet; rawp_name := "Electrolyser";
     rawp_description := "Green hydrogen plant"; rawp_totalSubsidyAmount := 10 ^ 18;
     rawp_disbursedAmount := 0; rawp_createdAt := 1690000000; rawp_status := 1 |}.

(** Its milestones: one Pending with target 500, one Verified, and one the
    ledger reports with a status code that names no status. *)
Definition pendingMilestone : RawMilestone :=
  {| raw_id := 1; raw_projectId := 1; raw_description := "Produce 500 kg";
     raw_subsidyAmount := 5 * 10 ^ 17; raw_targetValue := 500;
     raw_actualValue := 0; raw_verificationSource := "meter-1";
     raw_deadline := 1800000000; raw_status := 0; raw_verifiedAt := 0;
     raw_verifiedBy := AddressZero; raw_paid := false |}.

Definition verifiedMilestone : RawMilestone :=
  {| raw_id := 2; raw_projectId := 1; raw_description := "Commission the plant";
     raw_subsidyAmount := 10 ^ 17; raw_targetValue := 100;
     raw_actualValue := 120; raw_verificationSource := "meter-1";
     raw_deadline := 1750000000; raw_status := 1; raw_verifiedAt := 1699000000;
     raw_verifiedBy := "0x00000000000000000000000000000000000000A1"; raw_paid := false |}.

Definition unknownMilestone : RawMilestone :=
  {| raw_id := 3; raw_projectId := 1; raw_description := "Produce 900 kg";
     raw_subsidyAmount := 10 ^ 17; raw_targetValue := 900;
     raw_actualValue := 0; raw_verificationSource := "meter-1";
     raw_deadline := 1800000000; raw_status := 7; raw_verifiedAt := 0;
     raw_verifiedBy := AddressZero; raw_paid := false |}.

(** The oracle holds two readings of [meter-1], 200 and 300. *)
Definition ledger0 : SpecLedger.Ledger :=
  {| SpecLedger.projects := {[ 1 := project1 ]};
     SpecLedger.milestones :=
       {[ 1 := pendingMilestone; 2 := verifiedMilestone; 3 := unknownMilestone ]};
     SpecLedger.readings :=
       [ {| SpecLedger.rd_source := "meter-1"; SpecLedger.rd_timestamp := 1700000100;
            SpecLedger.rd_value := 200 |};
         {| SpecLedger.rd_source := "meter-1"; SpecLedger.rd_timestamp := 1700000200;
            SpecLedger.rd_value := 300 |} ];
     SpecLedger.blockTime := 1700001000;
     SpecLedger.height := 10;
     SpecLedger.signer := "0x00000000000000000000000000000000000000A1" |}.

Definition world0 : World SpecLedger.Ledger :=
  {| ledger := ledger0; audit := []; errors := [] |}.

Definition oracle : User :=
  {| user_id := 4; role := USER_ROLES.ORACLE;
     walletAddress := "0x00000000000000000000000000000000000000D4" |}.

Definition owner : User :=
  {| user_id := 2; role := USER_ROLES.PRODUCER; walletAddress := producerWallet |}.

Definition stranger : User :=
  {| user_id := 5; role := USER_ROLES.PRODUCER; walletAddress := otherWallet |}.

(** A well-formed request for a second milestone of project 1. *)
Definition createRequest (u : User) : Request CreateBody :=
  {| user := Some u; limited := false; params_id := None;
     body := {| c_projectId := Some 1;
                c_description := "Produce another 500 kg";
                c_amount := Some (1 # 2)%Q;
                c_subsidyAmount := Some (5 * 10 ^ 17)%N;
                c_targetValue := Some 500;
                c_verificationSource := "meter-1";
                c_deadline := Some 1800000000000 |} |}.

(** Times, as a [Date]'s milliseconds. *)
Definition t0 : Z := 1700000000000.
Definition t1 : Z := 1700000300000.

(** An environment that names a key and the two contracts. *)
Definition environment : Environment :=
  {| BLOCKCHAIN_PRIVATE_KEY :=
       Some "0x0123456789abcdef0123456789abcdef0123456789abcdef0123456789abcdef";
     SUBSIDY_CONTRACT_ADDRESS := Some "0x00000000000000000000000000000000000000F6";
     ORACLE_CONTRACT_ADDRESS := Some "0x00000000000000000000000000000000000000F7" |}.

End Scenarios.

(** ** The retry policy, as the specification words it *)
Module RetryPolicy.
Import PaymentGatewayService.

(** Exponential backoff: the base delay doubled with each attempt, capped
    at the maximum delay. *)
Definition backoff (cfg : RetryConfig) (attempt : Z) : Z :=
  Z.min (baseDelay cfg * 2 ^ (attempt - 1)) (maxDelay cfg).

(** A bounded-attempt retry: run the operation; after a failure, and while
    the budget of further attempts lasts, wait for the backoff and run it
    again; with the budget spent, the failure is the result. *)
Fixpoint retryUpTo {A} (cfg : RetryConfig) (budget : nat)
    (operation : World -> Completion A * World) (attempt : Z) (w : World)
    : Completion A * World :=
  match operation w with
  | (Return r, w1) => (Return r, w1)
  | (Throw error, w1) =>
      match budget with
      | O => (Throw error, w1)
      | S budget' =>
          retryUpTo cfg budget' operation (attempt + 1) (sleep (backoff cfg attempt) w1)
      end
  end.

End RetryPolicy.

(** ** Two payments of one milestone *)
Module PaymentScenarios.
Import PaymentGatewayService.

(** The clock advances by a millisecond per reading; the ACH gateway
    accepts every transfer and numbers its references. *)
Definition env : Env :=
  {| now := fun k => 1700000000000 + Z.of_nat k;
     random := fun k => "k3j9x2m1" ++ pretty k;
     post := fun k _ =>
       Return {| data_id := None; data_transfer_id := Some ("ach_" ++ pretty k);
                 data_wire_id := None; data_transaction_hash := None;
                 data_batch_header := None; data_access_token := None;
                 data_fees := None; data_network_fee := None |} |}.

(** A gateway that is down. *)
Definition down : Env :=
  {| now := now env; random := random env;
     post := fun _ _ => Throw {| err_name := "AxiosError"; err_message := "timeout";
                                 err_status := None |} |}.

Definition start : World :=
  {| clock := 0; draws := 0; posts := []; sleeps := [];
     paymentStatuses := ∅; scheduledPayments := ∅; audit := [] |}.

(** The disbursement of milestone 1 of project 1. *)
Definition disbursement : PaymentData :=
  {| amount := 5000; currency := Some "USD"; method := Some "ach";
     beneficiaryAccount := "021000021-000123456789"; reference := "GH-1-1";
     milestoneId := Some 1; projectId := Some 1; retryOnFailure := None |}.

(** The service after the first payment, and what the second call returns
    and leaves. *)
Definition afterFirst : World := snd (processPayment env disbursement start).

Definition secondRecord : PaymentRecord :=
  {| success := true; paymentId := "PAY_1_1_1700000000003_k3j9x2m11";
     pr_status := "completed"; pr_gatewayReference := Some "ach_1";
     pr_estimatedCompletion := 1700086400004; pr_fees := 1 # 4 |}.

Definition afterSecond : World := snd (processPayment env disbursement afterFirst).

End PaymentScenarios.

(** ** Two meters and a registry *)
Module AggregationScenarios.
Import DataIntegrationService.

Definition meter (name : string) : Source :=
  {| type := "iot"; id := name; src_projectId := None |}.

Definition registry : Source :=
  {| type := "government"; id := "facility-9"; src_projectId := None |}.

(** The first request is answered with a total production of 500, every
    later one times out. *)
Definition firstOnly (i : nat) (request : GetRequest) : Completion ReplyData :=
  match i with
  | O => Return (IoTReply [] (Some 500%Q) (Some (9 # 10)%Q) (Some 1%Q)
                   "HM-200" "2024-01-01" "ISO-17025")
  | _ => Throw {| err_name := "AxiosError"; err_message := "timeout of 15000ms exceeded";
                  err_status := None |}
  end.

(** Every request times out. *)
Definition allDown (i : nat) (request : GetRequest) : Completion ReplyData :=
  firstOnly (S i) request.

End AggregationScenarios.

(** ** A banking API that answers 503, then 404 *)
Module BankingScenarios.
Import BankingService.

Definition unavailable : JsError :=
  {| err_name := "AxiosError"; err_message := "Request failed with status code 503";
     err_status := Some 503 |}.

Definition notFound : JsError :=
  {| err_name := "AxiosError"; err_message := "Request failed with status code 404";
     err_status := Some 404 |}.

Definition axios (k : nat) (config : Config) : Completion string :=
  match k with
  | O => Throw unavailable
  | _ => Throw notFound
  end.

Definition start : World := {| requests := []; sleeps := [] |}.

End BankingScenarios.


(** ** Decimal digits, as [parseInt] and the validators read them *)
Module Decimal.

Definition digit (a : ascii) : option Z :=
  let n := nat_of_ascii a in
  if ((48 <=? n) && (n <=? 57))%nat then Some (Z.of_nat n - 48) else None.

(** The number a run of digits denotes, read after the digits that gave
    [acc]; [None] when a character is no digit. *)
Fixpoint digits (s : string) (acc : Z) : option Z :=
  match s with
  | EmptyString => Some acc
  | String a rest => d ← digit a; digits rest (10 * acc + d)
  end.

End Decimal.
(** ** routes/milestones.js: the reading routes, dispute resolution and
    the router's table *)
Module MilestoneRouter.
Import BlockchainService ErrorHandler Auth MilestoneRoutes Decimal.

(** The middlewares a route lists before its handler: [authorize], the
    rate limiter where the route has one ([limiter] is then its verdict on
    the request) and [validateRequest].  They end the request, or hand it
    to the handler with the [req.user] that [authorize] has found. *)
Definition middlewares (roles : list string) (limiter : option bool)
    (validations : list bool) (user : option User) : Outcome + User :=
  match authorize roles user with
  | inl o => inl o
  | inr u =>
      match limiter ≫= sensitiveOperationLimiter with
      | Some o => inl o
      | None =>
          match validateRequest validations with
          | Some o => inl o
          | None => inr u
          end
      end
  end.

(** What [res.json(body)] sends for the routes below. *)
Inductive Body :=
| MilestoneJson (milestone : Milestone) (project_id : Z)
    (project_name project_producer : string)
| DisputeResolved (milestoneId : Z) (approved : bool) (resolution : string)
    (resolvedBy resolvedAt : Z)
| PendingJson (limit offset : Z)
| OverdueJson
| StatsJson (timeframe : string) (fromDate toDate : Z) (projectId : option Z)
| DisputesJson (status : string)
| QueueJson (source : option string) (lastUpdated : Z).

(** How such a request ends: as a request of [MilestoneRoutes] may (a
    status with an error body, or an error for [errorHandler]), or with
    status 200 and a body. *)
Inductive Reply :=
| Sent (o : Outcome)
| Ok (body : Body).

(** [logger.audit('DISPUTE_RESOLVED', req.user.id, ...)] *)
Record Resolution := {
  res_userId : Z;
  res_milestoneId : Z;
  res_projectId : Z;
  res_approved : bool;
  res_resolution : string
}.

Record ResolveBody := {
  r_approved : option bool;
  r_resolution : string
}.

(** [req.query], each parameter as the text sent, [None] when left out. *)
Record Query := {
  q_limit : option string;
  q_offset : option string;
  q_projectId : option string;
  q_timeframe : option string;
  q_status : option string;
  q_source : option string
}.

(** The integer a text denotes for the validator's [isInt] (an optional
    sign, then decimal digits) and for [parseInt]; [None] when the text is
    not of that form.  [parseInt] gives a double: from 2^53 on it rounds,
    and such ids are outside the model. *)
Definition readInt (s : string) : option Z :=
  match s with
  | EmptyString => None
  | String a rest =>
      if Ascii.eqb a "+" then (if String.eqb rest "" then None else digits rest 0)
      else if Ascii.eqb a "-"
      then (if String.eqb rest "" then None else Z.opp <$> digits rest 0)
      else digits s 0
  end.

(** [.optional().isInt({ min, max })] on a query parameter *)
Definition optionalInt (min : Z) (max : option Z) (v : option string) : bool :=
  match v with
  | None => true
  | Some s =>
      match readInt s with
      | Some n => (min <=? n) && match max with Some m => n <=? m | None => true end
      | None => false
      end
  end.

(** [.optional().isIn(values)] *)
Definition optionalIn (values : list string) (v : option string) : bool :=
  match v with
  | None => true
  | Some s => array_includes values s
  end.

(** The spans of [timeframes] in GET /stats, in milliseconds. *)
Definition timeframes (timeframe : string) : option Z :=
  if String.eqb timeframe "7d" then Some (7 * 24 * 60 * 60 * 1000)
  else if String.eqb timeframe "30d" then Some (30 * 24 * 60 * 60 * 1000)
  else if String.eqb timeframe "90d" then Some (90 * 24 * 60 * 60 * 1000)
  else if String.eqb timeframe "1y" then Some (365 * 24 * 60 * 60 * 1000)
  else None.

Section Routes.
Context {L : Type} (c : Contracts L).
Variable initialized : bool.

(** The [catch] block of the two [:id] routes below. *)
Definition catchReply {A} (title : string) (w : World L)
    (r : Completion A) (k : A -> Reply * World L) : Reply * World L :=
  match r with
  | Return a => k a
  | Throw error =>
      if includes (err_message error) "does not exist"
      then (Sent (Next (NotFoundError "Milestone not found")), w)
      else (Sent (Next error), logError title error w)
  end.

(** GET /api/milestones/:id *)
Definition getMilestoneById (req : Request unit) (w : World L) : Reply * World L :=
  match middlewares [USER_ROLES.GOVERNMENT; USER_ROLES.AUDITOR; USER_ROLES.ORACLE;
                     USER_ROLES.PRODUCER] None
          [isInt 1 (params_id req)] (user req) with
  | inl o => (Sent o, w)
  | inr u =>
      let milestoneId := default 0 (params_id req) in
      catchReply "Failed to get milestone" w
        (milestone ← getMilestone c initialized (ledger w) milestoneId;
         project ← getProject c initialized (ledger w) (projectId milestone);
         if String.eqb (role u) USER_ROLES.PRODUCER
            && negb (String.eqb (producer project) (walletAddress u))
         then Throw (ForbiddenError "You can only view milestones for your own projects")
         else Return (MilestoneJson milestone (p_id project) (name project)
                        (producer project)))
        (fun body => (Ok body, w))
  end.

(** POST /api/milestones/:id/resolve-dispute; [now] is the clock's reading
    for [resolvedAt].  The third component is the line written to the audit
    log, if one is.  The call of the contract is commented out in the
    source. *)
Definition resolveDispute (now : Z) (req : Request ResolveBody) (w : World L)
    : Reply * World L * option Resolution :=
  match middlewares [USER_ROLES.AUDITOR] (Some (limited req))
          [ isInt 1 (params_id req);
            isBoolean (r_approved (body req));
            isLength 10 1000 (trim (r_resolution (body req))) ] (user req) with
  | inl o => (Sent o, w, None)
  | inr u =>
      let milestoneId := default 0 (params_id req) in
      let approved := default false (r_approved (body req)) in
      let resolution := trim (r_resolution (body req)) in
      match getMilestone c initialized (ledger w) milestoneId with
      | Return milestone =>
          if negb (String.eqb (status milestone) "Disputed")
          then (Sent (Respond 400 (ErrorJson "Milestone is not in disputed status")),
                w, None)
          else (Ok (DisputeResolved milestoneId approved resolution (user_id u) now), w,
                Some {| res_userId := user_id u; res_milestoneId := milestoneId;
                        res_projectId := projectId milestone;
                        res_approved := approved; res_resolution := resolution |})
      | Throw error =>
          if includes (err_message error) "does not exist"
          then (Sent (Next (NotFoundError "Milestone not found")), w, None)
          else (Sent (Next error), logError "Failed to resolve dispute" error w, None)
      end
  end.
End Routes.

(** The routes that answer with placeholder data; none reads the
    ledger. *)
Definition answer (m : Outcome + User) (body : Body) : Reply :=
  match m with
  | inl o => Sent o
  | inr _ => Ok body
  end.

(** GET /api/milestones/pending *)
Definition pending (user : option User) (q : Query) : Reply :=
  answer (middlewares [USER_ROLES.ORACLE; USER_ROLES.AUDITOR] None
            [ optionalInt 1 (Some 100) (q_limit q); optionalInt 0 None (q_offset q) ]
            user)
    (PendingJson (default 50 (q_limit q ≫= readInt))
       (default 0 (q_offset q ≫= readInt))).

(** GET /api/milestones/overdue; the route has no validators. *)
Definition overdue (user : option User) : Reply :=
  answer (middlewares [USER_ROLES.GOVERNMENT; USER_ROLES.AUDITOR] None [] user)
    OverdueJson.

(** GET /api/milestones/stats; [now] is [new Date()]. *)
Definition stats (now : Z) (user : option User) (q : Query) : Reply :=
  let timeframe := default "30d" (q_timeframe q) in
  answer (middlewares [USER_ROLES.GOVERNMENT; USER_ROLES.AUDITOR] None
            [ optionalInt 1 None (q_projectId q);
              optionalIn ["7d"; "30d"; "90d"; "1y"] (q_timeframe q) ] user)
    (StatsJson timeframe (now - default 0 (timeframes timeframe)) now
       (q_projectId q ≫= readInt)).

(** GET /api/milestones/disputes *)
Definition disputes (user : option User) (q : Query) : Reply :=
  answer (middlewares [USER_ROLES.AUDITOR] None
            [ optionalIn ["open"; "resolved"] (q_status q);
              optionalInt 1 (Some 100) (q_limit q) ] user)
    (DisputesJson (default "open" (q_status q))).

(** GET /api/milestones/verification/queue *)
Definition verificationQueue (now : Z) (user : option User) (q : Query) : Reply :=
  answer (middlewares [USER_ROLES.ORACLE] None
            [ match q_source q with
              | Some source => (1 <=? String.length (trim source))%nat
              | None => true
              end ] user)
    (QueueJson (trim <$> q_source q) now).

(** *** The router *)

Inductive Method := GET | POST.

(** A piece of a route's path: a literal, or a parameter such as [:id]. *)
Inductive Segment :=
| Lit (text : string)
| Param.

Inductive RouteName :=
| AddMilestone | MilestoneById | VerifyMilestone | DisputeMilestone
| PendingMilestones | OverdueMilestones | MilestoneStats | DisputedMilestones
| ResolveDispute | VerificationQueue | AutoVerifyMilestone.

(** The calls of [router.get] and [router.post], in the order of the
    file. *)
Definition routes : list (Method * list Segment * RouteName) :=
  [ (POST, [], AddMilestone);
    (GET, [Param], MilestoneById);
    (POST, [Param; Lit "verify"], VerifyMilestone);
    (POST, [Param; Lit "dispute"], DisputeMilestone);
    (GET, [Lit "pending"], PendingMilestones);
    (GET, [Lit "overdue"], OverdueMilestones);
    (GET, [Lit "stats"], MilestoneStats);
    (GET, [Lit "disputes"], DisputedMilestones);
    (POST, [Param; Lit "resolve-dispute"], ResolveDispute);
    (GET, [Lit "verification"; Lit "queue"], VerificationQueue);
    (POST, [Param; Lit "auto-verify"], AutoVerifyMilestone) ].

Definition sameMethod (a b : Method) : bool :=
  match a, b with
  | GET, GET | POST, POST => true
  | _, _ => false
  end.

(** Express matches a path against a route piece by piece: a literal
    without regard to case, a parameter against any non-empty piece, which
    it captures.  [path] is the request's path below the router's mount
    point, split at its slashes, without the one trailing slash that
    Express ignores. *)
Fixpoint matchPath (pattern : list Segment) (path : list string)
    : option (list string) :=
  match pattern, path with
  | [], [] => Some []
  | Lit text :: pattern', piece :: path' =>
      if String.eqb (PaymentGatewayService.toLowerCase piece)
                    (PaymentGatewayService.toLowerCase text)
      then matchPath pattern' path' else None
  | Param :: pattern', piece :: path' =>
      if String.eqb piece "" then None
      else cons piece <$> matchPath pattern' path'
  | _, _ => None
  end.

(** The first route of the table that matches is the one that runs: every
    route of this router ends the request. *)
Fixpoint firstMatch (table : list (Method * list Segment * RouteName))
    (method : Method) (path : list string) : option (RouteName * list string) :=
  match table with
  | [] => None
  | (m, pattern, name) :: table' =>
      match (if sameMethod m method then matchPath pattern path else None) with
      | Some params => Some (name, params)
      | None => firstMatch table' method path
      end
  end.

Definition dispatch : Method -> list string -> option (RouteName * list string) :=
  firstMatch routes.

(** A GET request to the router: the reply of the route that runs, [None]
    when no route matches and the request falls through to the
    application's 404 handler. *)
Definition handleGet {L} (c : Contracts L) (initialized : bool) (now : Z)
    (user : option User) (path : list string) (q : Query) (w : World L)
    : option (Reply * World L) :=
  match dispatch GET path with
  | Some (MilestoneById, [piece]) =>
      Some (getMilestoneById c initialized
              {| MilestoneRoutes.user := user; limited := false;
                 params_id := readInt piece; body := tt |} w)
  | Some (PendingMilestones, _) => Some (pending user q, w)
  | Some (OverdueMilestones, _) => Some (overdue user, w)
  | Some (MilestoneStats, _) => Some (stats now user q, w)
  | Some (DisputedMilestones, _) => Some (disputes user q, w)
  | Some (VerificationQueue, _) => Some (verificationQueue now user q, w)
  | _ => None
  end.

Definition emptyQuery : Query :=
  {| q_limit := None; q_offset := None; q_projectId := None; q_timeframe := None;
     q_status := None; q_source := None |}.

(** A request to resolve a dispute that reaches the handler. *)
Definition resolveRequest (u : User) (milestoneId : Z) (approved : bool)
    (resolution : string) : Request ResolveBody :=
  {| user := Some u; limited := false; params_id := Some milestoneId;
     body := {| r_approved := Some approved; r_resolution := resolution |} |}.

Definition byIdRequest (u : User) (milestoneId : Z) : Request unit :=
  {| user := Some u; limited := false; params_id := Some milestoneId; body := tt |}.

(** A body for POST /api/milestones with its [amount] replaced. *)
Definition withAmount (amount : option Q) (b : CreateBody) : CreateBody :=
  {| c_projectId := c_projectId b; c_description := c_description b;
     c_amount := amount; c_subsidyAmount := c_subsidyAmount b;
     c_targetValue := c_targetValue b;
     c_verificationSource := c_verificationSource b; c_deadline := c_deadline b |}.

(** The body that the test "should add milestone as government" of
    part_002 sends: it names [subsidyAmount: 0.5] and no [amount]. *)
Definition testMilestone (deadline : Z) : CreateBody :=
  {| c_projectId := Some 1;
     c_description := "Produce 500kg of green hydrogen for testing";
     c_amount := None;
     c_subsidyAmount := Some (5 * 10 ^ 17)%N;
     c_targetValue := Some 500;
     c_verificationSource := "test-meter-001";
     c_deadline := Some deadline |}.

End MilestoneRouter.

(** ** An auditor beside the users of [Scenarios] *)
Module RouterScenarios.
Import Auth.

Definition auditor : User :=
  {| user_id := 3; role := USER_ROLES.AUDITOR;
     walletAddress := "0x00000000000000000000000000000000000000E5" |}.

End RouterScenarios.

(** ** services/paymentGatewayService.js: status queries and analytics *)
Module PaymentAnalytics.
Import PaymentGatewayService.

(** [getPaymentStatus(paymentId)]; [None] is [null]. *)
Definition getPaymentStatus (paymentId : string) (w : World) : option PaymentStatus :=
  paymentStatuses w !! paymentId.

(** [getAllPaymentStatuses()] *)
Definition getAllPaymentStatuses (w : World) : list (string * PaymentStatus) :=
  map_to_list (paymentStatuses w).

Definition completed (s : PaymentStatus) : bool := String.eqb (st_status s) "completed".

Definition failed (s : PaymentStatus) : bool := String.eqb (st_status s) "failed".

(** [getMethodBreakdown(statuses)]: the object [breakdown], a count per
    method name; a name absent from the map is a property the object does
    not have.  Methods named like a property every object inherits
    ([constructor], [__proto__]) are outside the model. *)
Definition getMethodBreakdown (statuses : list PaymentStatus) : gmap string Z :=
  fold_left (fun breakdown status =>
               if completed status
               then <[st_method status :=
                        default 0 (breakdown !! st_method status) + 1]> breakdown
               else breakdown) statuses ∅.

(** The number of completed payments made by [method] among [statuses],
    and the sum of the counts of a breakdown. *)
Definition completedBy (method : string) (statuses : list PaymentStatus) : nat :=
  length (List.filter (fun s => completed s && String.eqb (st_method s) method) statuses).

Definition breakdownTotal (breakdown : gmap string Z) : Z :=
  map_fold (fun _ count sum => count + sum) 0 breakdown.

Record Analytics := {
  totalPayments : nat;
  completedPayments : nat;
  failedPayments : nat;
  totalAmount : Q;
  totalFees : Q;
  methodBreakdown : gmap string Z
}.

(** [getPaymentAnalytics()] *)
Definition getPaymentAnalytics (w : World) : Analytics :=
  let statuses := snd <$> map_to_list (paymentStatuses w) in
  {| totalPayments := length statuses;
     completedPayments := length (List.filter completed statuses);
     failedPayments := length (List.filter failed statuses);
     totalAmount :=
       fold_left (fun sum s => (sum + st_amount s)%Q) (List.filter completed statuses) 0%Q;
     totalFees :=
       fold_left (fun sum s => (sum + orElse (st_fees s) 0)%Q)
         (List.filter completed statuses) 0%Q;
     methodBreakdown := getMethodBreakdown statuses |}.

(** World [w1] is world [w] after the POSTs [ps] and the waits [ds], with
    the maps and the audit log of the service as they were. *)
Definition after (w : World) (ps : list Post) (ds : list Z) (w1 : World) : Prop :=
  posts w1 = (posts w ++ ps)%list
  /\ sleeps w1 = (sleeps w ++ ds)%list
  /\ paymentStatuses w1 = paymentStatuses w
  /\ scheduledPayments w1 = scheduledPayments w
  /\ audit w1 = audit w
  /\ draws w1 = draws w
  /\ (clock w <= clock w1)%nat.

(** The two POSTs of [processPayPalPayment]: the request for an access
    token, and the payout sent with the token of the reply. *)
Definition paypalToken : Post :=
  {| url := "https://api-m.paypal.com/v1" ++ "/oauth2/token"; payload := PayPalToken |}.

Definition paypalPayout (paymentData : PaymentData) (accessToken : option string) : Post :=
  {| url := "https://api-m.paypal.com/v1" ++ "/payments/payouts";
     payload := PayPalPayout (reference paymentData) (amount paymentData)
                  (currency paymentData) (beneficiaryAccount paymentData)
                  (reference paymentData) accessToken |}.

(** The payment id [processPayment] generates in world [w]. *)
Definition nextPaymentId (env : Env) (paymentData : PaymentData) (w : World) : string :=
  fst (generatePaymentId env (milestoneId paymentData) (projectId paymentData) w).

End PaymentAnalytics.

(** ** A PayPal gateway whose replies carry no batch header, and a Stripe
    payment without a currency *)
Module PayoutScenarios.
Import PaymentGatewayService.

Definition headless : Env :=
  {| now := now PaymentScenarios.env;
     random := random PaymentScenarios.env;
     post := fun k _ =>
       Return {| data_id := None; data_transfer_id := None; data_wire_id := None;
                 data_transaction_hash := None; data_batch_header := None;
                 data_access_token := Some ("token_" ++ pretty k);
                 data_fees := None; data_network_fee := None |} |}.

Definition payout : PaymentData :=
  {| amount := 5000; currency := Some "USD"; method := Some "paypal";
     beneficiaryAccount := "producer@example.com"; reference := "GH-1-1";
     milestoneId := Some 1; projectId := Some 1; retryOnFailure := None |}.

Definition noCurrency : PaymentData :=
  {| amount := 5000; currency := None; method := Some "stripe";
     beneficiaryAccount := "acct_1"; reference := "GH-1-1";
     milestoneId := Some 1; projectId := Some 1; retryOnFailure := Some false |}.

End PayoutScenarios.

(** ** services/bankingService.js: masking an account number *)
Module BankingAccounts.

(** [accountNumber.slice(-4)] on a text of at least four characters: its
    last four. *)
Definition lastFour (accountNumber : string) : string :=
  String.substring (String.length accountNumber - 4) 4 accountNumber.

(** [_maskAccountNumber(accountNumber)]; [None] is [undefined] or [null]. *)
Definition _maskAccountNumber (accountNumber : option string) : string :=
  match accountNumber with
  | None => "XXXX"
  | Some number =>
      if (String.length number <? 4)%nat then "XXXX" else "XXXX" ++ lastFour number
  end.

End BankingAccounts.

(** ** The security service (second part of services/bankingService.js) *)
Module SecurityService.
Import Decimal.

(** *** Failed log-in attempts *)

(** An entry of [this.failedAttempts]. *)
Record Attempts := {
  count : Z;
  firstAttempt : Z;
  lastAttempt : Z
}.

Definition hour : Z := 3600000.

(** [trackFailedAttempt(identifier)]; [now] is [Date.now()]. *)
Definition trackFailedAttempt (now : Z) (identifier : string)
    (failedAttempts : gmap string Attempts) : Attempts * gmap string Attempts :=
  let attempts :=
    default {| count := 0; firstAttempt := now; lastAttempt := now |}
      (failedAttempts !! identifier) in
  let attempts :=
    {| count := count attempts + 1; firstAttempt := firstAttempt attempts;
       lastAttempt := now |} in
  let attempts :=
    if now - firstAttempt attempts >? hour
    then {| count := 1; firstAttempt := now; lastAttempt := lastAttempt attempts |}
    else attempts in
  (attempts, <[identifier := attempts]> failedAttempts).

(** What [isAccountLocked] returns: [false], [{ locked: false }] or
    [{ locked: true, lockUntil, attemptCount }]. *)
Inductive LockStatus :=
| NoRecord
| Unlocked
| Locked (lockUntil attemptCount : Z).

(** [isAccountLocked(identifier)]; [now] is the [Date.now()] it reads
    when the count has reached the threshold. *)
Definition isAccountLocked (now : Z) (identifier : string)
    (failedAttempts : gmap string Attempts) : LockStatus * gmap string Attempts :=
  match failedAttempts !! identifier with
  | None => (NoRecord, failedAttempts)
  | Some attempts =>
      if count attempts >=? 5
      then
        let lockUntil := lastAttempt attempts + hour in
        if now <? lockUntil
        then (Locked lockUntil (count attempts), failedAttempts)
        else (Unlocked, delete identifier failedAttempts)
      else (Unlocked, failedAttempts)
  end.

(** [resetFailedAttempts(identifier)] *)
Definition resetFailedAttempts (identifier : string)
    (failedAttempts : gmap string Attempts) : gmap string Attempts :=
  delete identifier failedAttempts.

(** Failed attempts of one identifier, at the given times in turn. *)
Definition trackAll (times : list Z) (identifier : string)
    (failedAttempts : gmap string Attempts) : gmap string Attempts :=
  fold_left (fun store now => snd (trackFailedAttempt now identifier store))
    times failedAttempts.

(** *** Tokens and sessions *)

(** An entry of [this.sessionStore]; [expiresAt] is a date made by
    [newDate]. *)
Record Session := {
  userId : option Z;
  createdAt : Z;
  expiresAt : option Z;
  isValid : bool
}.

(** The [timeUnits] of [_parseExpirationTime]. *)
Definition timeUnits (unit : ascii) : option Z :=
  if Ascii.eqb unit "s" then Some 1000
  else if Ascii.eqb unit "m" then Some (60 * 1000)
  else if Ascii.eqb unit "h" then Some (60 * 60 * 1000)
  else if Ascii.eqb unit "d" then Some (24 * 60 * 60 * 1000)
  else None.

(** A text split into all but its last character and that character. *)
Fixpoint splitLast (s : string) : option (string * ascii) :=
  match s with
  | EmptyString => None
  | String a EmptyString => Some (EmptyString, a)
  | String a rest => (fun p => (String a (fst p), snd p)) <$> splitLast rest
  end.

(** [_parseExpirationTime(expiresIn)]: digits followed by one of [s],
    [m], [h], [d]; 24 hours for any other text. *)
Definition _parseExpirationTime (expiresIn : string) : Z :=
  let fallback := 24 * 60 * 60 * 1000 in
  match splitLast expiresIn with
  | Some (value, unit) =>
      match timeUnits unit, (if String.eqb value "" then None else digits value 0) with
      | Some milliseconds, Some n => n * milliseconds
      | _, _ => fallback
      end
  | None => fallback
  end.

(** What [jwt.sign] is given and [jwt.verify] returns: the caller's
    payload, the token's id [jti] ([None] when the token has none) and
    [iat]. *)
Record TokenPayload (P : Type) := {
  payload : P;
  jti : option string;
  iat : Z
}.
Arguments payload {P}.
Arguments jti {P}.
Arguments iat {P}.

Definition invalidToken {A} : Completion A :=
  Throw (Error "Invalid or expired token").

Section Tokens.
(** The caller's payload with its [id], and the jsonwebtoken library:
    [sign] with the [expiresIn] option, and [verify]. *)
Context {P : Type}.
Variable payloadId : P -> option Z.
Variable sign : TokenPayload P -> string -> Completion string.
Variable verify : string -> Completion (TokenPayload P).

(** [generateSecureToken(payload, expiresIn)]; [tokenId] is the UUID
    drawn, [t1], [t2] and [t3] are the readings of the clock for [iat],
    [createdAt] and [expiresAt], none of them negative. *)
Definition generateSecureToken (tokenId : string) (t1 t2 t3 : Z) (data : P)
    (expiresIn : string) (sessionStore : gmap string Session)
    : Completion (string * string) * gmap string Session :=
  match sign {| payload := data; jti := Some tokenId; iat := t1 / 1000 |} expiresIn with
  | Throw _ => (Throw (Error "Token generation failed"), sessionStore)
  | Return token =>
      (Return (token, tokenId),
       <[tokenId := {| userId := payloadId data; createdAt := t2;
                       expiresAt := newDate (t3 + _parseExpirationTime expiresIn);
                       isValid := true |}]> sessionStore)
  end.

(** [verifyToken(token)] *)
Definition verifyToken (token : string) (sessionStore : gmap string Session)
    : Completion (TokenPayload P) :=
  match verify token with
  | Throw _ => invalidToken
  | Return decoded =>
      match jti decoded ≫= (sessionStore !!.) with
      | Some session => if isValid session then Return decoded else invalidToken
      | None => invalidToken
      end
  end.
End Tokens.

(** [revokeToken(tokenId)] *)
Definition revokeToken (tokenId : string) (sessionStore : gmap string Session)
    : bool * gmap string Session :=
  match sessionStore !! tokenId with
  | Some session =>
      (true, <[tokenId := {| userId := userId session; createdAt := createdAt session;
                             expiresAt := expiresAt session; isValid := false |}]>
               sessionStore)
  | None => (false, sessionStore)
  end.

(** [session.expiresAt.getTime() <= now], which is false of an invalid
    date. *)
Definition expired (now : Z) (session : Session) : bool :=
  match expiresAt session with
  | Some time => time <=? now
  | None => false
  end.

(** [cleanExpiredSessions()]; [now] is [Date.now()]. *)
Definition cleanExpiredSessions (now : Z) (sessionStore : gmap string Session)
    : gmap string Session :=
  filter (fun entry => expired now (snd entry) = false) sessionStore.

(** *** The audit trail *)

(** The character that opens and closes a JSON string. *)
Definition quote : string := String (ascii_of_nat 34) EmptyString.

(** [JSON.stringify] of an object, from its properties in order; a value
    is given as the JSON text it renders to, and a property whose value is
    [undefined] ([None]) is left out. *)
Definition stringify (properties : list (string * option string)) : string :=
  "{" ++ String.concat ","
           (omap (fun property =>
                    (fun value => quote ++ fst property ++ quote ++ ":" ++ value)
                      <$> snd property) properties)
      ++ "}".

(** The record [createAuditTrail] builds.  [action], [userId],
    [resourceType] and [resourceId] are kept as their JSON texts;
    [oldData] and [newData] hold a checksum, [None] being [null]. *)
Record AuditRecord := {
  ar_id : string;
  ar_action : option string;
  ar_userId : option string;
  ar_resourceType : option string;
  ar_resourceId : option string;
  ar_oldData : option string;
  ar_newData : option string;
  ar_timestamp : Z;
  ar_checksum : option string
}.

Section AuditTrail.
(** SHA-256 in hexadecimal, [JSON.stringify] of a string and
    [toISOString] of a date. *)
Variable sha256 : string -> string.
Variable text : string -> string.
Variable iso : Z -> string.

Definition nullable (v : option string) : option string :=
  Some (default "null" (text <$> v)).

(** The properties of an audit record other than [checksum], in the
    order of the object literal. *)
Definition properties (r : AuditRecord) : list (string * option string) :=
  [ ("id", Some (text (ar_id r)));
    ("action", ar_action r);
    ("userId", ar_userId r);
    ("resourceType", ar_resourceType r);
    ("resourceId", ar_resourceId r);
    ("oldData", nullable (ar_oldData r));
    ("newData", nullable (ar_newData r));
    ("timestamp", Some (text (iso (ar_timestamp r)))) ].

(** [createAuditTrail(action, userId, resourceType, resourceId, oldData,
    newData)]; [uuid] is the id drawn and [now] the clock's reading;
    [oldData] and [newData] are the texts [createChecksum] hashes for them,
    [None] when they are falsy.  The checksum is taken of the record while
    its [checksum] is still [null]. *)
Definition createAuditTrail (uuid : string) (now : Z)
    (action userId resourceType resourceId oldData newData : option string)
    : AuditRecord :=
  let auditRecord :=
    {| ar_id := uuid; ar_action := action; ar_userId := userId;
       ar_resourceType := resourceType; ar_resourceId := resourceId;
       ar_oldData := sha256 <$> oldData; ar_newData := sha256 <$> newData;
       ar_timestamp := now; ar_checksum := None |} in
  {| ar_id := ar_id auditRecord; ar_action := ar_action auditRecord;
     ar_userId := ar_userId auditRecord;
     ar_resourceType := ar_resourceType auditRecord;
     ar_resourceId := ar_resourceId auditRecord;
     ar_oldData := ar_oldData auditRecord; ar_newData := ar_newData auditRecord;
     ar_timestamp := ar_timestamp auditRecord;
     ar_checksum :=
       Some (sha256 (stringify (properties auditRecord
                                ++ [("checksum", nullable (ar_checksum auditRecord))]))) |}.

(** [verifyAuditTrail(auditRecord)]: the checksum of the record without
    its [checksum] property. *)
Definition verifyAuditTrail (auditRecord : AuditRecord) : bool :=
  match ar_checksum auditRecord with
  | Some checksum => String.eqb checksum (sha256 (stringify (properties auditRecord)))
  | None => false
  end.
End AuditTrail.

End SecurityService.

(** ** Five wrong passwords within the hour, and a sixth after it *)
Module LockoutScenarios.
Import SecurityService.

Definition minute : Z := 60000.

(** Failures at 0, 10, 20, 30 and 59 minutes. *)
Definition failures : list Z := [0; 10 * minute; 20 * minute; 30 * minute; 59 * minute].

Definition locked : gmap string Attempts := trackAll failures "producer@example.com" ∅.

End LockoutScenarios.

(** ** A token library that signs a payload as "jwt." and its id *)
Module TokenScenarios.
Import SecurityService.

Definition sign (p : TokenPayload Z) (expiresIn : string) : Completion string :=
  Return ("jwt." ++ default "" (jti p)).

Definition verify (token : string) : Completion (TokenPayload Z) :=
  Return {| payload := 2;
            jti := Some (String.substring 4 (String.length token - 4) token);
            iat := 1700000000 |}.

Definition payloadId (id : Z) : option Z := Some id.

End TokenScenarios.

(** ** services/dataIntegrationService.js on the numbers it computes with

    [DataIntegrationService] above reads the numbers of the replies as
    exact rationals, which keeps how they compare with 0 and with 100.
    The numbers of the code are IEEE 754 doubles, and every sum, quotient
    and product is rounded to one; this module is the aggregation with its
    numbers as doubles.  A number of a reply is the double [JSON.parse]
    has made of it, [None] when the reply has no such property. *)
Module DataIntegrationDoubles.
Import PrimFloat.

Definition Source : Type := DataIntegrationService.Source.
Definition GetRequest : Type := DataIntegrationService.GetRequest.

(** The length of an array as a number; the lengths of arrays are below
    [2^32], for which the conversion is exact. *)
Definition ofLength (n : nat) : float :=
  of_uint63 (Uint63.of_Z (Z.of_nat n)).

Record RawMeasurement := {
  m_timestamp : Z;
  m_value : float;
  m_unit : string;
  m_quality_score : option float;
  m_device_status : string
}.

Record EnergyRecord := {
  rec_date : Z;
  renewable_kwh : float;
  total_kwh : float;
  renewable_percentage : float;
  carbon_footprint_kg : float
}.

(** [response.data], by the shape of the endpoint that answers.  A reply
    of another shape makes the fetcher's property reads throw. *)
Inductive ReplyData :=
| IoTReply (measurements : list RawMeasurement)
    (total_production average_quality device_uptime : option float)
    (model last_calibration certification : string)
| GovernmentReply (energy_records : list EnergyRecord)
    (total_renewable_kwh avg_renewable_percentage carbon_saved_kg
       compliance_score : option float)
    (certifications : list string)
| VerifierReply (verification_status verifier_name verifier_certification : string)
    (production_verified : option float) (completed_at expires_at : Z)
| OtherReply.

(** What a fetcher returns, or the [{ error, sourceId }] object the
    aggregation puts in place of a fetch that threw. *)
Inductive SourceResult :=
| IoTProductionData (deviceId : string) (measurements : list RawMeasurement)
    (totalProduction averageQuality : option float) (dataPoints : nat)
    (deviceUptime : option float) (deviceModel calibrationDate certificationLevel : string)
| GovernmentEnergyData (facilityId : string) (energyData : list EnergyRecord)
    (totalRenewableEnergy averageRenewablePercentage totalCarbonSaved
       complianceScore : option float) (certifications : list string)
| ThirdPartyVerification (verificationId : string) (projectId : option string)
    (status verifierName verifierCertification : string)
    (productionVerified : option float) (completedAt expiresAt : Z)
| FailedSource (error : string) (sourceId : string).

(** [result.error] is set *)
Definition hasError (r : SourceResult) : bool :=
  match r with
  | FailedSource _ _ => true
  | _ => false
  end.

(** [result.summary && result.summary.totalProduction]: only the IoT
    result has a [summary.totalProduction]. *)
Definition summaryTotalProduction (r : SourceResult) : option float :=
  match r with
  | IoTProductionData _ _ totalProduction _ _ _ _ _ _ => totalProduction
  | _ => None
  end.

(** [result.summary && result.summary.averageQuality] *)
Definition summaryAverageQuality (r : SourceResult) : option float :=
  match r with
  | IoTProductionData _ _ _ averageQuality _ _ _ _ _ => averageQuality
  | _ => None
  end.

(** A number read in a condition: [undefined], [0], [-0] and [NaN] are
    falsy. *)
Definition truthy (x : option float) : option float :=
  match x with
  | Some d => if is_zero d || is_nan d then None else Some d
  | None => None
  end.

(** A promise once [Promise.allSettled] has seen it. *)
Inductive Settled :=
| fulfilled (value : SourceResult)
| rejected (reason : JsError).

(** The [aggregated] object; its [dataReliability] is [NaN] when the
    list of sources is empty. *)
Record Aggregated := {
  totalProduction : float;
  averageQuality : float;
  sourcesUsed : nat;
  dataReliability : float
}.

Record AggregatedProductionData := {
  period : Z * Z;
  sources : list Settled;
  aggregated : Aggregated;
  timestamp : Z
}.

Section Aggregation.
(** The answer to the request made for the [i]-th source. *)
Variable axios : nat -> GetRequest -> Completion ReplyData.

Definition getIoTProductionData (i : nat) (deviceId : string) (fromDate toDate : Z)
    : Completion SourceResult :=
  rethrow "IoT data retrieval failed: "
    (data ← axios i (DataIntegrationService.Build_GetRequest
                       (DataIntegrationService.iotURL ++ "/devices/" ++ deviceId
                          ++ "/production")
                       [("from", DataIntegrationService.IsoDate fromDate);
                        ("to", DataIntegrationService.IsoDate toDate);
                        ("metric", DataIntegrationService.Text "hydrogen_production_kg")]
                       15000);
     match data with
     | IoTReply ms total quality uptime model calibration certification =>
         Return (IoTProductionData deviceId ms total quality (length ms) uptime
                   model calibration certification)
     | _ => DataIntegrationService.typeError
     end).

Definition getGovernmentEnergyData (i : nat) (facilityId : string) (fromDate toDate : Z)
    : Completion SourceResult :=
  rethrow "Government data retrieval failed: "
    (data ← axios i (DataIntegrationService.Build_GetRequest
                       (DataIntegrationService.governmentURL ++ "/facilities/"
                          ++ facilityId ++ "/energy-consumption")
                       [("start_date", DataIntegrationService.IsoDay fromDate);
                        ("end_date", DataIntegrationService.IsoDay toDate);
                        ("data_type", DataIntegrationService.Text "renewable_energy_usage")]
                       30000);
     match data with
     | GovernmentReply records total avg carbon compliance certifications =>
         Return (GovernmentEnergyData facilityId records total avg carbon compliance
                   certifications)
     | _ => DataIntegrationService.typeError
     end).

Definition getThirdPartyVerification (i : nat) (verificationId : string)
    (projectId : option string) : Completion SourceResult :=
  rethrow "Third-party verification failed: "
    (data ← axios i (DataIntegrationService.Build_GetRequest
                       (DataIntegrationService.thirdPartyURL ++ "/verifications/"
                          ++ verificationId)
                       [] 20000);
     match data with
     | VerifierReply status verifier certification verified completed expires =>
         Return (ThirdPartyVerification verificationId projectId status verifier
                   certification verified completed expires)
     | _ => DataIntegrationService.typeError
     end).

(** The [switch] on the source's type. *)
Definition fetchByType (fromDate toDate : Z) (i : nat) (source : Source)
    : Completion SourceResult :=
  let type := DataIntegrationService.type source in
  let id := DataIntegrationService.id source in
  if String.eqb type "iot"
  then getIoTProductionData i id fromDate toDate
  else if String.eqb type "government"
  then getGovernmentEnergyData i id fromDate toDate
  else if String.eqb type "third_party"
  then getThirdPartyVerification i id (DataIntegrationService.src_projectId source)
  else Throw (Error ("Unsupported source type: " ++ type)).

(** The callback of [sources.map]: the fetch, under the [try] whose
    [catch] returns [{ error, sourceId }]. *)
Definition fetchSource (fromDate toDate : Z) (i : nat) (source : Source)
    : Completion SourceResult :=
  match fetchByType fromDate toDate i source with
  | Return data => Return data
  | Throw error =>
      Return (FailedSource (err_message error) (DataIntegrationService.id source))
  end.

(** [Promise.allSettled] *)
Definition allSettled (promises : list (Completion SourceResult)) : list Settled :=
  map (fun p => match p with
                | Return v => fulfilled v
                | Throw e => rejected e
                end) promises.

(** [results.filter(r => r.status === 'fulfilled' && !r.value.error)
           .map(r => r.value)] *)
Definition validResultsOf (results : list Settled) : list SourceResult :=
  omap (fun r => match r with
                 | fulfilled value => if hasError value then None else Some value
                 | rejected _ => None
                 end) results.

(** [getAggregatedProductionData(sources, fromDate, toDate)], [now]
    being the clock's reading for [timestamp]. *)
Definition getAggregatedProductionData (now : Z) (sources : list Source)
    (fromDate toDate : Z) : Completion AggregatedProductionData :=
  let dataPromises := imap (fetchSource fromDate toDate) sources in
  let results := allSettled dataPromises in
  let validResults := validResultsOf results in
  let totalProduction :=
    fold_left (fun sum result =>
                 match truthy (summaryTotalProduction result) with
                 | Some t => (sum + t)%float
                 | None => sum
                 end) validResults 0%float in
  let averageQuality :=
    fold_left (fun sum result =>
                 match truthy (summaryAverageQuality result) with
                 | Some q => (sum + q / ofLength (length validResults))%float
                 | None => sum
                 end) validResults 0%float in
  Return {| period := (fromDate, toDate);
            sources := results;
            aggregated :=
              {| totalProduction := totalProduction;
                 averageQuality := averageQuality;
                 sourcesUsed := length validResults;
                 dataReliability :=
                   (ofLength (length validResults) / ofLength (length sources)
                    * 100)%float |};
            timestamp := now |}.
End Aggregation.

(** The sources that succeed, by the data their fetch returned. *)
Definition succeededData (axios : nat -> GetRequest -> Completion ReplyData)
    (sources : list Source) (fromDate toDate : Z) : list SourceResult :=
  omap (fun p => p)
    (imap (fun i source =>
             match fetchByType axios fromDate toDate i source with
             | Return data => Some data
             | Throw _ => None
             end) sources).

(** What a source that succeeded reports as its total production: its
    [summary.totalProduction] when that is a number other than 0;
    nothing otherwise, as for a registry or a verifier, which have no such
    total. *)
Definition reportedProduction (r : SourceResult) : option float :=
  truthy (summaryTotalProduction r).

(** The sum of doubles, taken from the left and rounded at every
    addition: [((0 + x1) + x2) + ...]. *)
Definition sumFromLeft (l : list float) : float := fold_left add l 0%float.

(** The rational a double stands for, in lowest terms; [None] for an
    infinity and for [NaN]. *)
Definition exact (x : float) : option Q :=
  match FloatOps.Prim2SF x with
  | SpecFloat.S754_zero _ => Some 0%Q
  | SpecFloat.S754_finite negative m e =>
      let magnitude := (inject_Z (Z.pos m) * Qpower 2 e)%Q in
      Some (Qred (if negative then Qopp magnitude else magnitude))
  | _ => None
  end.

End DataIntegrationDoubles.

(** ** Meters that report fractions of a kilogram *)
Module DoubleScenarios.
Import PrimFloat DataIntegrationDoubles.

(** A tenth: the double nearest to 1/10, as [JSON.parse] reads [0.1]. *)
Definition tenths (n : nat) : float := (ofLength n / ofLength 10)%float.

Definition timedOut : JsError :=
  {| err_name := "AxiosError"; err_message := "timeout of 15000ms exceeded";
     err_status := None |}.

Definition reply (total : float) : ReplyData :=
  IoTReply [] (Some total) None None "HM-200" "2024-01-01" "ISO-17025".

(** The [i]-th request is answered with the [i]-th total of the list, and
    times out when the list has none. *)
Definition reporting (totals : list float) (i : nat)
    (request : DataIntegrationService.GetRequest) : Completion ReplyData :=
  match nth_error totals i with
  | Some total => Return (reply total)
  | None => Throw timedOut
  end.

Definition meters (n : nat) : list DataIntegrationService.Source :=
  map (fun i => AggregationScenarios.meter ("meter-" ++ pretty (Z.of_nat i))) (seq 1 n).

End DoubleScenarios.

(** ** services/dataIntegrationService.js: the cache *)
Module DataCache.

(** An entry of [this.cache]. *)
Record Entry (D : Type) := {
  data : D;
  expiresAt : Z
}.
Arguments data {D}.
Arguments expiresAt {D}.

Section Cache.
(** The data cached, and the state outside the service that a fetch
    function works on; a fetch function leaves the cache alone. *)
Context {D S : Type}.

(** [getCachedData(cacheKey, fetchFunction, ttlSeconds)].  [checkedAt] is
    the [Date.now()] compared with the entry's expiry, [storedAt] the one
    read once the fetch has returned. *)
Definition getCachedData (checkedAt storedAt : Z) (cacheKey : string)
    (fetchFunction : S -> Completion D * S) (ttlSeconds : Z)
    (cache : gmap string (Entry D)) (outside : S)
    : Completion D * gmap string (Entry D) * S :=
  let fetched :=
    match fetchFunction outside with
    | (Return d, outside') =>
        (Return d,
         <[cacheKey := {| data := d; expiresAt := storedAt + ttlSeconds * 1000 |}]> cache,
         outside')
    | (Throw error, outside') => (Throw error, cache, outside')
    end in
  match cache !! cacheKey with
  | Some cached =>
      if expiresAt cached >? checkedAt then (Return (data cached), cache, outside)
      else fetched
  | None => fetched
  end.

(** [cleanExpiredCache()]; [now] is [Date.now()]. *)
Definition cleanExpiredCache (now : Z) (cache : gmap string (Entry D))
    : gmap string (Entry D) :=
  filter (fun entry => ¬ (expiresAt (snd entry) <= now)) cache.

(** Two caches hold the same entries among those that have not expired at
    time [t]. *)
Definition agree (t : Z) (cache cache' : gmap string (Entry D)) : Prop :=
  forall key entry,
    t < expiresAt entry -> (cache !! key = Some entry <-> cache' !! key = Some entry).
End Cache.

End DataCache.

(** ** A fetch that counts its calls *)
Module CacheScenarios.
Import DataCache.


Definition failing (calls : nat) : Completion Z * nat :=
  (Throw (Error "Network error: No response received"), S calls).

(** An entry that expired at 1000 and one that lives until 9000. *)
Definition cache0 : gmap string (Entry Z) :=
  {[ "old" := {| data := 1; expiresAt := 1000 |};
     "metrics" := {| data := 7; expiresAt := 9000 |} ]}.

End CacheScenarios.

(** ** routes/auth.js *)
Module AuthRoutes.
Import Auth.

(** An element of the [users] array; [createdAt] and [createdBy] are set
    for the users that were registered. *)
Record Account := {
  acc_id : Z;
  acc_email : string;
  acc_password : string;
  acc_role : string;
  acc_name : string;
  acc_walletAddress : string;
  acc_createdAt : option Z;
  acc_createdBy : option Z
}.

(** The mock user database the file starts with. *)
Definition users0 : list Account :=
  [ {| acc_id := 1; acc_email := "government@example.com";
       acc_password := "$2b$10$hash_for_government_password";
       acc_role := USER_ROLES.GOVERNMENT; acc_name := "Government Administrator";
       acc_walletAddress := "0x1234567890123456789012345678901234567890";
       acc_createdAt := None; acc_createdBy := None |};
    {| acc_id := 2; acc_email := "producer@example.com";
       acc_password := "$2b$10$hash_for_producer_password";
       acc_role := USER_ROLES.PRODUCER; acc_name := "Green Hydrogen Producer";
       acc_walletAddress := "0xabcdefabcdefabcdefabcdefabcdefabcdefabcd";
       acc_createdAt := None; acc_createdBy := None |};
    {| acc_id := 3; acc_email := "auditor@example.com";
       acc_password := "$2b$10$hash_for_auditor_password";
       acc_role := USER_ROLES.AUDITOR; acc_name := "Independent Auditor";
       acc_walletAddress := "0x9876543210987654321098765432109876543210";
       acc_createdAt := None; acc_createdBy := None |};
    {| acc_id := 4; acc_email := "oracle@example.com";
       acc_password := "$2b$10$hash_for_oracle_password";
       acc_role := USER_ROLES.ORACLE; acc_name := "Data Oracle Service";
       acc_walletAddress := "0xfedcbafedcbafedcbafedcbafedcbafedcbafedcba";
       acc_createdAt := None; acc_createdBy := None |} ].

(** The user as the responses show it. *)
Record PublicUser := {
  pu_id : Z;
  pu_email : string;
  pu_name : string;
  pu_role : string;
  pu_walletAddress : string
}.

Definition public (user : Account) : PublicUser :=
  {| pu_id := acc_id user; pu_email := acc_email user; pu_name := acc_name user;
     pu_role := acc_role user; pu_walletAddress := acc_walletAddress user |}.

Inductive AuthBody :=
| AuthError (error : string)
| AuthValidationFailed
| LoggedIn (token : string) (user : PublicUser)
| Registered (user : PublicUser)
| ProfileUpdated (user : PublicUser)
| PasswordChanged.

(** [res.status(status).json(body)] *)
Definition Response : Type := Z * AuthBody.

(** [validateRequest] of this file's routes *)
Definition validated (validations : list bool) (handler : Response) : Response :=
  if forallb (fun ok => ok) validations then handler else (400, AuthValidationFailed).

(** [.isEthereumAddress()]: [0x] and forty hexadecimal digits, all of
    either case. *)
Definition isHexDigit (a : ascii) : bool :=
  let n := nat_of_ascii a in
  ((48 <=? n) && (n <=? 57) || (65 <=? n) && (n <=? 70) || (97 <=? n) && (n <=? 102))%nat.

Definition isEthereumAddress (s : string) : bool :=
  match s with
  | String "0" (String x digits) =>
      (Ascii.eqb x "x" || Ascii.eqb x "X")
      && (String.length digits =? 40)%nat
      && forallb isHexDigit (list_ascii_of_string digits)
  | _ => false
  end.

(** The bodies of the requests.  An email is held as [normalizeEmail]
    leaves it, [None] when [isEmail] rejects it; [None] elsewhere is a
    property left out. *)
Record LoginBody := {
  l_email : option string;
  l_password : string
}.

Record RegisterBody := {
  r_email : option string;
  r_password : string;
  r_name : string;
  r_role : string;
  r_walletAddress : string
}.

Record ProfileBody := {
  p_name : option string;
  p_walletAddress : option string
}.

Record PasswordBody := {
  currentPassword : string;
  newPassword : string
}.

Section Routes.
(** [generateToken] of the middleware and [bcrypt.hash(password, 10)] *)
Variable generateToken : Account -> string.
Variable hash : string -> string.

(** POST /api/auth/login *)
Definition login (body : LoginBody) (users : list Account) : Response :=
  validated [ bool_decide (is_Some (l_email body));
              (6 <=? String.length (l_password body))%nat ]
    match List.find (fun u => String.eqb (acc_email u) (default "" (l_email body))) users with
    | None => (401, AuthError "Invalid credentials")
    | Some user =>
        if negb (String.eqb (l_password body) "password123")
        then (401, AuthError "Invalid credentials")
        else (200, LoggedIn (generateToken user) (public user))
    end.

(** POST /api/auth/register, for a request that has passed
    [authenticateToken] as [reqUser].  The handler runs in two turns of the
    event loop: up to [await bcrypt.hash(password, 10)], and from there on.

    The first turn: the response it sends, or [None] when it goes on to
    wait for the hash. *)
Definition registerStart (reqUser : User) (body : RegisterBody) (users : list Account)
    : option Response :=
  let email := default "" (r_email body) in
  let name := trim (r_name body) in
  if negb (forallb (fun ok => ok)
             [ bool_decide (is_Some (r_email body));
               (8 <=? String.length (r_password body))%nat;
               isLength 2 100 name;
               array_includes [USER_ROLES.GOVERNMENT; USER_ROLES.PRODUCER;
                               USER_ROLES.AUDITOR; USER_ROLES.ORACLE] (r_role body);
               isEthereumAddress (r_walletAddress body) ])
  then Some (400, AuthValidationFailed)
  else if negb (String.eqb (role reqUser) USER_ROLES.GOVERNMENT)
  then Some (403, AuthError "Only government can register new users")
  else
    match List.find (fun u => String.eqb (acc_email u) email
                              || String.eqb (acc_walletAddress u) (r_walletAddress body))
                    users with
    | Some _ => Some (409, AuthError "User already exists")
    | None => None
    end.

(** The second turn, on the directory as it is by then; [now] is
    [new Date()]. *)
Definition registerFinish (now : Z) (reqUser : User) (body : RegisterBody)
    (users : list Account) : Response * list Account :=
  let newUser :=
    {| acc_id := Z.of_nat (length users) + 1; acc_email := default "" (r_email body);
       acc_password := hash (r_password body); acc_role := r_role body;
       acc_name := trim (r_name body); acc_walletAddress := r_walletAddress body;
       acc_createdAt := Some now; acc_createdBy := Some (user_id reqUser) |} in
  ((201, Registered (public newUser)), (users ++ [newUser])%list).

(** A registration during whose wait no other request runs. *)
Definition register (now : Z) (reqUser : User) (body : RegisterBody) (users : list Account)
    : Response * list Account :=
  match registerStart reqUser body users with
  | Some response => (response, users)
  | None => registerFinish now reqUser body users
  end.

(** [user.name = name], [user.walletAddress = ...] and
    [user.password = ...] on the element of [users] that [find] has
    returned: the first one with that id. *)
Fixpoint update (id : Z) (change : Account -> Account) (users : list Account)
    : list Account :=
  match users with
  | [] => []
  | user :: rest =>
      if acc_id user =? id then change user :: rest
      else user :: update id change rest
  end.

Definition withName (name : string) (user : Account) : Account :=
  {| acc_id := acc_id user; acc_email := acc_email user;
     acc_password := acc_password user; acc_role := acc_role user;
     acc_name := name; acc_walletAddress := acc_walletAddress user;
     acc_createdAt := acc_createdAt user; acc_createdBy := acc_createdBy user |}.

Definition withWalletAddress (walletAddress : string) (user : Account) : Account :=
  {| acc_id := acc_id user; acc_email := acc_email user;
     acc_password := acc_password user; acc_role := acc_role user;
     acc_name := acc_name user; acc_walletAddress := walletAddress;
     acc_createdAt := acc_createdAt user; acc_createdBy := acc_createdBy user |}.

Definition withPassword (password : string) (user : Account) : Account :=
  {| acc_id := acc_id user; acc_email := acc_email user;
     acc_password := password; acc_role := acc_role user;
     acc_name := acc_name user; acc_walletAddress := acc_walletAddress user;
     acc_createdAt := acc_createdAt user; acc_createdBy := acc_createdBy user |}.

(** A text is truthy unless it is empty. *)
Definition given (v : option string) : option string :=
  match v with
  | Some s => if String.eqb s "" then None else Some s
  | None => None
  end.

(** PUT /api/auth/profile *)
Definition updateProfile (reqUser : User) (body : ProfileBody) (users : list Account)
    : Response * list Account :=
  let name := trim <$> p_name body in
  if negb (forallb (fun ok => ok)
             [ match name with Some n => isLength 2 100 n | None => true end;
               match p_walletAddress body with
               | Some w => isEthereumAddress w
               | None => true
               end ])
  then ((400, AuthValidationFailed), users)
  else
    match List.find (fun u => acc_id u =? user_id reqUser) users with
    | None => ((404, AuthError "User not found"), users)
    | Some user =>
        let users1 :=
          match given name with
          | Some n => update (acc_id user) (withName n) users
          | None => users
          end in
        match given (p_walletAddress body) with
        | Some w =>
            match List.find (fun u => String.eqb (acc_walletAddress u) w
                                      && negb (acc_id u =? acc_id user)) users1 with
            | Some _ => ((409, AuthError "Wallet address already in use"), users1)
            | None =>
                let users2 := update (acc_id user) (withWalletAddress w) users1 in
                ((200, ProfileUpdated
                         (public (withWalletAddress w
                                    (match given name with
                                     | Some n => withName n user
                                     | None => user
                                     end)))), users2)
            end
        | None =>
            ((200, ProfileUpdated (public (match given name with
                                           | Some n => withName n user
                                           | None => user
                                           end))), users1)
        end
    end.

(** POST /api/auth/change-password, in two turns as well: up to
    [await bcrypt.hash(newPassword, 10)], where it answers or goes on to
    wait with the user it has found ([inr], the user's id), and the
    assignment to that user's [password] after it. *)
Definition changePasswordStart (reqUser : User) (body : PasswordBody)
    (users : list Account) : Response + Z :=
  if negb (forallb (fun ok => ok)
             [ (6 <=? String.length (currentPassword body))%nat;
               (8 <=? String.length (newPassword body))%nat ])
  then inl (400, AuthValidationFailed)
  else
    match List.find (fun u => acc_id u =? user_id reqUser) users with
    | None => inl (404, AuthError "User not found")
    | Some user =>
        if negb (String.eqb (currentPassword body) "password123")
        then inl (401, AuthError "Current password is incorrect")
        else inr (acc_id user)
    end.

Definition changePasswordFinish (userId : Z) (body : PasswordBody) (users : list Account)
    : Response * list Account :=
  ((200, PasswordChanged), update userId (withPassword (hash (newPassword body))) users).

(** A change of password during whose wait no other request runs. *)
Definition changePassword (reqUser : User) (body : PasswordBody) (users : list Account)
    : Response * list Account :=
  match changePasswordStart reqUser body users with
  | inl response => (response, users)
  | inr userId => changePasswordFinish userId body users
  end.

(** *** Requests that overlap

    Node runs one handler at a time, and a handler gives way only at an
    [await]: the turns above are the steps of the server.  A handler that
    waits is kept until its hash is ready. *)
Inductive Waiting :=
| WaitingRegister (reqUser : User) (body : RegisterBody)
| WaitingPassword (userId : Z) (body : PasswordBody).

Inductive AuthRequest :=
| LoginRequest (body : LoginBody)
| RegisterRequest (reqUser : User) (body : RegisterBody)
| ProfileRequest (reqUser : User) (body : ProfileBody)
| PasswordRequest (reqUser : User) (body : PasswordBody).

(** A step of the server: the handler of a request runs its first turn
    (the middlewares before it do not read the directory), or the hash that
    the [i]-th waiting handler awaits is ready and the handler runs its
    second turn, [now] being the clock's reading. *)
Inductive Turn :=
| Arrive (request : AuthRequest)
| Resume (i : nat) (now : Z).

(** The [users] array, the handlers that wait, and the responses sent so
    far, the latest first. *)
Record Server := {
  directory : list Account;
  waiting : list Waiting;
  sent : list Response
}.

Definition respond (response : Response) (users : list Account) (s : Server) : Server :=
  {| directory := users; waiting := waiting s; sent := response :: sent s |}.

Definition wait (handler : Waiting) (s : Server) : Server :=
  {| directory := directory s; waiting := (waiting s ++ [handler])%list; sent := sent s |}.

Definition turn (s : Server) (t : Turn) : Server :=
  match t with
  | Arrive (LoginRequest body) => respond (login body (directory s)) (directory s) s
  | Arrive (RegisterRequest reqUser body) =>
      match registerStart reqUser body (directory s) with
      | Some response => respond response (directory s) s
      | None => wait (WaitingRegister reqUser body) s
      end
  | Arrive (ProfileRequest reqUser body) =>
      let r := updateProfile reqUser body (directory s) in
      respond (fst r) (snd r) s
  | Arrive (PasswordRequest reqUser body) =>
      match changePasswordStart reqUser body (directory s) with
      | inl response => respond response (directory s) s
      | inr userId => wait (WaitingPassword userId body) s
      end
  | Resume i now =>
      match nth_error (waiting s) i with
      | None => s
      | Some handler =>
          let r :=
            match handler with
            | WaitingRegister reqUser body => registerFinish now reqUser body (directory s)
            | WaitingPassword userId body => changePasswordFinish userId body (directory s)
            end in
          {| directory := snd r;
             waiting := (firstn i (waiting s) ++ skipn (S i) (waiting s))%list;
             sent := fst r :: sent s |}
      end
  end.

Definition run (s : Server) (turns : list Turn) : Server := fold_left turn turns s.

(** The server as it starts on a directory. *)
Definition serving (users : list Account) : Server :=
  {| directory := users; waiting := []; sent := [] |}.
End Routes.

(** The ids count up from 1. *)
Definition idsCountUp (users : list Account) : Prop :=
  map acc_id users = map (fun i => Z.of_nat i + 1) (seq 0 (length users)).

(** The directory is in order: the ids count up from 1, and no two users
    share an email or a wallet address. *)
Definition inOrder (users : list Account) : Prop :=
  map acc_id users = map (fun i => Z.of_nat i + 1) (seq 0 (length users))
  /\ NoDup (map acc_email users)
  /\ NoDup (map acc_walletAddress users).

End AuthRoutes.

(** ** A registration and a change of profile *)
Module AuthScenarios.
Import Auth AuthRoutes.

Definition government : User :=
  {| user_id := 1; role := USER_ROLES.GOVERNMENT;
     walletAddress := "0x1234567890123456789012345678901234567890" |}.

Definition producer : User :=
  {| user_id := 2; role := USER_ROLES.PRODUCER;
     walletAddress := "0xabcdefabcdefabcdefabcdefabcdefabcdefabcd" |}.

Definition registration : RegisterBody :=
  {| r_email := Some "plant@example.com"; r_password := "electrolyser-2024";
     r_name := "Second Plant"; r_role := USER_ROLES.PRODUCER;
     r_walletAddress := "0x00000000000000000000000000000000000000b2" |}.

(** The same plant once more, under another name and wallet address. *)
Definition registrationAgain : RegisterBody :=
  {| r_email := Some "plant@example.com"; r_password := "electrolyser-2025";
     r_name := "Second Plant, again"; r_role := USER_ROLES.PRODUCER;
     r_walletAddress := "0x00000000000000000000000000000000000000b3" |}.

Definition generateToken (user : Account) : string := "token-" ++ acc_email user.

Definition hash (password : string) : string := "$2b$10$" ++ password.

(** The producer asks for a new name and for the auditor's wallet. *)
Definition takeover : ProfileBody :=
  {| p_name := Some "Renamed Producer";
     p_walletAddress := Some "0x9876543210987654321098765432109876543210" |}.

End AuthScenarios.
(** * Properties *)

(** ** Reading the ledger (blockchainService.js) *)
Module BlockchainFacts.
Import Ethers BlockchainService.

Lemma statusName_cases (code : N) :
  _getMilestoneStatusName code =
    match code with
    | 0%N => "Pending"
    | 1%N => "Verified"
    | 2%N => "Failed"
    | 3%N => "Disputed"
    | _ => "Unknown"
    end.
Proof.
  unfold _getMilestoneStatusName.
  destruct (N.lt_ge_cases code 4) as [Hlt | Hge].
  - assert (H : (code = 0 \/ code = 1 \/ code = 2 \/ code = 3)%N) by lia.
    destruct H as [-> | [-> | [-> | ->]]]; reflexivity.
  - assert (Hn : nth_error ["Pending"; "Verified"; "Failed"; "Disputed"]
                   (N.to_nat code) = None)
      by (apply nth_error_None; cbn; lia).
    cbn zeta. rewrite Hn.
    destruct code as [| [[q | q |] | [q | q |] |]]; try reflexivity; lia.
Qed.

(** No release decodes a tuple: a number of release 6 has no [toNumber],
    and the releases up to 5 have no [ethers.formatEther]. *)
Lemma decodeMilestone_throws (release : Release) (raw : RawMilestone) :
  exists e, decodeMilestone release raw = Throw e.
Proof.
  unfold decodeMilestone, mbind, Completion_bind, Js.bind.
  destruct release; cbn [toNumber formatEther notAFunction].
  - destruct (raw_id raw <? 2 ^ 53)%N; [| eexists; reflexivity].
    destruct (raw_projectId raw <? 2 ^ 53)%N; eexists; reflexivity.
  - eexists; reflexivity.
Qed.

Lemma decodeProject_throws (release : Release) (raw : RawProject) :
  exists e, decodeProject release raw = Throw e.
Proof.
  unfold decodeProject, mbind, Completion_bind, Js.bind.
  destruct release; cbn [toNumber formatEther notAFunction].
  - destruct (rawp_id raw <? 2 ^ 53)%N; eexists; reflexivity.
  - eexists; reflexivity.
Qed.

(** With a release up to 5 the service is never initialised. *)
Lemma initialize_ethers5 (env : Environment) (connect : Completion unit) :
  initialize Ethers5 env connect = false.
Proof. unfold initialize. destruct (negb _); reflexivity. Qed.

Section Reading.
Context {L : Type} (c : Contracts L).

(** Reading a milestone or a project ends with an [Error], whatever the
    contract returns. *)
Lemma getMilestone_throws (initialized : bool) (l : L) (milestoneId : Z) :
  exists message, getMilestone c initialized l milestoneId = Throw (Error message).
Proof.
  unfold getMilestone, notInitialized.
  destruct initialized; cbn [negb]; [| eexists; reflexivity].
  unfold rethrow, mbind, Completion_bind, Js.bind.
  destruct (subsidy_getMilestone c l milestoneId) as [raw | e]; [| eexists; reflexivity].
  destruct (decodeMilestone_throws (library c) raw) as [e ->]. eexists; reflexivity.
Qed.

Lemma getProject_throws (initialized : bool) (l : L) (projectId : Z) :
  exists message, getProject c initialized l projectId = Throw (Error message).
Proof.
  unfold getProject, notInitialized.
  destruct initialized; cbn [negb]; [| eexists; reflexivity].
  unfold rethrow, mbind, Completion_bind, Js.bind.
  destruct (subsidy_getProject c l projectId) as [raw | e]; [| eexists; reflexivity].
  destruct (decodeProject_throws (library c) raw) as [e ->]. eexists; reflexivity.
Qed.

Lemma getMilestone_never (initialized : bool) (l : L) (milestoneId : Z) (m : Milestone) :
  getMilestone c initialized l milestoneId <> Return m.
Proof.
  destruct (getMilestone_throws initialized l milestoneId) as [message ->]. discriminate.
Qed.

Lemma getProject_never (initialized : bool) (l : L) (projectId : Z) (p : Project) :
  getProject c initialized l projectId <> Return p.
Proof.
  destruct (getProject_throws initialized l projectId) as [message ->]. discriminate.
Qed.
End Reading.

(** C10.  The names of the status codes are as the claim has them:
    [_getMilestoneStatusName] answers Pending, Verified, Failed, Disputed
    for the codes 0 to 3 and Unknown for every other code.  But
    [getMilestone] decodes no tuple: whatever the contract returns and
    whichever release of ethers is installed, the call throws, so that no
    [verifiedAt] and no [verifiedBy] is ever returned.  With a release up
    to 5 [initialize] leaves [initialized] false and the call ends with
    "Service not initialized"; with release 6 and the service initialised
    it ends with "Failed to get milestone: milestone.id.toNumber is not a
    function". *)
Theorem getMilestone_never_returns {L : Type} (c : Contracts L) (l : L)
    (milestoneId : Z) (raw : RawMilestone) (env : Environment)
    (connect : Completion unit) :
  subsidy_getMilestone c l milestoneId = Return raw ->
  let initialized := initialize (library c) env connect in
  (forall code : N,
      _getMilestoneStatusName code =
        match code with
        | 0%N => "Pending"
        | 1%N => "Verified"
        | 2%N => "Failed"
        | 3%N => "Disputed"
        | _ => "Unknown"
        end)
  /\ (forall (anyway : bool) (m : Milestone),
        getMilestone c anyway l milestoneId <> Return m)
  /\ (library c = Ethers5 ->
      initialized = false
      /\ getMilestone c initialized l milestoneId
         = Throw (Error "Service not initialized"))
  /\ (library c = Ethers6 -> initialized = true ->
      getMilestone c initialized l milestoneId
      = Throw (Error "Failed to get milestone: milestone.id.toNumber is not a function")).
Proof.
  intros Hraw initialized. split; [exact statusName_cases |].
  split; [intros anyway m; apply getMilestone_never |]. split.
  - intros Hrelease. unfold initialized. rewrite Hrelease, initialize_ethers5.
    split; reflexivity.
  - intros Hrelease ->. unfold getMilestone, rethrow, mbind, Completion_bind, Js.bind.
    cbn [negb]. rewrite Hraw, Hrelease. reflexivity.
Qed.

(** Milestone 3 of the ledger of [Scenarios], whose tuple has the two
    sentinels (no time of verification, the zero address): read with
    release 6 on an initialised service. *)
Lemma getMilestone_never_returns_witness :
  initialize Ethers6 Scenarios.environment (Return tt) = true
  /\ raw_verifiedAt Scenarios.unknownMilestone = 0%N
  /\ raw_verifiedBy Scenarios.unknownMilestone = AddressZero
  /\ getMilestone SpecLedger.contracts true Scenarios.ledger0 3
     = Throw (Error "Failed to get milestone: milestone.id.toNumber is not a function").
Proof.
  destruct (getMilestone_never_returns SpecLedger.contracts Scenarios.ledger0 3
              Scenarios.unknownMilestone Scenarios.environment (Return tt) eq_refl)
    as (_ & _ & _ & Hthrows).
  split; [reflexivity |]. split; [reflexivity |]. split; [reflexivity |].
  apply Hthrows; reflexivity.
Defined.

End BlockchainFacts.

(** ** The milestone routes (routes/milestones.js) *)
Module MilestoneFacts.
Import Ethers BlockchainService ErrorHandler Auth MilestoneRoutes.

Lemma isInt_Some (min n : Z) : min <= n -> isInt min (Some n) = true.
Proof. intros H. unfold isInt. apply Z.leb_le. exact H. Qed.

(** [errorHandler] answers 409 to a ConflictError and to an error whose
    message says "conflict", and to no other. *)
Lemma conflict_status (e : JsError) :
  fst (errorHandler e) = 409 ->
  err_name e = "ConflictError" \/ includes (err_message e) "conflict" = true.
Proof.
  unfold errorHandler. cbv zeta.
  destruct (String.eqb_spec (err_name e) "ConflictError") as [Hname | _];
    [left; exact Hname |].
  destruct (includes (err_message e) "conflict"); [right; reflexivity |].
  cbn [orb]. intros Hstatus. exfalso. revert Hstatus.
  destruct (String.eqb (err_name e) "ValidationError");
    destruct (String.eqb (err_name e) "UnauthorizedError");
    destruct (includes (err_message e) "unauthorized");
    destruct (String.eqb (err_name e) "ForbiddenError");
    destruct (includes (err_message e) "forbidden");
    destruct (String.eqb (err_name e) "NotFoundError");
    destruct (includes (err_message e) "not found");
    destruct (String.eqb (err_name e) "TooManyRequestsError");
    destruct (includes (err_message e) "revert");
    destruct (includes (err_message e) "transaction failed");
    destruct (String.eqb (err_name e) "MongoError");
    destruct (String.eqb (err_name e) "SequelizeError"); cbn; discriminate.
Qed.

Section AnyLedger.
Context {L : Type} (c : Contracts L).

(** A request of a user with one of the route's roles, which the limiter
    lets through and which passes the validations, reaches the handler. *)
Lemma route_handler {B} (roles : list string) (limiter : bool)
    (validations : Request B -> list bool)
    (handler : User -> Request B -> World L -> Outcome * World L)
    (req : Request B) (w : World L) (u : User) :
  user req = Some u ->
  array_includes roles (role u) = true ->
  limited req = false ->
  forallb (fun ok => ok) (validations req) = true ->
  route roles limiter validations handler req w = handler u req w.
Proof.
  intros Hu Hrole Hlim Hval. unfold route, authorize, validateRequest.
  rewrite Hu, Hrole, Hlim, Hval. cbn. destruct limiter; reflexivity.
Qed.

(** A request of a user whose role the route does not list is answered
    403 and changes nothing. *)
Lemma route_forbidden {B} (roles : list string) (limiter : bool)
    (validations : Request B -> list bool)
    (handler : User -> Request B -> World L -> Outcome * World L)
    (req : Request B) (w : World L) (u : User) :
  user req = Some u ->
  array_includes roles (role u) = false ->
  route roles limiter validations handler req w =
    (Respond 403 (InsufficientPermissions roles (role u)), w).
Proof.
  intros Hu Hrole. unfold route, authorize. rewrite Hu, Hrole. reflexivity.
Qed.

(** A request that fails a validation is answered 400 and changes
    nothing. *)
Lemma route_invalid {B} (roles : list string) (limiter : bool)
    (validations : Request B -> list bool)
    (handler : User -> Request B -> World L -> Outcome * World L)
    (req : Request B) (w : World L) (u : User) :
  user req = Some u ->
  array_includes roles (role u) = true ->
  limited req = false ->
  forallb (fun ok => ok) (validations req) = false ->
  route roles limiter validations handler req w = (Respond 400 ValidationFailed, w).
Proof.
  intros Hu Hrole Hlim Hval. unfold route, authorize, validateRequest.
  rewrite Hu, Hrole, Hlim, Hval. cbn. destruct limiter; reflexivity.
Qed.

(** A request ends in the middlewares, with one of four statuses and
    nothing changed, or it reaches the handler. *)
Lemma route_cases {B} (roles : list string) (limiter : bool)
    (validations : Request B -> list bool)
    (handler : User -> Request B -> World L -> Outcome * World L)
    (req : Request B) (w : World L) :
  (exists status body,
      route roles limiter validations handler req w = (Respond status body, w)
      /\ In status [400; 401; 403; 429])
  \/ (exists u, user req = Some u
                /\ route roles limiter validations handler req w = handler u req w).
Proof.
  unfold route, authorize.
  destruct (user req) as [u |];
    [| left; eexists _, _; split; [reflexivity | cbn; auto]].
  destruct (negb (array_includes roles (role u)));
    [left; eexists _, _; split; [reflexivity | cbn; auto] |].
  assert (Hvalidated :
            (exists status body,
                match validateRequest (validations req) with
                | Some o => (o, w)
                | None => handler u req w
                end = (Respond status body, w) /\ In status [400; 401; 403; 429])
            \/ (exists u', Some u = Some u'
                           /\ match validateRequest (validations req) with
                              | Some o => (o, w)
                              | None => handler u req w
                              end = handler u' req w)).
  { unfold validateRequest. destruct (forallb _ _).
    - right. exists u. split; reflexivity.
    - left. eexists _, _. split; [reflexivity | cbn; auto]. }
  destruct limiter; [| exact Hvalidated].
  unfold sensitiveOperationLimiter. destruct (limited req); [| exact Hvalidated].
  left. eexists _, _. split; [reflexivity | cbn; auto].
Qed.

(** The request at hand ends in the middlewares, or the goal is about its
    handler. *)
Ltac handled :=
  match goal with
  | |- context [route ?roles ?limiter ?validations ?handler ?req ?w] =>
      let u := fresh "u" in
      let Hu := fresh "Hu" in
      let H := fresh "H" in
      destruct (route_cases roles limiter validations handler req w)
        as [H | (u & Hu & H)];
      [left; exact H | right; rewrite H; cbv beta zeta]
  end.

(** How a handler that starts by reading the milestone ends: in its
    [catch] block, with the error of the read. *)
Lemma verify_cases (initialized : bool) (req : Request VerifyBody) (w : World L) :
  let r := verify c initialized req w in
  (exists status body, r = (Respond status body, w) /\ In status [400; 401; 403; 429])
  \/ (exists message,
         getMilestone c initialized (ledger w) (default 0 (params_id req))
         = Throw (Error message)
         /\ r = if includes message "does not exist"
                then (Next (NotFoundError "Milestone not found"), w)
                else (Next (Error message),
                      logError "Failed to verify milestone" (Error message) w)).
Proof.
  cbv zeta. unfold verify. handled.
  destruct (BlockchainFacts.getMilestone_throws c initialized (ledger w)
              (default 0 (params_id req))) as [message Hm].
  exists message. split; [exact Hm |]. rewrite Hm. reflexivity.
Qed.

Lemma autoVerify_cases (initialized : bool) (req : Request AutoVerifyBody) (w : World L) :
  let r := autoVerify c initialized req w in
  (exists status body, r = (Respond status body, w) /\ In status [400; 401; 403; 429])
  \/ (exists message,
         getMilestone c initialized (ledger w) (default 0 (params_id req))
         = Throw (Error message)
         /\ r = if includes message "does not exist"
                then (Next (NotFoundError "Milestone not found"), w)
                else (Next (Error message),
                      logError "Failed to auto-verify milestone" (Error message) w)).
Proof.
  cbv zeta. unfold autoVerify. handled.
  destruct (BlockchainFacts.getMilestone_throws c initialized (ledger w)
              (default 0 (params_id req))) as [message Hm].
  exists message. split; [exact Hm |]. rewrite Hm. reflexivity.
Qed.



(** What both ways of ending have in common. *)
Lemma ended_in_middlewares (r : Outcome * World L) (w : World L) :
  (exists status body, r = (Respond status body, w) /\ In status [400; 401; 403; 429]) ->
  succeeded (fst r) = false
  /\ snd r = w
  /\ (forall e, fst r <> Next e)
  /\ statusOf (fst r) <> 409
  /\ (forall status body, fst r = Respond status body -> In status [400; 401; 403; 429]).
Proof.
  intros (status & body & -> & Hstatus). cbn [fst snd succeeded statusOf].
  split; [| split; [reflexivity | split; [discriminate | split]]].
  - cbn in Hstatus. destruct Hstatus as [<- | [<- | [<- | [<- | []]]]]; reflexivity.
  - cbn in Hstatus. lia.
  - intros status' body' H. inversion H; subst. exact Hstatus.
Qed.

Lemma ended_in_catch (title message : string) (r : Outcome * World L) (w : World L) :
  r = (if includes message "does not exist"
       then (Next (NotFoundError "Milestone not found"), w)
       else (Next (Error message), logError title (Error message) w)) ->
  succeeded (fst r) = false
  /\ ledger (snd r) = ledger w
  /\ audit (snd r) = audit w
  /\ (forall status body, fst r <> Respond status body)
  /\ (forall e, fst r = Next e ->
        e = NotFoundError "Milestone not found" \/ e = Error message).
Proof.
  intros ->. destruct (includes message "does not exist"); cbn [fst snd succeeded];
    (split; [reflexivity | split; [reflexivity | split; [reflexivity | split]]]);
    try discriminate; intros e He; inversion He; auto.
Qed.

(** C2, as the code has it.  The verify route does not read the
    milestone's status and knows no Conflict.  Whatever the milestone, an
    error with which a verify request ends is NotFoundError "Milestone not
    found" or a plain Error of the ledger service, never a ConflictError,
    and errorHandler answers 409 only to an Error whose message says
    "conflict".  A request that is not answered with a 2xx status leaves
    the ledger, hence the milestone's status, actual value, verifiedAt and
    verifiedBy, and the audit trail as they were. *)
Theorem verify_rejected (initialized : bool) (req : Request VerifyBody) (w : World L) :
  let r := verify c initialized req w in
  (forall e, fst r = Next e ->
      err_name e <> "ConflictError"
      /\ (e = NotFoundError "Milestone not found" \/ err_name e = "Error"))
  /\ (statusOf (fst r) = 409 ->
      exists e, fst r = Next e /\ includes (err_message e) "conflict" = true)
  /\ (succeeded (fst r) = false -> ledger (snd r) = ledger w /\ audit (snd r) = audit w).
Proof.
  cbv zeta. destruct (verify_cases initialized req w) as [Hended | (message & _ & Hr)].
  - destruct (ended_in_middlewares _ w Hended) as (_ & Hw & Hnext & Hstatus & _).
    split; [intros e He; destruct (Hnext e He) |].
    split; [intros H; destruct (Hstatus H) |].
    intros _. rewrite Hw. split; reflexivity.
  - destruct (ended_in_catch _ _ _ w Hr) as (_ & Hledger & Haudit & Hsent & Herror).
    split; [| split].
    + intros e He. destruct (Herror e He) as [-> | ->].
      * split; [discriminate | left; reflexivity].
      * split; [discriminate | right; reflexivity].
    + intros Hstatus. destruct (fst (verify c initialized req w)) as [status body | e] eqn:Ho.
      * destruct (Hsent status body eq_refl).
      * exists e. split; [reflexivity |]. cbn [statusOf] in Hstatus.
        destruct (conflict_status e Hstatus) as [Hname | Hsays]; [| exact Hsays].
        destruct (Herror e eq_refl) as [-> | ->]; discriminate Hname.
    + intros _. split; [exact Hledger | exact Haudit].
Qed.

(** C3.  The handler computes success as [totalValue >= targetValue], as
    the claim has it, but no request gets that far: reading the milestone
    throws first.  No auto-verify request is answered with a 2xx status;
    a response that is sent is one of the middlewares (400, 401, 403 or
    429); and the ledger and the audit trail are as before, so that no
    milestone becomes Verified or Failed. *)
Theorem autoVerify_never_verifies (initialized : bool) (req : Request AutoVerifyBody)
    (w : World L) :
  let r := autoVerify c initialized req w in
  succeeded (fst r) = false
  /\ ledger (snd r) = ledger w
  /\ audit (snd r) = audit w
  /\ (forall status body, fst r = Respond status body -> In status [400; 401; 403; 429]).
Proof.
  cbv zeta. destruct (autoVerify_cases initialized req w) as [Hended | (message & _ & Hr)].
  - destruct (ended_in_middlewares _ w Hended) as (Hfailed & Hw & _ & _ & Hstatus).
    rewrite Hw. repeat split; assumption.
  - destruct (ended_in_catch _ _ _ w Hr) as (Hfailed & Hledger & Haudit & Hsent & _).
    repeat split; try assumption. intros status body H. destruct (Hsent status body H).
Qed.


(** C8.  The role check of createMilestone comes first: a Producer's
    request is answered 403 and leaves the ledger, the audit trail and the
    logs as they were.  A Producer's dispute is never decided: reading the
    milestone throws before the handler compares the project's producer
    with the Producer's wallet, so the request is answered neither with a
    2xx status nor with ForbiddenError; it is answered 400 by the
    validation or ends with the error of the read, and the ledger and the
    audit trail are as before. *)
Theorem producer_dispute_never_decided (now : Z) (w : World L) (u : User) :
  role u = USER_ROLES.PRODUCER ->
  (forall initialized (req : Request CreateBody),
      user req = Some u ->
      createMilestone c initialized now req w =
        (Respond 403 (InsufficientPermissions [USER_ROLES.GOVERNMENT] USER_ROLES.PRODUCER),
         w))
  /\ (forall initialized (req : Request DisputeBody),
        user req = Some u ->
        let r := dispute c initialized now req w in
        succeeded (fst r) = false
        /\ (forall status body, fst r = Respond status body -> status = 400)
        /\ (forall e, fst r = Next e -> err_name e = "NotFoundError" \/ err_name e = "Error")
        /\ ledger (snd r) = ledger w
        /\ audit (snd r) = audit w).
Proof.
  intros Hrole. split.
  - intros initialized req Hu. unfold createMilestone.
    rewrite (route_forbidden _ _ _ _ req w u Hu); rewrite Hrole; reflexivity.
  - intros initialized req Hu. cbv zeta.
    assert (Hcases :
              dispute c initialized now req w = (Respond 400 ValidationFailed, w)
              \/ exists message,
                   dispute c initialized now req w
                   = if includes message "does not exist"
                     then (Next (NotFoundError "Milestone not found"), w)
                     else (Next (Error message),
                           logError "Failed to dispute milestone" (Error message) w)).
    { unfold dispute, route, authorize, validateRequest. rewrite Hu, Hrole.
      change (negb (array_includes [USER_ROLES.PRODUCER; USER_ROLES.GOVERNMENT]
                      USER_ROLES.PRODUCER)) with false.
      cbv iota. destruct (forallb _ _); [right | left; reflexivity].
      destruct (BlockchainFacts.getMilestone_throws c initialized (ledger w)
                  (default 0 (params_id req))) as [message Hm].
      exists message. unfold mbind, Completion_bind, Js.bind. rewrite Hm. reflexivity. }
    destruct Hcases as [-> | (message & Hr)].
    + cbn [fst snd succeeded]. split; [reflexivity |].
      split; [intros status body H; inversion H; reflexivity |].
      split; [intros e He; discriminate He | split; reflexivity].
    + destruct (ended_in_catch _ _ _ w Hr) as (Hfailed & Hledger & Haudit & Hsent & Herror).
      split; [exact Hfailed |]. split; [| split; [| split; assumption]].
      * intros status body H. destruct (Hsent status body H).
      * intros e He. destruct (Herror e He) as [-> | ->]; [left | right]; reflexivity.
Qed.
End AnyLedger.

(** *** The routes on the ledger of [Scenarios] *)
Section OnTheLedger.
Import Scenarios.

(** C2 fails on the code: verifying the Verified milestone 2 again does
    not fail with Conflict.  The request ends with the error of reading
    the milestone, which [errorHandler] answers with 500, and the ledger is
    as before. *)
Lemma verify_conflict_counterexample :
  let r := verify SpecLedger.contracts true (verifyRequest oracle 2 130 true) world0 in
  initialize Ethers6 environment (Return tt) = true
  /\ SpecLedger.getMilestone ledger0 2 = Return verifiedMilestone
  /\ raw_status verifiedMilestone = 1%N
  /\ fst r = Next (Error "Failed to get milestone: milestone.id.toNumber is not a function")
  /\ (forall e, fst r = Next e -> err_name e <> "ConflictError")
  /\ statusOf (fst r) = 500
  /\ statusOf (fst r) <> 409
  /\ ledger (snd r) = ledger0.
Proof.
  cbv zeta. split; [reflexivity |]. split; [reflexivity |]. split; [reflexivity |].
  split; [vm_compute; reflexivity |]. split.
  - intros e He. vm_compute in He. inversion He; subst. discriminate.
  - split; [vm_compute; reflexivity |]. split; [vm_compute; discriminate |].
    vm_compute. reflexivity.
Qed.

(** The spec's boundary case: target 500, and readings of the window that
    total 500.  The oracle's request is answered 500 and milestone 1 stays
    Pending. *)
Lemma autoVerify_never_verifies_witness :
  let r := autoVerify SpecLedger.contracts true
             (autoVerifyRequest oracle 1 (Some t0) (Some t1)) world0 in
  raw_targetValue pendingMilestone = 500%N
  /\ SpecLedger.getAggregateValue ledger0 "meter-1" (t0 / 1000) (t1 / 1000)
     = Return (500%N, 2%N)
  /\ fst r = Next (Error "Failed to get milestone: milestone.id.toNumber is not a function")
  /\ statusOf (fst r) = 500
  /\ ledger (snd r) = ledger0
  /\ SpecLedger.getMilestone (ledger (snd r)) 1 = Return pendingMilestone.
Proof.
  destruct (autoVerify_never_verifies SpecLedger.contracts true
              (autoVerifyRequest oracle 1 (Some t0) (Some t1)) world0)
    as (_ & Hledger & _).
  cbv zeta. split; [reflexivity |]. split; [vm_compute; reflexivity |].
  split; [vm_compute; reflexivity |]. split; [vm_compute; reflexivity |].
  split; [exact Hledger |]. rewrite Hledger. reflexivity.
Defined.



(** The owner's dispute of the Verified milestone 2 of their own project
    and a stranger's end alike, with the error of reading the milestone and
    status 500; a producer cannot create a milestone. *)
Lemma producer_dispute_never_decided_witness :
  let own := dispute SpecLedger.contracts true t1
               (disputeRequest owner 2 "The meter was recalibrated") world0 in
  let foreign := dispute SpecLedger.contracts true t1
                   (disputeRequest stranger 2 "The meter was recalibrated") world0 in
  rawp_producer project1 = walletAddress owner
  /\ fst own = Next (Error "Failed to get milestone: milestone.id.toNumber is not a function")
  /\ statusOf (fst own) = 500
  /\ fst foreign = fst own
  /\ succeeded (fst own) = false
  /\ createMilestone SpecLedger.contracts true t1 (createRequest stranger) world0 =
       (Respond 403 (InsufficientPermissions ["government"] "producer"), world0).
Proof.
  destruct (producer_dispute_never_decided SpecLedger.contracts t1 world0 stranger eq_refl)
    as (Hcreate & _).
  destruct (producer_dispute_never_decided SpecLedger.contracts t1 world0 owner eq_refl)
    as (_ & Hdispute).
  destruct (Hdispute true (disputeRequest owner 2 "The meter was recalibrated") eq_refl)
    as (Hfailed & _).
  cbv zeta. split; [reflexivity |]. split; [vm_compute; reflexivity |].
  split; [vm_compute; reflexivity |]. split; [vm_compute; reflexivity |].
  split; [exact Hfailed |]. apply Hcreate. reflexivity.
Defined.
End OnTheLedger.

End MilestoneFacts.

(** ** Payments (paymentGatewayService.js) *)
Module PaymentFacts.
Import PaymentGatewayService RetryPolicy.

(** The recursion of [processWithRetry] is the bounded retry, its budget
    the attempts left. *)
Lemma processWithRetry_retryUpTo {A} (cfg : RetryConfig)
    (operation : World -> Completion A * World) (paymentId : string) (budget : nat) :
  forall (attempt : Z) (w : World),
    budget = Z.to_nat (maxAttempts cfg - attempt) ->
    processWithRetry cfg operation paymentId attempt w =
      retryUpTo cfg budget operation attempt w.
Proof.
  induction budget as [| budget IH]; intros attempt w Hbudget;
    simp processWithRetry; cbn [retryUpTo];
    destruct (operation w) as [[r | error] w1]; cbn; try reflexivity;
    destruct (Z_ge_lt_dec attempt (maxAttempts cfg)) as [Hge | Hlt]; cbn;
    try reflexivity; try lia.
  apply IH. lia.
Qed.

Section AnyGateway.
Variable env : Env.

(** A POST is logged whether it is answered or fails. *)
Lemma axiosPost_posts (p : Post) (w : World) :
  posts (snd (axiosPost env p w)) = (posts w ++ [p])%list.
Proof. reflexivity. Qed.

Lemma transfer_posts (p : Post) (read : ResponseData -> option string * Q) (eta : Z)
    (w : World) :
  length (posts (snd (transfer env p read eta w))) = S (length (posts w)).
Proof.
  unfold transfer, axiosPost. destruct (post env (length (posts w)) p); cbn;
    rewrite length_app; cbn; lia.
Qed.

(** A gateway call that returns has issued a transfer, and no gateway call
    takes a logged POST back. *)
Lemma executePayment_posts (method : string) (paymentData : PaymentData) (w : World) :
  let r := executePayment env method paymentData w in
  (length (posts w) <= length (posts (snd r)))%nat
  /\ (forall result, fst r = Return result ->
        (length (posts w) < length (posts (snd r)))%nat).
Proof.
  cbv zeta. unfold executePayment, unsupported.
  destruct (gateways !! method) as [gateway |]; [| split; [cbn; lia | discriminate]].
  destruct (String.eqb method "stripe").
  { unfold processStripePayment. destruct (currency paymentData).
    - rewrite transfer_posts. split; intros; lia.
    - split; [cbn; lia | discriminate]. }
  destruct (String.eqb method "paypal").
  { unfold processPayPalPayment, axiosPost.
    destruct (post env (length (posts w)) _); cbn [posts];
      [| cbn; rewrite length_app; cbn; split; [lia | discriminate]].
    destruct (post env _ _); cbn [posts];
      [| cbn; rewrite !length_app; cbn; split; [lia | discriminate]].
    destruct (data_batch_header a0); cbn; rewrite !length_app; cbn;
      split; intros; try discriminate; lia. }
  destruct (String.eqb method "ach").
  { unfold processACHPayment. rewrite transfer_posts. split; intros; lia. }
  destruct (String.eqb method "wire").
  { unfold processWirePayment. rewrite transfer_posts. split; intros; lia. }
  destruct (String.eqb method "crypto").
  { unfold processCryptoPayment. rewrite transfer_posts. split; intros; lia. }
  split; [cbn; lia | discriminate].
Qed.

(** A bounded retry of gateway calls that returns has issued a transfer. *)
Lemma retryUpTo_posts (cfg : RetryConfig) (method : string) (paymentData : PaymentData)
    (budget : nat) :
  forall (attempt : Z) (w : World),
    let r := retryUpTo cfg budget (executePayment env method paymentData) attempt w in
    forall result, fst r = Return result ->
      (length (posts w) < length (posts (snd r)))%nat.
Proof.
  induction budget as [| budget IH]; intros attempt w; cbn [retryUpTo];
    destruct (executePayment_posts method paymentData w) as [Hle Hlt];
    destruct (executePayment env method paymentData w) as [[res | error] w1] eqn:Hexec;
    cbn [fst snd] in *; intros result Hresult.
  - apply (Hlt res). reflexivity.
  - discriminate.
  - apply (Hlt res). reflexivity.
  - specialize (IH (attempt + 1) (sleep (backoff cfg attempt) w1) result Hresult).
    cbn [sleep posts] in IH. lia.
Qed.

(** C1, as the code has it.  [processPayment] is not idempotent on
    [(projectId, milestoneId)]: it looks up no earlier record.  Whatever
    [paymentStatuses] holds, a call that completes has generated its own
    payment id [PAY_<projectId>_<milestoneId>_<Date.now()>_<random>] from the
    clock and the random draw of that call, has issued at least one new
    transfer request to the gateway, and has stored a completed record with
    its gateway reference under that id. *)
Theorem processPayment_fresh (paymentData : PaymentData) (w w' : World)
    (record : PaymentRecord) :
  processPayment env paymentData w = (Return record, w') ->
  paymentId record =
    "PAY_" ++ show (projectId paymentData) ++ "_" ++ show (milestoneId paymentData)
      ++ "_" ++ pretty (now env (clock w)) ++ "_" ++ random env (draws w)
  /\ (length (posts w) < length (posts w'))%nat
  /\ exists st, paymentStatuses w' !! paymentId record = Some st
                /\ st_status st = "completed"
                /\ st_gatewayReference st = pr_gatewayReference record.
Proof.
  unfold processPayment, generatePaymentId, dateNow, mathRandom.
  set (pid := "PAY_" ++ show (projectId paymentData) ++ "_"
                ++ show (milestoneId paymentData) ++ "_"
                ++ pretty (now env (clock w)) ++ "_" ++ random env (draws w)).
  set (w0 := {| clock := S (clock w); draws := S (draws w); posts := posts w;
                sleeps := sleeps w; paymentStatuses := paymentStatuses w;
                scheduledPayments := scheduledPayments w; audit := audit w |}).
  destruct (gateways !! default "ach" (method paymentData)) as [gateway |].
  2: { unfold unsupported. destruct (default true (retryOnFailure paymentData));
         discriminate. }
  rewrite (processWithRetry_retryUpTo retryConfig _ pid 2 1 w0 eq_refl).
  pose proof (retryUpTo_posts retryConfig (default "ach" (method paymentData))
                paymentData 2 1 w0) as Hposts. cbv zeta in Hposts.
  destruct (retryUpTo retryConfig 2 _ 1 w0) as [[result | error] w1].
  2: { destruct (default true (retryOnFailure paymentData)); discriminate. }
  specialize (Hposts result eq_refl). cbn [fst snd posts w0] in Hposts.
  intros H. inversion H; subst; clear H. cbn [paymentId pr_gatewayReference].
  split; [reflexivity |]. split; [cbn; exact Hposts |].
  eexists. split; [cbn; apply lookup_insert_eq |]. split; reflexivity.
Qed.
End AnyGateway.

(** C1 fails on the code: the disbursement of milestone 1 of project 1,
    made twice, completes twice; the second call returns another payment id
    and another gateway reference and has sent a second transfer. *)
Lemma processPayment_idempotent_counterexample :
  exists (first second : PaymentRecord) (w1 w2 : World),
    processPayment PaymentScenarios.env PaymentScenarios.disbursement
      PaymentScenarios.start = (Return first, w1)
    /\ processPayment PaymentScenarios.env PaymentScenarios.disbursement w1
       = (Return second, w2)
    /\ paymentId first = "PAY_1_1_1700000000000_k3j9x2m10"
    /\ paymentId second = "PAY_1_1_1700000000003_k3j9x2m11"
    /\ pr_gatewayReference first = Some "ach_0"
    /\ pr_gatewayReference second = Some "ach_1"
    /\ second <> first
    /\ length (posts w1) = 1%nat
    /\ length (posts w2) = 2%nat.
Proof.
  eexists _, _, _, _.
  split; [vm_compute; reflexivity |].
  split; [vm_compute; reflexivity |].
  repeat split; try reflexivity. discriminate.
Qed.

Lemma processPayment_fresh_witness :
  processPayment PaymentScenarios.env PaymentScenarios.disbursement
    PaymentScenarios.afterFirst
    = (Return PaymentScenarios.secondRecord, PaymentScenarios.afterSecond)
  /\ paymentId PaymentScenarios.secondRecord = "PAY_1_1_1700000000003_k3j9x2m11"
  /\ (length (posts PaymentScenarios.afterFirst)
      < length (posts PaymentScenarios.afterSecond))%nat.
Proof.
  assert (Hsecond : processPayment PaymentScenarios.env PaymentScenarios.disbursement
                      PaymentScenarios.afterFirst
                    = (Return PaymentScenarios.secondRecord, PaymentScenarios.afterSecond))
    by (vm_compute; reflexivity).
  destruct (processPayment_fresh PaymentScenarios.env PaymentScenarios.disbursement
              PaymentScenarios.afterFirst PaymentScenarios.afterSecond
              PaymentScenarios.secondRecord Hsecond) as (Hid & Hposts & _).
  split; [exact Hsecond |]. split; [exact Hid | exact Hposts].
Defined.

(** C7.  Payment execution makes a bounded number of attempts and then
    ends.  [processWithRetry] is the bounded retry whose budget is the
    attempts left, [maxAttempts - attempt], one less with every retry;
    before a retry it waits [min(baseDelay * 2^(attempt-1), maxDelay)], which
    never exceeds the cap and whose uncapped part doubles from one attempt
    to the next.  With the service's configuration (3 attempts, 1000 ms,
    30000 ms) the operation runs at most three times, after waits of 1000
    and 2000 ms, and the outcome of the third run, its error included, is
    the result. *)
Theorem processWithRetry_bounded {A} (cfg : RetryConfig)
    (operation : World -> Completion A * World) (paymentId : string)
    (attempt : Z) (w : World) :
  1 <= attempt ->
  processWithRetry cfg operation paymentId attempt w =
    retryUpTo cfg (Z.to_nat (maxAttempts cfg - attempt)) operation attempt w
  /\ backoff cfg attempt <= maxDelay cfg
  /\ backoff cfg (attempt + 1) =
       Z.min (2 * (baseDelay cfg * 2 ^ (attempt - 1))) (maxDelay cfg)
  /\ processWithRetry retryConfig operation paymentId 1 w =
       match operation w with
       | (Return r, w1) => (Return r, w1)
       | (Throw _, w1) =>
           match operation (sleep 1000 w1) with
           | (Return r, w2) => (Return r, w2)
           | (Throw _, w2) => operation (sleep 2000 w2)
           end
       end.
Proof.
  intros Hattempt. split; [| split; [| split]].
  - apply processWithRetry_retryUpTo. reflexivity.
  - unfold backoff. apply Z.le_min_r.
  - unfold backoff. f_equal.
    replace (attempt + 1 - 1) with (Z.succ (attempt - 1)) by lia.
    rewrite Z.pow_succ_r by lia. ring.
  - rewrite (processWithRetry_retryUpTo retryConfig operation paymentId 2 1 w eq_refl).
    cbn [retryUpTo].
    destruct (operation w) as [[r | e] w1]; [reflexivity |].
    change (backoff retryConfig 1) with 1000.
    destruct (operation (sleep 1000 w1)) as [[r | e'] w2]; [reflexivity |].
    change (backoff retryConfig (1 + 1)) with 2000.
    destruct (operation (sleep 2000 w2)) as [[r | e''] w3]; reflexivity.
Qed.

(** With the gateway down, three transfers are attempted, 1000 and 2000 ms
    apart, and the third failure is the result. *)
Lemma processWithRetry_bounded_witness :
  let r := processWithRetry retryConfig
             (executePayment PaymentScenarios.down "ach" PaymentScenarios.disbursement)
             "PAY_1_1" 1 PaymentScenarios.start in
  fst r = Throw {| err_name := "AxiosError"; err_message := "timeout";
                   err_status := None |}
  /\ length (posts (snd r)) = 3%nat
  /\ sleeps (snd r) = [1000; 2000].
Proof.
  destruct (processWithRetry_bounded retryConfig
              (executePayment PaymentScenarios.down "ach" PaymentScenarios.disbursement)
              "PAY_1_1" 1 PaymentScenarios.start) as (_ & _ & _ & Hthree); [lia |].
  cbv zeta. rewrite Hthree. vm_compute. repeat split.
Defined.

End PaymentFacts.

(** ** Banking requests (bankingService.js) *)
Module BankingFacts.
Import BankingService.

Section AnyBank.
Context {R : Type}.
Variable axios : nat -> Config -> Completion R.
Variable this : Service.

(** One turn of the loop. *)
Lemma attempts_step (config : Config) (attempt : Z) (lastError : option JsError)
    (w : World) :
  attempt <= retryAttempts this ->
  attempts axios this config attempt lastError w =
    match send axios config w with
    | (Return response, w1) => (Return response, w1)
    | (Throw error, w1) =>
        if isClientError error then (Throw error, w1)
        else attempts axios this config (attempt + 1) (Some error)
               (if attempt <? retryAttempts this
                then sleep (2 ^ attempt * 1000) w1 else w1)
    end.
Proof.
  intros Hle. simp attempts.
  destruct (Z_le_gt_dec attempt (retryAttempts this)) as [Hle' | Hgt]; [| lia].
  simp attempts.
  destruct (send axios config w) as [[response | error] w1]; simp attempts;
    [reflexivity |].
  destruct (isClientError error); simp attempts; reflexivity.
Qed.

(** The loop's exit. *)
Lemma attempts_done (config : Config) (attempt : Z) (lastError : option JsError)
    (w : World) :
  attempt > retryAttempts this ->
  attempts axios this config attempt lastError w = (throwLast lastError, w).
Proof.
  intros Hgt. simp attempts.
  destruct (Z_le_gt_dec attempt (retryAttempts this)) as [Hle | Hgt']; [lia | reflexivity].
Qed.
End AnyBank.



End BankingFacts.

(** ** Aggregation over sources (dataIntegrationService.js) *)
Module AggregationFacts.
Import DataIntegrationService.

Section AnySources.
Variable axios : nat -> GetRequest -> Completion ReplyData.

(** What a fetcher returns is never an [{ error, sourceId }] object. *)
Lemma fetchByType_valid (fromDate toDate : Z) (i : nat) (source : Source)
    (data : SourceResult) :
  fetchByType axios fromDate toDate i source = Return data -> hasError data = false.
Proof.
  unfold fetchByType, getIoTProductionData, getGovernmentEnergyData,
    getThirdPartyVerification, rethrow, typeError, mbind, Completion_bind, Js.bind.
  destruct (String.eqb (type source) "iot").
  { destruct (axios i _) as [[] |]; intros H; inversion H; reflexivity. }
  destruct (String.eqb (type source) "government").
  { destruct (axios i _) as [[] |]; intros H; inversion H; reflexivity. }
  destruct (String.eqb (type source) "third_party").
  { destruct (axios i _) as [[] |]; intros H; inversion H; reflexivity. }
  discriminate.
Qed.

(** The valid results are the data of the sources whose fetch returned. *)
Lemma validResults_succeeded (sources : list Source) :
  forall (g : nat -> Source -> Completion SourceResult),
    (forall i source data, g i source = Return data -> hasError data = false) ->
    validResultsOf
      (allSettled
         (imap (fun i source =>
                  match g i source with
                  | Return data => Return data
                  | Throw error => Return (FailedSource (err_message error) (id source))
                  end) sources))
    = omap (fun p => p)
        (imap (fun i source =>
                 match g i source with
                 | Return data => Some data
                 | Throw _ => None
                 end) sources).
Proof.
  induction sources as [| source sources IH]; intros g Hg; [reflexivity |].
  rewrite !imap_cons. unfold validResultsOf, allSettled in *. cbn [map omap].
  specialize (IH (fun i => g (S i)) (fun i => Hg (S i))).
  unfold compose. cbn beta in IH.
  destruct (g 0%nat source) as [data | error] eqn:Hfetch;
    cbn [map omap list_omap hasError].
  - rewrite (Hg _ _ _ Hfetch). f_equal. exact IH.
  - exact IH.
Qed.

(** The reduction that totals the production adds up what the valid
    results report. *)
Lemma totalProduction_sum (valid : list SourceResult) :
  forall start : Q,
    (fold_left (fun sum result =>
                  match truthy (summaryTotalProduction result) with
                  | Some t => (sum + t)%Q
                  | None => sum
                  end) valid start
     == start + sumQ (map reportedProduction valid))%Q.
Proof.
  induction valid as [| result valid IH]; intros start; cbn [fold_left map sumQ fold_right].
  - ring.
  - rewrite IH. fold (sumQ (map reportedProduction valid)).
    generalize (sumQ (map reportedProduction valid)). intros rest.
    unfold reportedProduction, truthy.
    destruct (summaryTotalProduction result) as [q |]; unfold from_option, Datatypes.id.
    + destruct (Qeq_bool q 0) eqn:Hzero.
      * apply Qeq_bool_iff in Hzero. rewrite Hzero. ring.
      * ring.
    + ring.
Qed.
End AnySources.

(** The percentage [k / n * 100] of [k] sources out of [n > 0]. *)
Lemma reliability_bounds (k n : nat) :
  (0 < n)%nat ->
  let q := (inject_Z (Z.of_nat k) / inject_Z (Z.of_nat n) * 100)%Q in
  (k = 0%nat -> (q == 0)%Q)
  /\ ((q < 100)%Q <-> (k < n)%nat)
  /\ (k = n -> (q == 100)%Q)
  /\ (q * inject_Z (Z.of_nat n) == 100 * inject_Z (Z.of_nat k))%Q.
Proof.
  intros Hn q. unfold q.
  destruct (Z.of_nat n) as [| p | p] eqn:Hp; try lia.
  assert (Hk : 0 <= Z.of_nat k) by lia.
  unfold Qeq, Qlt, Qdiv, Qmult, Qinv, inject_Z. cbn.
  rewrite ?Pos.mul_1_r, ?Z.mul_1_r.
  repeat split; intros; try lia.
Qed.

Section Aggregating.
Variable axios : nat -> GetRequest -> Completion ReplyData.

(** The shape of what the aggregation returns. *)
Lemma aggregated_shape (now : Z) (sources : list Source) (fromDate toDate : Z) :
  exists result,
    getAggregatedProductionData axios now sources fromDate toDate = Return result
    /\ sourcesUsed (aggregated result)
       = length (succeededData axios sources fromDate toDate)
    /\ (totalProduction (aggregated result)
        == sumQ (map reportedProduction (succeededData axios sources fromDate toDate)))%Q
    /\ dataReliability (aggregated result)
       = match sources with
         | [] => None
         | _ => Some (inject_Z (Z.of_nat (length (succeededData axios sources
                                                    fromDate toDate)))
                      / inject_Z (Z.of_nat (length sources)) * 100)%Q
         end.
Proof.
  unfold getAggregatedProductionData. eexists. split; [reflexivity |].
  cbn [aggregated sourcesUsed totalProduction dataReliability].
  assert (Hvalid : validResultsOf (allSettled (imap (fetchSource axios fromDate toDate)
                                                 sources))
                   = succeededData axios sources fromDate toDate).
  { unfold fetchSource, succeededData.
    apply (validResults_succeeded sources (fetchByType axios fromDate toDate)).
    intros i source data. apply fetchByType_valid. }
  rewrite Hvalid. split; [reflexivity |]. split; [| reflexivity].
  rewrite totalProduction_sum. ring.
Qed.

(** C4, as the code has it.  The aggregation does not fail because sources
    fail: for every list of sources it returns a result.  Its
    [dataReliability] is the percentage of the sources that succeeded: 0
    when none did, below 100 exactly when at least one source failed, 100
    when all succeeded, and NaN for an empty list. *)
Theorem aggregation_never_unavailable (now : Z) (sources : list Source)
    (fromDate toDate : Z) :
  let k := length (succeededData axios sources fromDate toDate) in
  let n := length sources in
  exists result,
    getAggregatedProductionData axios now sources fromDate toDate = Return result
    /\ sourcesUsed (aggregated result) = k
    /\ (n = 0%nat -> dataReliability (aggregated result) = None)
    /\ ((0 < n)%nat ->
        exists q, dataReliability (aggregated result) = Some q
                  /\ (k = 0%nat -> (q == 0)%Q)
                  /\ ((q < 100)%Q <-> (k < n)%nat)
                  /\ (k = n -> (q == 100)%Q)).
Proof.
  intros k n.
  destruct (aggregated_shape now sources fromDate toDate)
    as (result & Hreturn & Hused & _ & Hreliability).
  exists result. split; [exact Hreturn |]. split; [exact Hused |]. split.
  - intros Hn. rewrite Hreliability. destruct sources; [reflexivity | discriminate].
  - intros Hn. eexists. split.
    + rewrite Hreliability. destruct sources; [cbn in Hn; lia | reflexivity].
    + destruct (reliability_bounds k n Hn) as (Hzero & Hbelow & Hfull & _).
      split; [exact Hzero |]. split; [exact Hbelow | exact Hfull].
Qed.

End Aggregating.

(** *** The aggregation over two meters and a registry *)
Section OnTheMeters.
Import AggregationScenarios.

(** C4 fails on the code.  With its one source down the aggregation does
    not fail: it returns a result with no source used and a reliability of
    0.  With its one source up, the reliability is 100, not below. *)
Lemma aggregation_unavailable_counterexample :
  succeededData allDown [meter "meter-1"] Scenarios.t0 Scenarios.t1 = []
  /\ (exists result,
        getAggregatedProductionData allDown Scenarios.t1 [meter "meter-1"]
          Scenarios.t0 Scenarios.t1 = Return result
        /\ sourcesUsed (aggregated result) = 0%nat
        /\ dataReliability (aggregated result) = Some 0%Q)
  /\ length (succeededData firstOnly [meter "meter-1"] Scenarios.t0 Scenarios.t1) = 1%nat
  /\ (exists result q,
        getAggregatedProductionData firstOnly Scenarios.t1 [meter "meter-1"]
          Scenarios.t0 Scenarios.t1 = Return result
        /\ dataReliability (aggregated result) = Some q
        /\ ~ (q < 100)%Q).
Proof.
  split; [reflexivity |]. split.
  - eexists. split; [reflexivity |]. split; reflexivity.
  - split; [reflexivity |]. eexists _, _. split; [reflexivity |].
    split; [reflexivity |]. vm_compute. discriminate.
Qed.

Lemma aggregation_never_unavailable_witness :
  exists result q,
    getAggregatedProductionData firstOnly Scenarios.t1 [meter "meter-1"; meter "meter-2"]
      Scenarios.t0 Scenarios.t1 = Return result
    /\ sourcesUsed (aggregated result) = 1%nat
    /\ dataReliability (aggregated result) = Some q
    /\ (q < 100)%Q.
Proof.
  destruct (aggregation_never_unavailable firstOnly Scenarios.t1
              [meter "meter-1"; meter "meter-2"] Scenarios.t0 Scenarios.t1)
    as (result & Hreturn & Hused & _ & Hsome).
  destruct Hsome as (q & Hq & _ & Hbelow & _); [cbn; lia |].
  exists result, q. split; [exact Hreturn |]. split; [exact Hused |].
  split; [exact Hq |]. apply Hbelow. vm_compute. lia.
Defined.
End OnTheMeters.

End AggregationFacts.

(** ** The aggregation on doubles (dataIntegrationService.js) *)
Module DoubleAggregationFacts.
Import PrimFloat DataIntegrationDoubles.

Section AnySources.
Variable axios : nat -> GetRequest -> Completion ReplyData.

(** What a fetcher returns is never an [{ error, sourceId }] object. *)
Lemma fetched_data_valid (fromDate toDate : Z) (i : nat) (source : Source)
    (data : SourceResult) :
  fetchByType axios fromDate toDate i source = Return data -> hasError data = false.
Proof.
  unfold fetchByType, getIoTProductionData, getGovernmentEnergyData,
    getThirdPartyVerification, rethrow, DataIntegrationService.typeError,
    mbind, Completion_bind, Js.bind.
  cbv zeta.
  destruct (String.eqb (DataIntegrationService.type source) "iot").
  { destruct (axios i _) as [[] |]; intros H; inversion H; reflexivity. }
  destruct (String.eqb (DataIntegrationService.type source) "government").
  { destruct (axios i _) as [[] |]; intros H; inversion H; reflexivity. }
  destruct (String.eqb (DataIntegrationService.type source) "third_party").
  { destruct (axios i _) as [[] |]; intros H; inversion H; reflexivity. }
  discriminate.
Qed.

(** The valid results are the data of the sources whose fetch returned. *)
Lemma valid_results_succeeded (sources : list Source) :
  forall (g : nat -> Source -> Completion SourceResult),
    (forall i source data, g i source = Return data -> hasError data = false) ->
    validResultsOf
      (allSettled
         (imap (fun i source =>
                  match g i source with
                  | Return data => Return data
                  | Throw error =>
                      Return (FailedSource (err_message error)
                                (DataIntegrationService.id source))
                  end) sources))
    = omap (fun p => p)
        (imap (fun i source =>
                 match g i source with
                 | Return data => Some data
                 | Throw _ => None
                 end) sources).
Proof.
  induction sources as [| source sources IH]; intros g Hg; [reflexivity |].
  rewrite !imap_cons. unfold validResultsOf, allSettled in *. cbn [map omap].
  specialize (IH (fun i => g (S i)) (fun i => Hg (S i))).
  unfold compose. cbn beta in IH.
  destruct (g 0%nat source) as [data | error] eqn:Hfetch;
    cbn [map omap list_omap hasError].
  - rewrite (Hg _ _ _ Hfetch). f_equal. exact IH.
  - exact IH.
Qed.

(** The reduction that totals the production is the sum from the left of
    what the valid results report. *)
Lemma totalProduction_from_left (valid : list SourceResult) :
  forall start : PrimFloat.float,
    fold_left (fun sum result =>
                 match truthy (summaryTotalProduction result) with
                 | Some t => PrimFloat.add sum t
                 | None => sum
                 end) valid start
    = fold_left PrimFloat.add (omap reportedProduction valid) start.
Proof.
  induction valid as [| result valid IH]; intros start; [reflexivity |].
  cbn [fold_left omap list_omap]. fold (omap reportedProduction valid).
  unfold reportedProduction at 1.
  destruct (truthy (summaryTotalProduction result)) as [t |]; cbn [fold_left]; apply IH.
Qed.

(** C6, as the code has it.  For every list of sources the aggregation
    returns.  Its [totalProduction] is the sum of [summary.totalProduction]
    over exactly the sources that succeeded and report one, taken from 0 in
    the order of the list and rounded to a double at every addition; its
    [dataReliability] is the double [(succeeded / requested) * 100]: the
    percentage of the sources that succeeded, with the quotient and the
    product each rounded. *)
Theorem aggregation_totals_rounded (now : Z) (sources : list Source)
    (fromDate toDate : Z) :
  let succeeded := succeededData axios sources fromDate toDate in
  exists result,
    getAggregatedProductionData axios now sources fromDate toDate = Return result
    /\ sourcesUsed (aggregated result) = length succeeded
    /\ totalProduction (aggregated result)
       = sumFromLeft (omap reportedProduction succeeded)
    /\ dataReliability (aggregated result)
       = (ofLength (length succeeded) / ofLength (length sources) * 100)%float.
Proof.
  intros succeeded. unfold getAggregatedProductionData. eexists. split; [reflexivity |].
  cbn [aggregated sourcesUsed totalProduction dataReliability].
  assert (Hvalid : validResultsOf (allSettled (imap (fetchSource axios fromDate toDate)
                                                 sources)) = succeeded).
  { unfold fetchSource, succeeded, succeededData.
    apply (valid_results_succeeded sources (fetchByType axios fromDate toDate)).
    intros i source data. apply fetched_data_valid. }
  rewrite Hvalid. split; [reflexivity |]. split; [| reflexivity].
  apply totalProduction_from_left.
Qed.
End AnySources.

(** *** Meters that report fractions, and seven meters of twenty-five *)
Section OnTheMeters.
Import DoubleScenarios.

(** C6 fails on the code.  Three meters report 0.1, 0.2 and 0.3: the
    total is 0.6000000000000001, which is not the sum of the three reports,
    and differs from the total of the same reports in the opposite order.
    Seven meters of twenty-five answer: the reliability is
    28.000000000000004, neither the fraction 7/25 nor the percentage 28. *)
Lemma aggregation_rounding_counterexample :
  let reports := [tenths 1; tenths 2; tenths 3] in
  (exists result total sum,
     getAggregatedProductionData (reporting reports) Scenarios.t1 (meters 3)
       Scenarios.t0 Scenarios.t1 = Return result
     /\ omap reportedProduction
          (succeededData (reporting reports) (meters 3) Scenarios.t0 Scenarios.t1)
        = reports
     /\ exact (totalProduction (aggregated result)) = Some total
     /\ exact (tenths 1) = Some (3602879701896397 # 36028797018963968)%Q
     /\ exact (tenths 2) = Some (3602879701896397 # 18014398509481984)%Q
     /\ exact (tenths 3) = Some (5404319552844595 # 18014398509481984)%Q
     /\ sum = ((3602879701896397 # 36028797018963968)
               + (3602879701896397 # 18014398509481984)
               + (5404319552844595 # 18014398509481984))%Q
     /\ ~ (total == sum)%Q
     /\ (exists reversed,
           getAggregatedProductionData (reporting (rev reports)) Scenarios.t1 (meters 3)
             Scenarios.t0 Scenarios.t1 = Return reversed
           /\ PrimFloat.ltb (totalProduction (aggregated reversed))
                (totalProduction (aggregated result)) = true))
  /\ (exists result q,
        getAggregatedProductionData (reporting (repeat 500%float 7)) Scenarios.t1
          (meters 25) Scenarios.t0 Scenarios.t1 = Return result
        /\ sourcesUsed (aggregated result) = 7%nat
        /\ length (sources result) = 25%nat
        /\ exact (dataReliability (aggregated result)) = Some q
        /\ ~ (q == 7 # 25)%Q
        /\ ~ (q == 28)%Q
        /\ (28 < q)%Q).
Proof.
  cbv zeta. split.
  - eexists _, _, _. split; [reflexivity |]. split; [vm_compute; reflexivity |].
    split; [vm_compute; reflexivity |]. split; [vm_compute; reflexivity |].
    split; [vm_compute; reflexivity |]. split; [vm_compute; reflexivity |].
    split; [reflexivity |]. split; [vm_compute; discriminate |].
    eexists. split; [reflexivity |]. vm_compute. reflexivity.
  - eexists _, _. split; [reflexivity |]. split; [vm_compute; reflexivity |].
    split; [vm_compute; reflexivity |]. split; [vm_compute; reflexivity |].
    split; [vm_compute; discriminate |]. split; [vm_compute; discriminate |].
    vm_compute. reflexivity.
Qed.

(** One meter reports 500 and the registry, which succeeds too, reports no
    production: the total is 500 and the reliability 100. *)
Lemma aggregation_totals_rounded_witness :
  let axios i request :=
    match i with
    | O => Return (reply 500%float)
    | _ => Return (GovernmentReply [] (Some 800%float) None None None [])
    end in
  exists result,
    getAggregatedProductionData axios Scenarios.t1
      [AggregationScenarios.meter "meter-1"; AggregationScenarios.registry]
      Scenarios.t0 Scenarios.t1 = Return result
    /\ sourcesUsed (aggregated result) = 2%nat
    /\ exact (totalProduction (aggregated result)) = Some 500%Q
    /\ exact (dataReliability (aggregated result)) = Some 100%Q.
Proof.
  cbv zeta.
  destruct (aggregation_totals_rounded
              (fun i request =>
                 match i with
                 | O => Return (reply 500%float)
                 | _ => Return (GovernmentReply [] (Some 800%float) None None None [])
                 end)
              Scenarios.t1
              [AggregationScenarios.meter "meter-1"; AggregationScenarios.registry]
              Scenarios.t0 Scenarios.t1) as (result & Hreturn & Hused & Htotal & Hreliability).
  exists result. split; [exact Hreturn |]. split; [exact Hused |].
  rewrite Htotal, Hreliability. split; vm_compute; reflexivity.
Defined.
End OnTheMeters.

(** *** The reliability as it compares with 0 and with 100 *)
Section Comparing.
Variable axios : nat -> GetRequest -> Completion ReplyData.

(** The percentage of [k] out of [n] as the code computes it. *)
Lemma reliability_checked :
  forallb (fun n =>
             forallb (fun k =>
                        let q := (ofLength k / ofLength n * 100)%float in
                        Bool.eqb (PrimFloat.eqb q 0) (k =? 0)%nat
                        && Bool.eqb (PrimFloat.ltb q 100) (k <? n)%nat
                        && Bool.eqb (PrimFloat.eqb q 100) (k =? n)%nat)
               (seq 0 (S n)))
    (seq 1 100) = true.
Proof. vm_compute. reflexivity. Qed.

Lemma succeeded_at_most (sources : list Source) (fromDate toDate : Z) :
  (length (succeededData axios sources fromDate toDate) <= length sources)%nat.
Proof.
  unfold succeededData.
  generalize (fetchByType axios fromDate toDate). intros g. revert g.
  induction sources as [| source sources IH]; intros g; [reflexivity |].
  rewrite imap_cons. cbn [omap list_omap]. fold (@omap list _).
  specialize (IH (fun i => g (S i))). unfold compose.
  destruct (g 0%nat source); cbn [length]; cbn beta in IH |- *.
  - apply le_n_S. exact IH.
  - apply Nat.le_trans with (length sources); [exact IH | apply Nat.le_succ_diag_r].
Qed.

(** X28.  The reliability compares with 0 and with 100 as the exact
    percentage does.  For up to a hundred sources, the double
    [dataReliability] that the aggregation returns equals 0 exactly when no
    source succeeded, equals 100 exactly when all did, and is below 100
    exactly when one failed: the two roundings move the percentage across
    neither bound. *)
Theorem reliability_compares_exactly (now : Z) (sources : list Source)
    (fromDate toDate : Z) :
  (0 < length sources <= 100)%nat ->
  let k := length (succeededData axios sources fromDate toDate) in
  let n := length sources in
  exists result,
    getAggregatedProductionData axios now sources fromDate toDate = Return result
    /\ sourcesUsed (aggregated result) = k
    /\ (k <= n)%nat
    /\ (PrimFloat.eqb (dataReliability (aggregated result)) 0 = true <-> k = 0%nat)
    /\ (PrimFloat.ltb (dataReliability (aggregated result)) 100 = true <-> (k < n)%nat)
    /\ (PrimFloat.eqb (dataReliability (aggregated result)) 100 = true <-> k = n).
Proof.
  intros Hn k n. unfold getAggregatedProductionData. eexists. split; [reflexivity |].
  cbn [aggregated sourcesUsed dataReliability].
  assert (Hvalid : validResultsOf (allSettled (imap (fetchSource axios fromDate toDate)
                                                 sources))
                   = succeededData axios sources fromDate toDate).
  { unfold fetchSource, succeededData.
    apply (valid_results_succeeded sources (fetchByType axios fromDate toDate)).
    intros i source data. apply fetched_data_valid. }
  rewrite Hvalid. fold k. fold n. split; [reflexivity |].
  assert (Hk : (k <= n)%nat) by apply succeeded_at_most.
  split; [exact Hk |].
  pose proof reliability_checked as Hall.
  rewrite forallb_forall in Hall. specialize (Hall n).
  assert (Hin : In n (seq 1 100)) by (apply in_seq; unfold n; lia).
  specialize (Hall Hin). rewrite forallb_forall in Hall. specialize (Hall k).
  assert (Hink : In k (seq 0 (S n))) by (apply in_seq; lia).
  specialize (Hall Hink). cbv zeta in Hall.
  apply andb_prop in Hall. destruct Hall as [Hall Hfull].
  apply andb_prop in Hall. destruct Hall as [Hzero Hbelow].
  apply Bool.eqb_prop in Hzero, Hbelow, Hfull.
  rewrite Hzero, Hbelow, Hfull.
  rewrite Nat.eqb_eq, Nat.ltb_lt, Nat.eqb_eq. repeat split; intros H; exact H.
Qed.
End Comparing.

(** Seven meters of twenty-five answer: the reliability is above 28 and
    below 100. *)
Lemma reliability_compares_exactly_witness :
  exists result,
    getAggregatedProductionData (DoubleScenarios.reporting (repeat 500%float 7))
      Scenarios.t1 (DoubleScenarios.meters 25) Scenarios.t0 Scenarios.t1 = Return result
    /\ sourcesUsed (aggregated result) = 7%nat
    /\ PrimFloat.ltb (dataReliability (aggregated result)) 100 = true
    /\ PrimFloat.ltb 28 (dataReliability (aggregated result)) = true.
Proof.
  destruct (reliability_compares_exactly (DoubleScenarios.reporting (repeat 500%float 7))
              Scenarios.t1 (DoubleScenarios.meters 25) Scenarios.t0 Scenarios.t1)
    as (result & Hreturn & Hused & _ & _ & Hbelow & _); [cbn; lia |].
  exists result. split; [exact Hreturn |]. split; [exact Hused |]. split.
  - apply Hbelow. vm_compute. lia.
  - unfold getAggregatedProductionData in Hreturn. inversion Hreturn. vm_compute.
    reflexivity.
Defined.

End DoubleAggregationFacts.

(** ** Texts *)
Module StringFacts.

Lemma length_append (a b : string) :
  String.length (a ++ b) = (String.length a + String.length b)%nat.
Proof. induction a as [| x a IH]; simpl; [reflexivity | f_equal; exact IH]. Qed.

Lemma append_assoc (a b c : string) : (a ++ b) ++ c = a ++ (b ++ c).
Proof.
  induction a as [| x a IH]; [reflexivity |].
  change (String x ((a ++ b) ++ c) = String x (a ++ (b ++ c))).
  rewrite IH. reflexivity.
Qed.

(** [list.join(sep)] with one more element. *)
Lemma concat_snoc (sep x : string) (l : list string) :
  l <> [] -> String.concat sep (l ++ [x]) = String.concat sep l ++ sep ++ x.
Proof.
  induction l as [| y l IH]; [congruence |]. intros _.
  destruct l as [| z l]; [reflexivity |].
  change (String.concat sep ((y :: z :: l) ++ [x])%list)
    with (y ++ sep ++ String.concat sep ((z :: l) ++ [x])%list).
  rewrite IH by discriminate.
  change (String.concat sep (y :: z :: l)) with (y ++ sep ++ String.concat sep (z :: l)).
  rewrite !append_assoc. reflexivity.
Qed.

End StringFacts.

(** ** The router and the reading routes (routes/milestones.js) *)
Module RouterFacts.
Import BlockchainService ErrorHandler Auth MilestoneRoutes MilestoneRouter.

(** [needle] found in [s] is found in [s] behind any prefix. *)
Lemma includes_app (pre s needle : string) :
  includes s needle = true -> includes (pre ++ s) needle = true.
Proof.
  intros H. induction pre as [| a pre IH]; [exact H |].
  change (includes (String a pre ++ s) needle)
    with (if String.prefix needle (String a (pre ++ s)) then true
          else includes (pre ++ s) needle).
  rewrite IH. destruct (String.prefix _ _); reflexivity.
Qed.

Lemma array_includes_In (l : list string) (x : string) :
  In x l -> array_includes l x = true.
Proof.
  intros H. unfold array_includes. apply existsb_exists. exists x.
  split; [exact H | apply String.eqb_refl].
Qed.

Section AnyLedger.
Context {L : Type} (c : Contracts L).

(** X1.  GET /pending, /overdue, /stats and /disputes never reach their
    handlers.  The router lists GET /:id before them, and the first route
    that matches ends the request: whatever the path, a GET request is
    dispatched to the /:id route or to /verification/queue.  A request for
    one of the four words is therefore handled as a request for the
    milestone whose id is that word; it fails the validation of [id] and a
    user with any of the four roles is answered 400, with nothing changed. *)
Theorem id_route_shadows (initialized : bool) (now : Z) (u : User) (q : Query)
    (w : World L) (word : string) :
  In (role u) [USER_ROLES.GOVERNMENT; USER_ROLES.AUDITOR; USER_ROLES.ORACLE;
               USER_ROLES.PRODUCER] ->
  In word ["pending"; "overdue"; "stats"; "disputes"] ->
  (forall path name params,
      dispatch GET path = Some (name, params) ->
      name = MilestoneById \/ name = VerificationQueue)
  /\ dispatch GET [word] = Some (MilestoneById, [word])
  /\ handleGet c initialized now (Some u) [word] q w
     = Some (Sent (Respond 400 ValidationFailed), w).
Proof.
  intros Hrole Hword. split; [| split].
  - intros path name params. unfold dispatch, routes.
    destruct path as [| p1 [| p2 [| p3 rest]]]; cbn [firstMatch sameMethod matchPath].
    + discriminate.
    + destruct (String.eqb_spec p1 "") as [-> | Hne]; cbn [fmap option_fmap option_map].
      * cbn. discriminate.
      * intros H; inversion H; auto.
    + repeat (destruct (String.eqb _ _); cbn [fmap option_fmap option_map]);
        try discriminate; intros H; inversion H; auto.
    + repeat (destruct (String.eqb _ _); cbn [fmap option_fmap option_map]);
        try discriminate; intros H; inversion H; auto.
  - cbn in Hword. destruct Hword as [<- | [<- | [<- | [<- | []]]]]; reflexivity.
  - assert (Hdispatch : dispatch GET [word] = Some (MilestoneById, [word])
                        /\ readInt word = None).
    { cbn in Hword. destruct Hword as [<- | [<- | [<- | [<- | []]]]];
        split; reflexivity. }
    destruct Hdispatch as [Hdispatch Hread].
    unfold handleGet. rewrite Hdispatch, Hread.
    unfold getMilestoneById, middlewares, authorize. cbn [user params_id].
    rewrite (array_includes_In _ _ Hrole). reflexivity.
Qed.



(** X5.  In demo mode, with the blockchain service not initialized, no
    milestone request succeeds or changes anything but the error log.  Each
    of the six routes that read the ledger either ends in its middlewares
    (401, 403, 429 or 400) or throws "Service not initialized", which
    errorHandler answers with 500; the ledger and the audit trail are as
    before, and no resolution is recorded. *)
Theorem demo_mode_refuses (now : Z) (w : World L) :
  let refused (o : Outcome) (w' : World L) :=
    (o = Next (Error "Service not initialized")
     \/ exists status body, o = Respond status body /\ In status [400; 401; 403; 429])
    /\ ledger w' = ledger w /\ audit w' = audit w in
  (forall req, let r := createMilestone c false now req w in refused (fst r) (snd r))
  /\ (forall req, let r := verify c false req w in refused (fst r) (snd r))
  /\ (forall req, let r := autoVerify c false req w in refused (fst r) (snd r))
  /\ (forall req, let r := dispute c false now req w in refused (fst r) (snd r))
  /\ (forall req, let r := getMilestoneById c false req w in
        exists o, fst r = Sent o /\ refused o (snd r))
  /\ (forall req, let r := resolveDispute c false now req w in
        exists o, fst (fst r) = Sent o /\ refused o (snd (fst r)) /\ snd r = None)
  /\ statusOf (Next (Error "Service not initialized")) = 500.
Proof.
  cbv zeta.
  assert (H400 : forall b, exists status body,
             Respond 400 b = Respond status body /\ In status [400; 401; 403; 429])
    by (intros b; eexists _, _; split; [reflexivity | cbn; auto]).
  assert (H401 : forall b, exists status body,
             Respond 401 b = Respond status body /\ In status [400; 401; 403; 429])
    by (intros b; eexists _, _; split; [reflexivity | cbn; auto]).
  assert (H403 : forall b, exists status body,
             Respond 403 b = Respond status body /\ In status [400; 401; 403; 429])
    by (intros b; eexists _, _; split; [reflexivity | cbn; auto]).
  assert (H429 : forall b, exists status body,
             Respond 429 b = Respond status body /\ In status [400; 401; 403; 429])
    by (intros b; eexists _, _; split; [reflexivity | cbn; auto]).
  assert (Hmw : forall roles limiter validations user o,
             middlewares roles limiter validations user = inl o ->
             exists status body,
               o = Respond status body /\ In status [400; 401; 403; 429]).
  { intros roles limiter validations user o. unfold middlewares, authorize.
    destruct user as [u |]; [| intros H; inversion H; apply H401].
    destruct (negb _); [intros H; inversion H; apply H403 |].
    destruct limiter as [[|] |]; cbn; try (intros H; inversion H; apply H429);
      unfold validateRequest; destruct (forallb _ _); try discriminate;
      intros H; inversion H; apply H400. }
  repeat split.
  - unfold createMilestone, route, authorize, getProject; cbn [negb].
    destruct (user req) as [u |]; [| right; apply H401].
    destruct (negb (array_includes _ (role u))); [right; apply H403 |].
    cbn match. unfold sensitiveOperationLimiter.
    destruct (limited req); [right; apply H429 |].
    unfold validateRequest. destruct (forallb _ _); [left; reflexivity | right; apply H400].
  - unfold createMilestone, route, authorize, getProject; cbn [negb].
    destruct (user req) as [u |]; [| reflexivity].
    destruct (negb (array_includes _ (role u))); [reflexivity |].
    cbn match. unfold sensitiveOperationLimiter. destruct (limited req); [reflexivity |].
    unfold validateRequest. destruct (forallb _ _); reflexivity.
  - unfold createMilestone, route, authorize, getProject; cbn [negb].
    destruct (user req) as [u |]; [| reflexivity].
    destruct (negb (array_includes _ (role u))); [reflexivity |].
    cbn match. unfold sensitiveOperationLimiter. destruct (limited req); [reflexivity |].
    unfold validateRequest. destruct (forallb _ _); reflexivity.
  - unfold verify, route, authorize, getMilestone; cbn [negb].
    destruct (user req) as [u |]; [| right; apply H401].
    destruct (negb (array_includes _ (role u))); [right; apply H403 |].
    cbn match. unfold sensitiveOperationLimiter.
    destruct (limited req); [right; apply H429 |].
    unfold validateRequest. destruct (forallb _ _); [left; reflexivity | right; apply H400].
  - unfold verify, route, authorize, getMilestone; cbn [negb].
    destruct (user req) as [u |]; [| reflexivity].
    destruct (negb (array_includes _ (role u))); [reflexivity |].
    cbn match. unfold sensitiveOperationLimiter. destruct (limited req); [reflexivity |].
    unfold validateRequest. destruct (forallb _ _); reflexivity.
  - unfold verify, route, authorize, getMilestone; cbn [negb].
    destruct (user req) as [u |]; [| reflexivity].
    destruct (negb (array_includes _ (role u))); [reflexivity |].
    cbn match. unfold sensitiveOperationLimiter. destruct (limited req); [reflexivity |].
    unfold validateRequest. destruct (forallb _ _); reflexivity.
  - unfold autoVerify, route, authorize, getMilestone; cbn [negb].
    destruct (user req) as [u |]; [| right; apply H401].
    destruct (negb (array_includes _ (role u))); [right; apply H403 |].
    cbn match. unfold sensitiveOperationLimiter.
    destruct (limited req); [right; apply H429 |].
    unfold validateRequest. destruct (forallb _ _); [left; reflexivity | right; apply H400].
  - unfold autoVerify, route, authorize, getMilestone; cbn [negb].
    destruct (user req) as [u |]; [| reflexivity].
    destruct (negb (array_includes _ (role u))); [reflexivity |].
    cbn match. unfold sensitiveOperationLimiter. destruct (limited req); [reflexivity |].
    unfold validateRequest. destruct (forallb _ _); reflexivity.
  - unfold autoVerify, route, authorize, getMilestone; cbn [negb].
    destruct (user req) as [u |]; [| reflexivity].
    destruct (negb (array_includes _ (role u))); [reflexivity |].
    cbn match. unfold sensitiveOperationLimiter. destruct (limited req); [reflexivity |].
    unfold validateRequest. destruct (forallb _ _); reflexivity.
  - unfold dispute, route, authorize, getMilestone; cbn [negb].
    destruct (user req) as [u |]; [| right; apply H401].
    destruct (negb (array_includes _ (role u))); [right; apply H403 |].
    cbn match.
    unfold validateRequest. destruct (forallb _ _); [left; reflexivity | right; apply H400].
  - unfold dispute, route, authorize, getMilestone; cbn [negb].
    destruct (user req) as [u |]; [| reflexivity].
    destruct (negb (array_includes _ (role u))); [reflexivity |].
    cbn match. unfold validateRequest. destruct (forallb _ _); reflexivity.
  - unfold dispute, route, authorize, getMilestone; cbn [negb].
    destruct (user req) as [u |]; [| reflexivity].
    destruct (negb (array_includes _ (role u))); [reflexivity |].
    cbn match. unfold validateRequest. destruct (forallb _ _); reflexivity.
  - intros req. unfold getMilestoneById, getMilestone; cbn [negb].
    destruct (middlewares _ _ _ _) as [o | u] eqn:Hm.
    + exists o. repeat split. right. exact (Hmw _ _ _ _ _ Hm).
    + eexists. cbn. repeat split. left. reflexivity.
  - intros req. unfold resolveDispute, getMilestone; cbn [negb].
    destruct (middlewares _ _ _ _) as [o | u] eqn:Hm.
    + exists o. repeat split. right. exact (Hmw _ _ _ _ _ Hm).
    + eexists. cbn. repeat split. left. reflexivity.
Qed.

(** X6.  A milestone the contract does not know is answered 404.  When
    the contract's [getMilestone] fails with a message that contains "does
    not exist", a well-formed request of a user with the route's role is
    answered, on each of the five [:id] routes, with NotFoundError
    "Milestone not found", which errorHandler answers with 404; the ledger,
    the audit trail and the error log are as before. *)
Theorem missing_milestone_not_found (now : Z) (w : World L) (milestoneId : Z)
    (e : JsError) :
  1 <= milestoneId ->
  subsidy_getMilestone c (ledger w) milestoneId = Throw e ->
  includes (err_message e) "does not exist" = true ->
  let notFound := Next (NotFoundError "Milestone not found") in
  (forall u actualValue success,
      role u = USER_ROLES.ORACLE \/ role u = USER_ROLES.AUDITOR -> 0 <= actualValue ->
      verify c true (verifyRequest u milestoneId actualValue success) w = (notFound, w))
  /\ (forall u fromDate toDate,
        role u = USER_ROLES.ORACLE ->
        autoVerify c true (autoVerifyRequest u milestoneId (Some fromDate) (Some toDate)) w
        = (notFound, w))
  /\ (forall u reason,
        role u = USER_ROLES.PRODUCER \/ role u = USER_ROLES.GOVERNMENT ->
        isLength 10 500 (trim reason) = true ->
        dispute c true now (disputeRequest u milestoneId reason) w = (notFound, w))
  /\ (forall u,
        In (role u) [USER_ROLES.GOVERNMENT; USER_ROLES.AUDITOR; USER_ROLES.ORACLE;
                     USER_ROLES.PRODUCER] ->
        getMilestoneById c true (byIdRequest u milestoneId) w = (Sent notFound, w))
  /\ (forall u approved resolution,
        role u = USER_ROLES.AUDITOR ->
        isLength 10 1000 (trim resolution) = true ->
        resolveDispute c true now (resolveRequest u milestoneId approved resolution) w
        = (Sent notFound, w, None))
  /\ statusOf notFound = 404.
Proof.
  intros Hid Hthrow Hmsg notFound.
  assert (Hget : getMilestone c true (ledger w) milestoneId
                 = Throw (Error ("Failed to get milestone: " ++ err_message e))).
  { unfold getMilestone, rethrow, mbind, Completion_bind, Js.bind. cbn [negb].
    rewrite Hthrow. reflexivity. }
  assert (Hinc : includes ("Failed to get milestone: " ++ err_message e) "does not exist"
                 = true) by (apply includes_app; exact Hmsg).
  assert (Hint : isInt 1 (Some milestoneId) = true)
    by (apply MilestoneFacts.isInt_Some; exact Hid).
  repeat split.
  - intros u actualValue success Hrole Hv. unfold verify.
    erewrite MilestoneFacts.route_handler with (u := u);
      [| reflexivity | | reflexivity |].
    + cbn [verifyRequest params_id default from_option Datatypes.id].
      unfold catchMilestone, mbind, Completion_bind, Js.bind.
      rewrite Hget. cbn [err_message Error]. rewrite Hinc. reflexivity.
    + destruct Hrole as [-> | ->]; reflexivity.
    + cbn [verifyRequest params_id body v_actualValue v_success v_verificationNotes forallb].
      rewrite Hint, (MilestoneFacts.isInt_Some 0 _ Hv). reflexivity.
  - intros u fromDate toDate Hrole. unfold autoVerify.
    erewrite MilestoneFacts.route_handler with (u := u);
      [| reflexivity | | reflexivity |].
    + cbn [autoVerifyRequest params_id default from_option Datatypes.id].
      unfold catchMilestone, mbind, Completion_bind, Js.bind.
      rewrite Hget. cbn [err_message Error]. rewrite Hinc. reflexivity.
    + rewrite Hrole. reflexivity.
    + cbn [autoVerifyRequest params_id body a_fromDate a_toDate forallb].
      rewrite Hint. reflexivity.
  - intros u reason Hrole Hlen. unfold dispute.
    erewrite MilestoneFacts.route_handler with (u := u);
      [| reflexivity | | reflexivity |].
    + cbn [disputeRequest params_id default from_option Datatypes.id].
      unfold catchMilestone, mbind, Completion_bind, Js.bind.
      rewrite Hget. cbn [err_message Error]. rewrite Hinc. reflexivity.
    + destruct Hrole as [-> | ->]; reflexivity.
    + cbn [disputeRequest params_id body d_reason forallb].
      rewrite Hint, Hlen. reflexivity.
  - intros u Hrole. unfold getMilestoneById, middlewares, authorize, byIdRequest.
    cbn [user params_id]. rewrite (array_includes_In _ _ Hrole). cbn [negb mbind option_bind].
    unfold validateRequest. cbn [forallb]. rewrite Hint. cbn [andb default from_option Datatypes.id].
    unfold catchReply, mbind, Completion_bind, Js.bind.
    rewrite Hget. cbn [err_message Error]. rewrite Hinc. reflexivity.
  - intros u approved resolution Hrole Hlen.
    unfold resolveDispute, middlewares, authorize, resolveRequest.
    cbn [user params_id body limited r_approved r_resolution].
    rewrite Hrole.
    replace (negb (array_includes [USER_ROLES.AUDITOR] USER_ROLES.AUDITOR))
      with false by reflexivity.
    cbn [mbind option_bind sensitiveOperationLimiter].
    unfold validateRequest. cbn [forallb]. rewrite Hint, Hlen.
    unfold isBoolean. rewrite bool_decide_eq_true_2 by (eexists; reflexivity).
    cbn [andb default from_option Datatypes.id].
    rewrite Hget. cbn [err_message Error]. rewrite Hinc. reflexivity.
Qed.

(** X27.  Adding a milestone validates [amount] and reads
    [subsidyAmount].  A request of a government user that names no
    [amount] is answered 400 "Validation failed", with nothing changed,
    whatever else it holds; so is the request of the test "should add
    milestone as government", which names [subsidyAmount] and expects 201.
    And what a request is answered does not depend on its [amount], once
    that passes the validation. *)
Theorem amount_validated_not_read (initialized : bool) (now : Z) (u : User)
    (held : bool) (b : CreateBody) (w : World L) :
  role u = USER_ROLES.GOVERNMENT ->
  let request amount :=
    {| user := Some u; limited := held; params_id := None;
       body := withAmount amount b |} in
  (held = false ->
   createMilestone c initialized now (request None) w = (Respond 400 ValidationFailed, w))
  /\ (forall a a',
        isFloat (1 # 100) (Some a) = true -> isFloat (1 # 100) (Some a') = true ->
        createMilestone c initialized now (request (Some a)) w
        = createMilestone c initialized now (request (Some a')) w).
Proof.
  intros Hrole request. split.
  - intros ->. unfold createMilestone.
    apply MilestoneFacts.route_invalid with (u := u); [reflexivity | | reflexivity |].
    + rewrite Hrole. reflexivity.
    + cbn [request body withAmount c_amount c_projectId c_description c_targetValue
             c_verificationSource c_deadline forallb isFloat].
      rewrite !andb_false_r, ?andb_false_l. reflexivity.
  - intros a a' Ha Ha'. unfold createMilestone, route, request.
    cbn [user limited body withAmount c_amount c_projectId c_description c_targetValue
           c_verificationSource c_deadline c_subsidyAmount forallb].
    rewrite Ha, Ha'. reflexivity.
Qed.
End AnyLedger.

(** *** The routes on the ledger of [Scenarios] *)
Section OnTheLedger.
Import Scenarios RouterScenarios.

(** The oracle's GET /pending is answered as a request for the milestone
    "pending". *)
Lemma id_route_shadows_witness :
  dispatch GET ["pending"] = Some (MilestoneById, ["pending"])
  /\ handleGet SpecLedger.contracts true t0 (Some oracle) ["pending"] emptyQuery world0
     = Some (Sent (Respond 400 ValidationFailed), world0).
Proof.
  destruct (id_route_shadows SpecLedger.contracts true t0 oracle emptyQuery world0
              "pending") as (_ & Hdispatch & Hget).
  - right; right; left; reflexivity.
  - left; reflexivity.
  - split; [exact Hdispatch | exact Hget].
Defined.

(** The request of the test, sent by the government user a day before
    the deadline. *)
Lemma amount_validated_not_read_witness :
  createMilestone SpecLedger.contracts true t0
    {| user := Some AuthScenarios.government; limited := false; params_id := None;
       body := testMilestone (t0 + 86400000) |} world0
  = (Respond 400 ValidationFailed, world0).
Proof.
  destruct (amount_validated_not_read SpecLedger.contracts true t0
              AuthScenarios.government false (testMilestone (t0 + 86400000)) world0
              eq_refl) as [Hmissing _].
  exact (Hmissing eq_refl).
Defined.

(** The ledger holds no milestone 9: the oracle's verification of it is
    answered 404. *)
Lemma missing_milestone_not_found_witness :
  verify SpecLedger.contracts true (verifyRequest oracle 9 500 true) world0
  = (Next (NotFoundError "Milestone not found"), world0)
  /\ statusOf (Next (NotFoundError "Milestone not found")) = 404.
Proof.
  destruct (missing_milestone_not_found SpecLedger.contracts t0 world0 9
              (Error "Milestone does not exist"))
    as (Hverify & _ & _ & _ & _ & Hstatus); [lia | reflexivity | reflexivity |].
  split; [| exact Hstatus].
  apply Hverify; [left; reflexivity | lia].
Defined.
End OnTheLedger.

End RouterFacts.

(** ** The error handler (middleware/errorHandler.js) *)
Module ErrorHandlerFacts.
Import ErrorHandler.

Ltac member := cbn; repeat (first [left; reflexivity | right]).

(** X7.  errorHandler answers with one of seven statuses, and its later
    checks override its earlier ones.  A MongoError or SequelizeError is
    answered 500 "Database operation failed" whatever its message; any
    other error whose message contains "revert" or "transaction failed" is
    answered 400 "Blockchain transaction failed" whatever its class, a
    ForbiddenError, NotFoundError or ConflictError included; and an error
    with neither wording nor one of the handled names is answered 500. *)
Theorem errorHandler_precedence (error : JsError) :
  let database := String.eqb (err_name error) "MongoError"
                  || String.eqb (err_name error) "SequelizeError" in
  let blockchain := includes (err_message error) "revert"
                    || includes (err_message error) "transaction failed" in
  In (fst (errorHandler error)) [400; 401; 403; 404; 409; 429; 500]
  /\ (database = true -> errorHandler error = (500, "Database operation failed"))
  /\ (database = false -> blockchain = true ->
      errorHandler error = (400, "Blockchain transaction failed"))
  /\ (database = false -> blockchain = false ->
      errorHandler error <> (400, "Blockchain transaction failed")
      /\ errorHandler error <> (500, "Database operation failed")).
Proof.
  cbv zeta. unfold errorHandler.
  destruct (String.eqb (err_name error) "MongoError" || _).
  { split; [member |]. split; [reflexivity |]. split; discriminate. }
  destruct (includes (err_message error) "revert" || _).
  { split; [member |]. split; [discriminate |]. split; [reflexivity | discriminate]. }
  split; [| split; [discriminate | split; [discriminate | intros _ _]]].
  - destruct (String.eqb _ "ValidationError"); [member |].
    destruct (_ || _); [member |].
    destruct (_ || _); [member |].
    destruct (_ || _); [member |].
    destruct (_ || _); [member |].
    destruct (String.eqb _ _); member.
  - destruct (String.eqb _ "ValidationError"); [split; discriminate |].
    destruct (_ || _); [split; discriminate |].
    destruct (_ || _); [split; discriminate |].
    destruct (_ || _); [split; discriminate |].
    destruct (_ || _); [split; discriminate |].
    destruct (String.eqb _ _); split; discriminate.
Qed.

End ErrorHandlerFacts.

(** ** The books of the payment service (paymentGatewayService.js) *)
Module PaymentBookFacts.
Import PaymentGatewayService RetryPolicy PaymentAnalytics.

Lemma after_refl (w : World) : after w [] [] w.
Proof. unfold after. rewrite !app_nil_r. repeat split. lia. Qed.

Lemma after_trans (w w1 w2 : World) (ps ps' : list Post) (ds ds' : list Z) :
  after w ps ds w1 -> after w1 ps' ds' w2 -> after w (ps ++ ps') (ds ++ ds') w2.
Proof.
  unfold after. intros (H1 & H2 & H3 & H4 & H5 & H6 & H7) (K1 & K2 & K3 & K4 & K5 & K6 & K7).
  rewrite K1, K2, K3, K4, K5, K6, H1, H2, H3, H4, H5, H6, !app_assoc.
  repeat split. lia.
Qed.

Section AnyGateway.
Variable env : Env.

Lemma dateNow_after (w : World) : after w [] [] (snd (dateNow env w)).
Proof. unfold after. cbn. rewrite !app_nil_r. repeat split. lia. Qed.

Lemma axiosPost_after (p : Post) (w : World) : after w [p] [] (snd (axiosPost env p w)).
Proof. unfold after. cbn. rewrite !app_nil_r. repeat split. lia. Qed.

Lemma sleep_after (delay : Z) (w : World) : after w [] [delay] (sleep delay w).
Proof. unfold after. cbn. rewrite !app_nil_r. repeat split. lia. Qed.

Lemma transfer_after (p : Post) (read : ResponseData -> option string * Q) (eta : Z)
    (w : World) :
  after w [p] [] (snd (transfer env p read eta w)).
Proof.
  unfold transfer. pose proof (axiosPost_after p w) as Hpost.
  destruct (axiosPost env p w) as [[d | e] w1]; cbn [snd] in *; [| exact Hpost].
  pose proof (dateNow_after w1) as Hnow.
  destruct (dateNow env w1) as [t w2]; cbn [snd] in *.
  exact (after_trans _ _ _ _ _ _ _ Hpost Hnow).
Qed.

(** A gateway call sends at most two POSTs, one unless the method is
    PayPal, waits for nothing and leaves the books alone. *)
Lemma executePayment_after (method : string) (paymentData : PaymentData) (w : World) :
  exists ps,
    after w ps [] (snd (executePayment env method paymentData w))
    /\ (length ps <= 2)%nat
    /\ (method <> "paypal" -> (length ps <= 1)%nat).
Proof.
  unfold executePayment, unsupported.
  destruct (gateways !! method) as [gateway |];
    [| exists []; split; [apply after_refl | cbn; split; intros; lia]].
  destruct (String.eqb_spec method "stripe") as [-> | _].
  { unfold processStripePayment. destruct (currency paymentData).
    - eexists. split; [apply transfer_after | cbn; split; intros; lia].
    - exists []. split; [apply after_refl | cbn; split; intros; lia]. }
  destruct (String.eqb_spec method "paypal") as [-> | _].
  { unfold processPayPalPayment.
    match goal with |- context [axiosPost env ?p w] =>
      pose proof (axiosPost_after p w) as H1; destruct (axiosPost env p w) as [[d | e] w1]
    end; cbn [snd] in *.
    2: { eexists. split; [exact H1 | cbn; split; [lia | congruence]]. }
    match goal with |- context [axiosPost env ?p w1] =>
      pose proof (axiosPost_after p w1) as H2; destruct (axiosPost env p w1) as [[d' | e] w2]
    end; cbn [snd] in *.
    2: { eexists. split; [exact (after_trans _ _ _ _ _ _ _ H1 H2) |].
         cbn; split; [lia | congruence]. }
    destruct (data_batch_header d').
    - pose proof (dateNow_after w2) as H3.
      destruct (dateNow env w2) as [t w3]; cbn [snd] in *.
      eexists. split; [exact (after_trans _ _ _ _ _ _ _ (after_trans _ _ _ _ _ _ _ H1 H2) H3) |].
      cbn; split; [lia | congruence].
    - eexists. split; [exact (after_trans _ _ _ _ _ _ _ H1 H2) |].
      cbn; split; [lia | congruence]. }
  destruct (String.eqb method "ach").
  { eexists. split; [apply transfer_after | cbn; split; intros; lia]. }
  destruct (String.eqb method "wire").
  { eexists. split; [apply transfer_after | cbn; split; intros; lia]. }
  destruct (String.eqb method "crypto").
  { eexists. split; [apply transfer_after | cbn; split; intros; lia]. }
  exists []. split; [apply after_refl | cbn; split; intros; lia].
Qed.

(** The waits of a retry that gives up after [k] further attempts. *)
Lemma retryUpTo_after (cfg : RetryConfig) (method : string) (paymentData : PaymentData)
    (budget : nat) :
  forall (attempt : Z) (w : World),
    exists ps k,
      after w ps (map (fun i => backoff cfg (attempt + Z.of_nat i)) (seq 0 k))
        (snd (retryUpTo cfg budget (executePayment env method paymentData) attempt w))
      /\ (k <= budget)%nat
      /\ (length ps <= 2 * S k)%nat
      /\ (method <> "paypal" -> (length ps <= S k)%nat).
Proof.
  induction budget as [| budget IH]; intros attempt w; cbn [retryUpTo];
    destruct (executePayment_after method paymentData w) as (ps0 & H0 & Hlen & Hone);
    destruct (executePayment env method paymentData w) as [[res | error] w1];
    cbn [snd] in *.
  - exists ps0, 0%nat.
    split; [exact H0 | split; [lia | split; [lia | intros H; specialize (Hone H); lia]]].
  - exists ps0, 0%nat.
    split; [exact H0 | split; [lia | split; [lia | intros H; specialize (Hone H); lia]]].
  - exists ps0, 0%nat.
    split; [exact H0 | split; [lia | split; [lia | intros H; specialize (Hone H); lia]]].
  - destruct (IH (attempt + 1) (sleep (backoff cfg attempt) w1))
      as (ps & k & Hafter & Hk & Hps & Hps1).
    exists (ps0 ++ ps)%list, (S k).
    split; [| split; [lia | split; [rewrite length_app; lia |]]].
    + pose proof (after_trans _ _ _ _ _ _ _
                    (after_trans _ _ _ _ _ _ _ H0 (sleep_after (backoff cfg attempt) w1))
                    Hafter) as H.
      rewrite app_nil_r in H. cbn [app] in H.
      replace (map (fun i => backoff cfg (attempt + Z.of_nat i)) (seq 0 (S k)))
        with (backoff cfg attempt
              :: map (fun i => backoff cfg (attempt + 1 + Z.of_nat i)) (seq 0 k));
        [exact H |].
      cbn [seq map]. rewrite Z.add_0_r. f_equal.
      rewrite <- seq_shift, map_map. apply map_ext. intros i. f_equal. lia.
    + intros H. specialize (Hone H). specialize (Hps1 H). rewrite length_app. lia.
Qed.

(** [processPayment] in two steps: the attempts on the gateway, which
    leave the books alone, then the bookkeeping. *)
Lemma processPayment_attempt (paymentData : PaymentData) (w : World) :
  let pid := nextPaymentId env paymentData w in
  let method' := default "ach" (method paymentData) in
  let w0 := snd (generatePaymentId env (milestoneId paymentData)
                   (projectId paymentData) w) in
  exists (outcome : Completion PaymentResult) (w1 : World) (ps : list Post) (k : nat),
    after w0 ps (map (fun i => backoff retryConfig (1 + Z.of_nat i)) (seq 0 k)) w1
    /\ (k <= 2)%nat
    /\ (length ps <= 2 * S k)%nat
    /\ (method' <> "paypal" -> (length ps <= S k)%nat)
    /\ (forall result, outcome = Return result -> is_Some (gateways !! method'))
    /\ (gateways !! method' = None ->
        outcome = Throw (Error ("Unsupported payment method: " ++ method')) /\ w1 = w0)
    /\ processPayment env paymentData w =
       match outcome with
       | Return result =>
           let '(t, w2) := dateNow env w1 in
           (Return {| success := true; paymentId := pid; pr_status := "completed";
                      pr_gatewayReference := gatewayReference result;
                      pr_estimatedCompletion := estimatedCompletion result;
                      pr_fees := fees result |},
            logAudit {| pa_paymentId := pid;
                        pa_milestoneId := milestoneId paymentData;
                        pa_projectId := projectId paymentData;
                        pa_amount := amount paymentData; pa_method := method';
                        pa_gatewayReference := gatewayReference result |}
              (setStatus pid
                 {| st_status := "completed"; st_method := method';
                    st_amount := amount paymentData;
                    st_currency := default "USD" (currency paymentData);
                    st_timestamp := t;
                    st_gatewayReference := gatewayReference result;
                    st_fees := Some (fees result); st_error := None |} w2))
       | Throw error =>
           let '(t, w2) := dateNow env w1 in
           let w3 :=
             setStatus pid
               {| st_status := "failed"; st_method := method';
                  st_amount := amount paymentData;
                  st_currency := default "USD" (currency paymentData);
                  st_timestamp := t;
                  st_gatewayReference := None; st_fees := None;
                  st_error := Some (err_message error) |} w2 in
           (Throw error,
            if default true (retryOnFailure paymentData)
            then scheduleRetry env pid paymentData w3 else w3)
       end.
Proof.
  intros pid method' w0.
  unfold processPayment.
  change (generatePaymentId env (milestoneId paymentData) (projectId paymentData) w)
    with (pid, w0).
  cbv iota beta. fold method'.
  destruct (gateways !! method') as [gateway |] eqn:Hgw.
  - rewrite (PaymentFacts.processWithRetry_retryUpTo retryConfig _ pid 2 1 w0 eq_refl).
    destruct (retryUpTo_after retryConfig method' paymentData 2 1 w0)
      as (ps & k & Hafter & Hk & Hps & Hone).
    destruct (retryUpTo retryConfig 2 (executePayment env method' paymentData) 1 w0)
      as [outcome w1] eqn:Hretry. cbn [snd] in Hafter.
    exists outcome, w1, ps, k.
    split; [exact Hafter |]. split; [exact Hk |]. split; [exact Hps |].
    split; [exact Hone |]. split; [intros; eexists; reflexivity |].
    split; [discriminate |].
    destruct outcome; reflexivity.
  - exists (Throw (Error ("Unsupported payment method: " ++ method'))), w0, [], 0%nat.
    split; [apply after_refl |]. split; [lia |]. split; [cbn; lia |].
    split; [cbn; lia |]. split; [discriminate |]. split; [split; reflexivity |].
    reflexivity.
Qed.

(** X8.  Every call of [processPayment], whether it returns or throws,
    stores exactly one record, under the id it has generated, and leaves
    every other record as it was.  The record carries the method, the
    amount and the currency of the call ("ach" and "USD" when left out).
    It reads "completed" exactly when the call returns: its gateway
    reference is then the one returned, its method is one of the five
    gateways, one PAYMENT_COMPLETED line is written for the id and no retry
    is scheduled.  It reads "failed", with the error's message, exactly when
    the call throws, and no audit line is written then. *)
Theorem processPayment_one_record (paymentData : PaymentData) (w : World) :
  let pid := nextPaymentId env paymentData w in
  let r := processPayment env paymentData w in
  exists st,
    paymentStatuses (snd r) = <[pid := st]> (paymentStatuses w)
    /\ st_method st = default "ach" (method paymentData)
    /\ st_amount st = amount paymentData
    /\ st_currency st = default "USD" (currency paymentData)
    /\ match fst r with
       | Return record =>
           paymentId record = pid
           /\ st_status st = "completed"
           /\ st_error st = None
           /\ st_gatewayReference st = pr_gatewayReference record
           /\ is_Some (gateways !! st_method st)
           /\ scheduledPayments (snd r) = scheduledPayments w
           /\ exists a, audit (snd r) = (audit w ++ [a])%list /\ pa_paymentId a = pid
       | Throw error =>
           st_status st = "failed"
           /\ st_error st = Some (err_message error)
           /\ st_gatewayReference st = None
           /\ audit (snd r) = audit w
       end.
Proof.
  intros pid r.
  destruct (processPayment_attempt paymentData w)
    as (outcome & w1 & ps & k & Hafter & _ & _ & _ & Hgw & _ & Hrun).
  fold pid in Hrun. unfold r. rewrite Hrun. clear Hrun r.
  destruct Hafter as (_ & _ & Hst & Hsched & Haudit & _ & _).
  cbn [generatePaymentId dateNow mathRandom snd paymentStatuses scheduledPayments audit]
    in Hst, Hsched, Haudit.
  destruct outcome as [result | error].
  - eexists. cbn [dateNow fst snd logAudit setStatus paymentStatuses scheduledPayments audit
                  st_method st_amount st_currency st_status st_error st_gatewayReference
                  paymentId pr_gatewayReference].
    rewrite Hst, Hsched, Haudit.
    split; [reflexivity |]. split; [reflexivity |]. split; [reflexivity |].
    split; [reflexivity |]. split; [reflexivity |]. split; [reflexivity |].
    split; [reflexivity |]. split; [reflexivity |].
    split; [exact (Hgw result eq_refl) |]. split; [reflexivity |].
    eexists. split; reflexivity.
  - eexists. cbn [dateNow]. cbv zeta.
    destruct (default true (retryOnFailure paymentData));
      cbn [fst snd scheduleRetry dateNow setStatus paymentStatuses scheduledPayments audit
           st_method st_amount st_currency st_status st_error st_gatewayReference];
      rewrite Hst, Haudit; repeat split; reflexivity.
Qed.

(** X9.  A payment that fails is scheduled for one retry, five minutes
    after the clock reading that follows its failure record, unless the
    caller passed [retryOnFailure: false]; without that flag the retry is
    scheduled whatever the reason for the failure, an unsupported method
    included, for which no gateway was contacted. *)
Theorem processPayment_failure_schedules (paymentData : PaymentData) (w w' : World)
    (error : JsError) :
  processPayment env paymentData w = (Throw error, w') ->
  let pid := nextPaymentId env paymentData w in
  (retryOnFailure paymentData = Some false ->
   scheduledPayments w' = scheduledPayments w)
  /\ (retryOnFailure paymentData <> Some false ->
      scheduledPayments w'
      = <[pid := {| sr_paymentData := paymentData;
                    sr_retryTime := now env (pred (clock w')) + 5 * 60 * 1000;
                    sr_attempts := 1 |}]> (scheduledPayments w))
  /\ (gateways !! default "ach" (method paymentData) = None ->
      posts w' = posts w
      /\ err_message error
         = "Unsupported payment method: " ++ default "ach" (method paymentData)).
Proof.
  intros Hfail pid.
  destruct (processPayment_attempt paymentData w)
    as (outcome & w1 & ps & k & Hafter & _ & _ & _ & _ & Hnone & Hrun).
  fold pid in Hrun. rewrite Hfail in Hrun.
  destruct outcome as [result | error']; [discriminate |].
  cbn [dateNow] in Hrun. cbv zeta in Hrun.
  destruct Hafter as (Hposts & _ & _ & Hsched & _ & _ & _).
  cbn [generatePaymentId dateNow mathRandom snd scheduledPayments posts] in Hsched, Hposts.
  split; [| split].
  - intros Hflag. rewrite Hflag in Hrun. cbn [default from_option Datatypes.id] in Hrun.
    inversion Hrun; subst. cbn. exact Hsched.
  - intros Hflag.
    assert (Hretry : default true (retryOnFailure paymentData) = true).
    { destruct (retryOnFailure paymentData) as [[|] |]; try reflexivity. congruence. }
    rewrite Hretry in Hrun. inversion Hrun; subst. cbn. rewrite Hsched. reflexivity.
  - intros Hgw. destruct (Hnone Hgw) as [Hout Hw1].
    assert (Hw' : posts w' = posts w1 /\ error = error').
    { destruct (default true (retryOnFailure paymentData)); inversion Hrun; subst;
        split; reflexivity. }
    destruct Hw' as [Hw' ->]. inversion Hout; subst error'.
    split; [| reflexivity].
    rewrite Hw', Hw1. reflexivity.
Qed.

(** X10.  What one call of [processPayment] can do to the outside is
    bounded.  It draws one random number; it waits at most twice, 1000 ms
    and then 2000 ms; and between the waits it sends at most two POSTs per
    attempt, one unless the method is PayPal: at most six POSTs, three for
    the other methods. *)
Theorem processPayment_effects_bounded (paymentData : PaymentData) (w : World) :
  let r := processPayment env paymentData w in
  exists (ps : list Post) (ds : list Z),
    posts (snd r) = (posts w ++ ps)%list
    /\ sleeps (snd r) = (sleeps w ++ ds)%list
    /\ (ds = [] \/ ds = [1000] \/ ds = [1000; 2000])
    /\ (length ps <= 2 * S (length ds))%nat
    /\ (default "ach" (method paymentData) <> "paypal" ->
        (length ps <= S (length ds))%nat)
    /\ draws (snd r) = S (draws w).
Proof.
  intros r.
  destruct (processPayment_attempt paymentData w)
    as (outcome & w1 & ps & k & Hafter & Hk & Hps & Hone & _ & _ & Hrun).
  unfold r. rewrite Hrun. clear Hrun r.
  destruct Hafter as (Hposts & Hsleeps & _ & _ & _ & Hdraws & _).
  cbn [generatePaymentId dateNow mathRandom snd posts sleeps draws]
    in Hposts, Hsleeps, Hdraws.
  exists ps, (map (fun i => backoff retryConfig (1 + Z.of_nat i)) (seq 0 k)).
  rewrite length_map, length_seq.
  assert (Hds : map (fun i => backoff retryConfig (1 + Z.of_nat i)) (seq 0 k) = []
                \/ map (fun i => backoff retryConfig (1 + Z.of_nat i)) (seq 0 k) = [1000]
                \/ map (fun i => backoff retryConfig (1 + Z.of_nat i)) (seq 0 k)
                   = [1000; 2000]).
  { destruct k as [| [| [| k]]]; [left | right; left | right; right | lia]; reflexivity. }
  destruct outcome as [result | error]; cbn [dateNow]; cbv zeta.
  - cbn. rewrite Hposts, Hsleeps, Hdraws. repeat split; assumption.
  - destruct (default true (retryOnFailure paymentData)); cbn;
      rewrite Hposts, Hsleeps, Hdraws; repeat split; assumption.
Qed.

(** A PayPal payout whose reply has no [batch_header] fails after both of
    its POSTs were answered. *)
Lemma executePayment_headless (paymentData : PaymentData) (w : World) :
  (forall k p, exists d, post env k p = Return d /\ data_batch_header d = None) ->
  exists token w1,
    executePayment env "paypal" paymentData w
    = (Throw (Error "Cannot read properties of undefined (reading 'payout_batch_id')"),
       w1)
    /\ after w [paypalToken; paypalPayout paymentData token] [] w1.
Proof.
  intros Hreply. unfold executePayment.
  replace (gateways !! "paypal")
    with (Some {| baseURL := "https://api-m.paypal.com/v1"; timeout := 30000 |})
    by (vm_compute; reflexivity).
  replace (String.eqb "paypal" "stripe") with false by reflexivity.
  replace (String.eqb "paypal" "paypal") with true by reflexivity.
  unfold processPayPalPayment. cbn [baseURL].
  fold paypalToken.
  pose proof (axiosPost_after paypalToken w) as H1.
  unfold axiosPost in *. cbn [snd] in H1.
  destruct (Hreply (length (posts w)) paypalToken) as (d1 & -> & _).
  match goal with |- context [post env ?k ?p] =>
    change p with (paypalPayout paymentData (data_access_token d1));
    destruct (Hreply k (paypalPayout paymentData (data_access_token d1)))
      as (d2 & -> & ->)
  end.
  eexists _, _. split; [reflexivity |].
  unfold after. cbn. rewrite <- !app_assoc. cbn. rewrite app_nil_r.
  repeat split. lia.
Qed.

(** X11.  A PayPal payout is sent again after it was accepted.  When the
    gateway answers every request, but its reply to the payout carries no
    [batch_header], reading the reference throws after the payout was
    POSTed; the error is retried like a failure of the gateway, so the same
    payout is POSTed three times, each after a new token request, 1000 and
    2000 ms apart, before the payment is recorded as failed. *)
Theorem paypal_payout_repeated (paymentData : PaymentData) (w : World) :
  method paymentData = Some "paypal" ->
  (forall k p, exists d, post env k p = Return d /\ data_batch_header d = None) ->
  let r := processPayment env paymentData w in
  fst r = Throw (Error "Cannot read properties of undefined (reading 'payout_batch_id')")
  /\ (exists t1 t2 t3,
        posts (snd r)
        = (posts w ++ [ paypalToken; paypalPayout paymentData t1;
                        paypalToken; paypalPayout paymentData t2;
                        paypalToken; paypalPayout paymentData t3 ])%list)
  /\ sleeps (snd r) = (sleeps w ++ [1000; 2000])%list
  /\ exists st, paymentStatuses (snd r) !! nextPaymentId env paymentData w = Some st
                /\ st_status st = "failed".
Proof.
  intros Hmethod Hreply r. unfold r, processPayment. rewrite Hmethod.
  cbn [default from_option Datatypes.id].
  replace (gateways !! "paypal")
    with (Some {| baseURL := "https://api-m.paypal.com/v1"; timeout := 30000 |})
    by (vm_compute; reflexivity).
  destruct (generatePaymentId env (milestoneId paymentData) (projectId paymentData) w)
    as [pid w0] eqn:Hid.
  assert (Hw0 : posts w0 = posts w /\ sleeps w0 = sleeps w
                /\ pid = nextPaymentId env paymentData w).
  { unfold nextPaymentId. rewrite Hid.
    unfold generatePaymentId, dateNow, mathRandom in Hid. inversion Hid; subst.
    repeat split. }
  destruct Hw0 as (Hp0 & Hs0 & Hpid).
  rewrite (PaymentFacts.processWithRetry_retryUpTo retryConfig _ pid 2 1 w0 eq_refl).
  cbn [retryUpTo].
  destruct (executePayment_headless paymentData w0 Hreply) as (t1 & w1 & -> & H1).
  change (backoff retryConfig 1) with 1000.
  destruct (executePayment_headless paymentData (sleep 1000 w1) Hreply)
    as (t2 & w2 & -> & H2).
  change (backoff retryConfig (1 + 1)) with 2000.
  destruct (executePayment_headless paymentData (sleep 2000 w2) Hreply)
    as (t3 & w3 & -> & H3).
  pose proof (after_trans _ _ _ _ _ _ _ H1
                (after_trans _ _ _ _ _ _ _ (sleep_after 1000 w1)
                   (after_trans _ _ _ _ _ _ _ H2
                      (after_trans _ _ _ _ _ _ _ (sleep_after 2000 w2) H3))))
    as (Hposts & Hsleeps & _).
  cbn [app] in Hposts, Hsleeps. rewrite Hp0 in Hposts. rewrite Hs0 in Hsleeps.
  cbn [dateNow]. cbv zeta.
  split; [reflexivity |]. split; [| split].
  - exists t1, t2, t3.
    destruct (default true (retryOnFailure paymentData)); cbn; exact Hposts.
  - destruct (default true (retryOnFailure paymentData)); cbn; exact Hsleeps.
  - rewrite <- Hpid. eexists.
    destruct (default true (retryOnFailure paymentData)); cbn;
      (split; [apply lookup_insert_eq | reflexivity]).
Qed.

(** X12.  The default currency is written to the record but not sent to
    the gateway.  A Stripe payment without a currency throws before any
    request is made, trying to lower-case the missing currency; that error
    is retried as well, so the call waits 1000 and 2000 ms, contacts no
    gateway, and records a failed payment in "USD". *)
Theorem stripe_without_currency (paymentData : PaymentData) (w : World) :
  method paymentData = Some "stripe" ->
  currency paymentData = None ->
  let r := processPayment env paymentData w in
  fst r = Throw (Error "Cannot read properties of undefined (reading 'toLowerCase')")
  /\ posts (snd r) = posts w
  /\ sleeps (snd r) = (sleeps w ++ [1000; 2000])%list
  /\ exists st, paymentStatuses (snd r) !! nextPaymentId env paymentData w = Some st
                /\ st_status st = "failed" /\ st_currency st = "USD".
Proof.
  intros Hmethod Hcurrency r. unfold r, processPayment. rewrite Hmethod, Hcurrency.
  cbn [default from_option Datatypes.id].
  replace (gateways !! "stripe")
    with (Some {| baseURL := "https://api.stripe.com/v1"; timeout := 30000 |})
    by (vm_compute; reflexivity).
  destruct (generatePaymentId env (milestoneId paymentData) (projectId paymentData) w)
    as [pid w0] eqn:Hid.
  assert (Hw0 : posts w0 = posts w /\ sleeps w0 = sleeps w
                /\ pid = nextPaymentId env paymentData w).
  { unfold nextPaymentId. rewrite Hid.
    unfold generatePaymentId, dateNow, mathRandom in Hid. inversion Hid; subst.
    repeat split. }
  destruct Hw0 as (Hposts & Hsleeps & Hpid).
  rewrite (PaymentFacts.processWithRetry_retryUpTo retryConfig _ pid 2 1 w0 eq_refl).
  assert (Hexec : forall w1,
             executePayment env "stripe" paymentData w1
             = (Throw (Error "Cannot read properties of undefined (reading 'toLowerCase')"),
                w1)).
  { intros w1. unfold executePayment.
    replace (gateways !! "stripe")
      with (Some {| baseURL := "https://api.stripe.com/v1"; timeout := 30000 |})
      by (vm_compute; reflexivity).
    replace (String.eqb "stripe" "stripe") with true by reflexivity.
    unfold processStripePayment. rewrite Hcurrency. reflexivity. }
  cbn [retryUpTo]. rewrite !Hexec.
  change (backoff retryConfig 1) with 1000.
  change (backoff retryConfig (1 + 1)) with 2000.
  cbn [dateNow]. cbv zeta.
  split; [reflexivity |]. split; [| split].
  - destruct (default true (retryOnFailure paymentData)); cbn; exact Hposts.
  - destruct (default true (retryOnFailure paymentData)); cbn; rewrite Hsleeps;
      rewrite <- app_assoc; reflexivity.
  - rewrite <- Hpid. eexists.
    destruct (default true (retryOnFailure paymentData)); cbn;
      (split; [apply lookup_insert_eq | split; reflexivity]).
Qed.
End AnyGateway.

(** *** The analytics *)

Lemma breakdownTotal_bump (b : gmap string Z) (k : string) :
  breakdownTotal (<[k := default 0 (b !! k) + 1]> b) = breakdownTotal b + 1.
Proof.
  unfold breakdownTotal. destruct (b !! k) as [v |] eqn:Hk; cbn [default from_option].
  - rewrite <- insert_delete_eq.
    rewrite map_fold_insert_L; [| intros; lia | apply lookup_delete_eq].
    rewrite (map_fold_delete_L _ _ k v b); [unfold Datatypes.id; lia | intros; lia | exact Hk].
  - rewrite map_fold_insert_L; [lia | intros; lia | exact Hk].
Qed.

(** The loop of [getMethodBreakdown], from any starting object. *)
Lemma breakdown_fold (statuses : list PaymentStatus) :
  forall (acc : gmap string Z) (m : string),
    let b := fold_left (fun breakdown status =>
                          if completed status
                          then <[st_method status :=
                                   default 0 (breakdown !! st_method status) + 1]> breakdown
                          else breakdown) statuses acc in
    default 0 (b !! m) = default 0 (acc !! m) + Z.of_nat (completedBy m statuses)
    /\ (is_Some (b !! m) <-> is_Some (acc !! m) \/ (0 < completedBy m statuses)%nat)
    /\ breakdownTotal b
       = breakdownTotal acc + Z.of_nat (length (List.filter completed statuses)).
Proof.
  induction statuses as [| s statuses IH]; intros acc m; cbn [fold_left].
  - unfold completedBy. cbn. split; [lia |]. split; [| lia].
    split; [intros H; left; exact H | intros [H | H]; [exact H | lia]].
  - specialize (IH (if completed s
                    then <[st_method s := default 0 (acc !! st_method s) + 1]> acc
                    else acc) m).
    cbv zeta in IH. destruct IH as (IH1 & IH2 & IH3).
    unfold completedBy in *. cbn [List.filter].
    destruct (completed s) eqn:Hs; cbn [andb].
    + destruct (String.eqb_spec (st_method s) m) as [Heq | Hne]; cbn [length].
      * subst m. rewrite lookup_insert_eq in IH1, IH2. cbn [default from_option] in IH1.
        rewrite breakdownTotal_bump in IH3.
        split; [unfold Datatypes.id in *; lia |]. split; [| lia].
        split; [intros _; right; lia | intros _; apply IH2; left; eexists; reflexivity].
      * rewrite lookup_insert_ne in IH1, IH2 by exact Hne.
        rewrite breakdownTotal_bump in IH3.
        split; [exact IH1 |]. split; [exact IH2 | lia].
    + split; [exact IH1 |]. split; [exact IH2 | exact IH3].
Qed.

Lemma breakdown_keys (statuses : list PaymentStatus) :
  Forall (fun s => completed s = true -> is_Some (gateways !! st_method s)) statuses ->
  forall (acc : gmap string Z),
    dom acc ⊆ dom gateways ->
    dom (fold_left (fun breakdown status =>
                      if completed status
                      then <[st_method status :=
                               default 0 (breakdown !! st_method status) + 1]> breakdown
                      else breakdown) statuses acc) ⊆ dom gateways.
Proof.
  induction 1 as [| s statuses Hs _ IH]; intros acc Hacc; cbn [fold_left]; [exact Hacc |].
  apply IH. destruct (completed s); [| exact Hacc].
  rewrite dom_insert. apply union_subseteq. split; [| exact Hacc].
  apply singleton_subseteq_l, elem_of_dom, Hs. reflexivity.
Qed.

(** X13.  The analytics agree with the records.  [totalPayments] is the
    number of records; completed and failed payments are counted apart;
    the method breakdown has, for a method, the number of completed
    payments made by it, and no entry for a method without one; its counts
    add up to [completedPayments]; and, the completed records naming
    gateways as those written by [processPayment] do, its keys are gateway
    names. *)
Theorem analytics_agree (w : World) :
  Forall (fun s => completed s = true -> is_Some (gateways !! st_method s))
    (snd <$> map_to_list (paymentStatuses w)) ->
  let a := getPaymentAnalytics w in
  let statuses := snd <$> map_to_list (paymentStatuses w) in
  totalPayments a = size (paymentStatuses w)
  /\ (completedPayments a + failedPayments a <= totalPayments a)%nat
  /\ (forall m,
        methodBreakdown a !! m
        = if (completedBy m statuses =? 0)%nat then None
          else Some (Z.of_nat (completedBy m statuses)))
  /\ breakdownTotal (methodBreakdown a) = Z.of_nat (completedPayments a)
  /\ dom (methodBreakdown a) ⊆ dom gateways.
Proof.
  intros Hgw a statuses. unfold a, getPaymentAnalytics. fold statuses.
  cbn [totalPayments completedPayments failedPayments methodBreakdown].
  split; [unfold statuses; rewrite length_fmap; apply length_map_to_list |].
  split.
  { clear Hgw. induction statuses as [| s l IH]; cbn [List.filter length]; [lia |].
    unfold completed at 1, failed at 1.
    destruct (String.eqb_spec (st_status s) "completed") as [Hc | _].
    - rewrite Hc. cbn [length]. change (String.eqb "completed" "failed") with false.
      cbn iota. lia.
    - destruct (String.eqb (st_status s) "failed"); cbn [length]; lia. }
  destruct (breakdown_fold statuses ∅ "") as (_ & _ & Htotal).
  split; [| split].
  - intros m. unfold getMethodBreakdown.
    destruct (breakdown_fold statuses ∅ m) as (Hcount & Hsome & _).
    rewrite lookup_empty in Hcount, Hsome. cbn [default from_option] in Hcount.
    destruct (Nat.eqb_spec (completedBy m statuses) 0) as [Hzero | Hpos].
    + destruct (fold_left _ statuses ∅ !! m) as [v |] eqn:Hv; [| reflexivity].
      destruct (proj1 Hsome) as [[x Hx] | Hlt]; [eexists; reflexivity | discriminate | lia].
    + destruct (fold_left _ statuses ∅ !! m) as [v |] eqn:Hv.
      * cbn [default from_option] in Hcount. unfold Datatypes.id in Hcount.
        f_equal. lia.
      * destruct (proj2 Hsome) as [x Hx]; [right; lia | discriminate].
  - unfold getMethodBreakdown. rewrite Htotal. unfold breakdownTotal.
    rewrite map_fold_empty. lia.
  - unfold getMethodBreakdown. apply breakdown_keys; [exact Hgw |].
    rewrite dom_empty. apply empty_subseteq.
Qed.

(** With the gateway down, the disbursement fails and is scheduled for a
    retry five minutes after the third reading of the clock. *)
Lemma processPayment_failure_schedules_witness :
  scheduledPayments
    (snd (processPayment PaymentScenarios.down PaymentScenarios.disbursement
            PaymentScenarios.start))
  !! "PAY_1_1_1700000000000_k3j9x2m10"
  = Some {| sr_paymentData := PaymentScenarios.disbursement;
            sr_retryTime := 1700000300002; sr_attempts := 1 |}.
Proof.
  destruct (processPayment_failure_schedules PaymentScenarios.down
              PaymentScenarios.disbursement PaymentScenarios.start
              (snd (processPayment PaymentScenarios.down PaymentScenarios.disbursement
                      PaymentScenarios.start))
              {| err_name := "AxiosError"; err_message := "timeout";
                 err_status := None |})
    as (_ & Hscheduled & _).
  - vm_compute. reflexivity.
  - rewrite Hscheduled by discriminate.
    change (nextPaymentId PaymentScenarios.down PaymentScenarios.disbursement
              PaymentScenarios.start) with "PAY_1_1_1700000000000_k3j9x2m10".
    rewrite lookup_insert_eq. reflexivity.
Defined.

(** The gateway answers every request without a batch header: six POSTs,
    three of them the payout. *)
Lemma paypal_payout_repeated_witness :
  let r := processPayment PayoutScenarios.headless PayoutScenarios.payout
             PaymentScenarios.start in
  posts (snd r)
  = [ paypalToken; paypalPayout PayoutScenarios.payout (Some "token_0");
      paypalToken; paypalPayout PayoutScenarios.payout (Some "token_2");
      paypalToken; paypalPayout PayoutScenarios.payout (Some "token_4") ]
  /\ sleeps (snd r) = [1000; 2000].
Proof.
  destruct (paypal_payout_repeated PayoutScenarios.headless PayoutScenarios.payout
              PaymentScenarios.start) as (_ & _ & Hsleeps & _).
  - reflexivity.
  - intros k p. eexists. split; reflexivity.
  - split; [vm_compute; reflexivity | exact Hsleeps].
Defined.

(** A Stripe payment without a currency: no POST, two waits, a failed
    record in USD. *)
Lemma stripe_without_currency_witness :
  let r := processPayment PaymentScenarios.env PayoutScenarios.noCurrency
             PaymentScenarios.start in
  posts (snd r) = [] /\ sleeps (snd r) = [1000; 2000]
  /\ st_currency <$> paymentStatuses (snd r) !! "PAY_1_1_1700000000000_k3j9x2m10"
     = Some "USD".
Proof.
  destruct (stripe_without_currency PaymentScenarios.env PayoutScenarios.noCurrency
              PaymentScenarios.start) as (_ & Hposts & Hsleeps & _);
    [reflexivity | reflexivity |].
  split; [exact Hposts |]. split; [exact Hsleeps |]. vm_compute. reflexivity.
Defined.

(** After the two disbursements of [PaymentScenarios]: two payments, both
    completed, both by ACH. *)
Lemma analytics_agree_witness :
  let a := getPaymentAnalytics PaymentScenarios.afterSecond in
  totalPayments a = 2%nat
  /\ methodBreakdown a !! "ach" = Some 2
  /\ methodBreakdown a !! "wire" = None
  /\ breakdownTotal (methodBreakdown a) = Z.of_nat (completedPayments a).
Proof.
  destruct (analytics_agree PaymentScenarios.afterSecond)
    as (Htotal & _ & Hcount & Hsum & _).
  - set (l := snd <$> map_to_list (paymentStatuses PaymentScenarios.afterSecond)).
    vm_compute in l. subst l.
    repeat constructor; intros _; eexists; vm_compute; reflexivity.
  - split; [rewrite Htotal; vm_compute; reflexivity |].
    split; [rewrite Hcount; vm_compute; reflexivity |].
    split; [rewrite Hcount; vm_compute; reflexivity | exact Hsum].
Defined.

End PaymentBookFacts.

(** ** Masked account numbers and the request loop (bankingService.js) *)
Module BankingMoreFacts.
Import BankingService BankingAccounts StringFacts.

Lemma substring_all (s : string) : String.substring 0 (String.length s) s = s.
Proof. induction s as [| b s IHs]; simpl; [reflexivity | f_equal; exact IHs]. Qed.

Lemma substring_suffix (pre s : string) :
  String.substring (String.length pre) (String.length s) (pre ++ s) = s.
Proof. induction pre as [| a pre IH]; simpl; [apply substring_all | exact IH]. Qed.

Lemma lastFour_suffix (pre s : string) :
  String.length s = 4%nat -> lastFour (pre ++ s) = s.
Proof.
  intros Hs. unfold lastFour. rewrite length_append, Hs.
  replace (String.length pre + 4 - 4)%nat with (String.length pre) by lia.
  rewrite <- Hs. apply substring_suffix.
Qed.

(** A text of at least four characters ends in four characters. *)
Lemma split_lastFour (number : string) :
  (4 <= String.length number)%nat ->
  exists pre s, number = pre ++ s /\ String.length s = 4%nat.
Proof.
  induction number as [| a number IH]; cbn; [lia |].
  intros Hlen. destruct (Nat.eq_dec (String.length number) 3%nat) as [H3 | H3].
  - exists "", (String a number). cbn. split; [reflexivity | lia].
  - destruct IH as (pre & s & -> & Hs); [lia |].
    exists (String a pre), s. split; [reflexivity | exact Hs].
Qed.

(** X14.  What a masked account number shows.  The mask is "XXXX"
    followed by at most four characters: nothing for a missing number or
    one shorter than four characters, otherwise the number's last four
    characters, so that it depends on nothing but those and never exceeds
    eight characters; a number of exactly four characters is shown in
    full. *)
Theorem maskAccountNumber_shows_last_four (number : string) :
  _maskAccountNumber None = "XXXX"
  /\ ((String.length number < 4)%nat -> _maskAccountNumber (Some number) = "XXXX")
  /\ ((4 <= String.length number)%nat ->
      exists pre s, number = pre ++ s /\ String.length s = 4%nat
                    /\ _maskAccountNumber (Some number) = "XXXX" ++ s)
  /\ (forall pre pre' s, String.length s = 4%nat ->
        _maskAccountNumber (Some (pre ++ s)) = _maskAccountNumber (Some (pre' ++ s)))
  /\ (String.length number = 4%nat -> _maskAccountNumber (Some number) = "XXXX" ++ number)
  /\ (String.length (_maskAccountNumber (Some number)) <= 8)%nat.
Proof.
  assert (Hmask : forall pre s, String.length s = 4%nat ->
                    _maskAccountNumber (Some (pre ++ s)) = "XXXX" ++ s).
  { intros pre s Hs. unfold _maskAccountNumber.
    destruct (Nat.ltb_spec (String.length (pre ++ s)) 4) as [Hlt | _].
    - rewrite length_append in Hlt. lia.
    - rewrite (lastFour_suffix pre s Hs). reflexivity. }
  split; [reflexivity |]. split; [| split; [| split; [| split]]].
  - intros Hlt. unfold _maskAccountNumber.
    destruct (Nat.ltb_spec (String.length number) 4); [reflexivity | lia].
  - intros Hlen. destruct (split_lastFour number Hlen) as (pre & s & -> & Hs).
    exists pre, s. split; [reflexivity |]. split; [exact Hs | exact (Hmask pre s Hs)].
  - intros pre pre' s Hs. rewrite !Hmask by exact Hs. reflexivity.
  - intros Hlen. exact (Hmask "" number Hlen).
  - destruct (Nat.lt_ge_cases (String.length number) 4) as [Hlt | Hge].
    + unfold _maskAccountNumber.
      destruct (Nat.ltb_spec (String.length number) 4); [cbn; lia | lia].
    + destruct (split_lastFour number Hge) as (pre & s & -> & Hs).
      rewrite (Hmask pre s Hs), length_append, Hs. cbn. lia.
Qed.

Section AnyBank.
Context {R : Type}.
Variable axios : nat -> Config -> Completion R.
Variable this : Service.

(** The loop ends after one request. *)
Ltac one_request :=
  exists 1%nat;
  split; [lia |]; split; [lia |]; split; [reflexivity |];
  split; [cbn; rewrite app_nil_r; reflexivity |];
  split; [cbn [fst];
          match goal with
          | H : ?a = _ |- _ = ?b => replace b with a; [symmetry; exact H | f_equal; lia]
          end
         | intros i Hi; lia].

(** The loop of [_makeRequest] from any turn on: it sends [k] requests,
    waits between them and ends with the reply to the last. *)
Lemma attempts_effects (config : Config) (n : nat) :
  forall (attempt : Z) (lastError : option JsError) (w : World),
    1 <= attempt <= retryAttempts this ->
    n = Z.to_nat (retryAttempts this - attempt) ->
    let r := attempts axios this config attempt lastError w in
    exists k : nat,
      (1 <= k)%nat
      /\ attempt + Z.of_nat k - 1 <= retryAttempts this
      /\ requests (snd r) = (requests w ++ repeat config k)%list
      /\ sleeps (snd r)
         = (sleeps w ++ map (fun i => 2 ^ (attempt + Z.of_nat i) * 1000) (seq 0 (k - 1)))%list
      /\ fst r = axios (length (requests w) + k - 1)%nat config
      /\ (forall i, (i < k - 1)%nat ->
            exists e, axios (length (requests w) + i)%nat config = Throw e
                      /\ isClientError e = false).
Proof.
  induction n as [| n IH]; intros attempt lastError w Hattempt Hn r; unfold r; clear r;
    rewrite BankingFacts.attempts_step by lia; unfold send;
    destruct (axios (length (requests w)) config) as [response | error] eqn:Hsend.
  - one_request.
  - destruct (isClientError error) eqn:Hclient.
    + one_request.
    + destruct (Z.ltb_spec attempt (retryAttempts this)) as [Hlt | _]; [lia |].
      rewrite BankingFacts.attempts_done by lia.
      one_request.
  - one_request.
  - destruct (isClientError error) eqn:Hclient.
    + one_request.
    + destruct (Z.ltb_spec attempt (retryAttempts this)) as [Hlt | Hge]; [| lia].
      match goal with |- context [attempts axios this config (attempt + 1) ?le ?w1] =>
        destruct (IH (attempt + 1) le w1) as (k & Hk & Hmax & Hreq & Hsl & Hres & Hearlier);
          [lia | lia |]
      end.
      cbn [requests sleeps sleep] in Hreq, Hsl, Hres, Hearlier.
      rewrite length_app in Hres, Hearlier. cbn [length] in Hres, Hearlier.
      exists (S k). split; [lia |]. split; [lia |].
      split; [rewrite Hreq, <- app_assoc; reflexivity |].
      split; [| split].
      * rewrite Hsl, <- app_assoc. f_equal.
        replace (S k - 1)%nat with (S (k - 1)) by lia.
        cbn [seq map app]. rewrite Z.add_0_r. f_equal.
        rewrite <- seq_shift, map_map. apply map_ext. intros i. do 2 f_equal. lia.
      * rewrite Hres. f_equal. lia.
      * intros i Hi. destruct i as [| i].
        -- exists error. rewrite Nat.add_0_r. split; [exact Hsend | exact Hclient].
        -- destruct (Hearlier i) as (e & He & Hc); [lia |].
           exists e. split; [| exact Hc]. rewrite <- He. f_equal. lia.
Qed.

(** X15.  A banking request, whatever the number of attempts configured.
    With [retryAttempts] below 1 no request is sent and [undefined] is
    thrown.  Otherwise some [k] requests are sent, at least one and at most
    [retryAttempts], all the same; the call waits [2^i] seconds after the
    [i]-th of them and never after the last; every request but the last has
    failed with an error that is no client error; and the call ends as the
    last request did, with its response or its error. *)
Theorem makeRequest_effects (method endpoint : string) (data : option string) (w : World) :
  let config := {| cfg_method := method; cfg_url := baseURL this ++ endpoint;
                   cfg_timeout := timeout this; cfg_data := data |} in
  let r := _makeRequest axios this method endpoint data w in
  (retryAttempts this < 1 -> r = (throwLast None, w))
  /\ (1 <= retryAttempts this ->
      exists k : nat,
        (1 <= k)%nat
        /\ Z.of_nat k <= retryAttempts this
        /\ requests (snd r) = (requests w ++ repeat config k)%list
        /\ sleeps (snd r)
           = (sleeps w ++ map (fun i => 2 ^ Z.of_nat (S i) * 1000) (seq 0 (k - 1)))%list
        /\ fst r = axios (length (requests w) + k - 1)%nat config
        /\ (forall i, (i < k - 1)%nat ->
              exists e, axios (length (requests w) + i)%nat config = Throw e
                        /\ isClientError e = false)).
Proof.
  intros config r. split.
  - intros Hnone. unfold r, _makeRequest. apply BankingFacts.attempts_done. lia.
  - intros Hsome. unfold r, _makeRequest. fold config.
    destruct (attempts_effects config (Z.to_nat (retryAttempts this - 1)) 1 None w)
      as (k & Hk & Hmax & Hreq & Hsl & Hres & Hearlier); [lia | reflexivity |].
    exists k. split; [exact Hk |]. split; [lia |]. split; [exact Hreq |].
    split; [| split; [exact Hres | exact Hearlier]].
    rewrite Hsl. f_equal. apply map_ext. intros i. do 2 f_equal. lia.
Qed.
End AnyBank.

(** The API of [BankingScenarios] answers 503, then 404: two requests, one
    wait of two seconds, and the 404 as the result. *)
Lemma makeRequest_effects_witness :
  let r := _makeRequest BankingScenarios.axios service "GET" "/currencies" None
             BankingScenarios.start in
  exists k : nat,
    (1 <= k)%nat /\ Z.of_nat k <= 3
    /\ length (requests (snd r)) = k
    /\ length (sleeps (snd r)) = (k - 1)%nat
    /\ fst r = BankingScenarios.axios (k - 1)%nat
                 {| cfg_method := "GET"; cfg_url := "https://api.bank.gov/currencies";
                    cfg_timeout := 30000; cfg_data := None |}.
Proof.
  destruct (makeRequest_effects BankingScenarios.axios service "GET" "/currencies" None
              BankingScenarios.start) as [_ Hsome].
  destruct Hsome as (k & Hk & Hmax & Hreq & Hsl & Hres & _); [cbn; lia |].
  exists k. split; [exact Hk |]. split; [exact Hmax |].
  split; [rewrite Hreq; cbn; apply repeat_length |].
  split; [rewrite Hsl; cbn; rewrite length_map, length_seq; reflexivity |].
  rewrite Hres. reflexivity.
Defined.

End BankingMoreFacts.

(** ** Lock-out, tokens and the audit trail (the security service) *)
Module SecurityFacts.
Import SecurityService StringFacts.

Lemma last_cons (t d : Z) (ts : list Z) : List.last (t :: ts) d = List.last ts t.
Proof.
  revert t d. induction ts as [| u ts IH]; intros t d; [reflexivity |].
  change (List.last (t :: u :: ts) d) with (List.last (u :: ts) d).
  rewrite (IH u d), (IH u t). reflexivity.
Qed.

Lemma trackAll_cons (identifier : string) (t : Z) (ts : list Z)
    (store : gmap string Attempts) :
  trackAll (t :: ts) identifier store
  = trackAll ts identifier (snd (trackFailedAttempt t identifier store)).
Proof. reflexivity. Qed.

(** Failed attempts that all fall within the hour of the first one are
    counted one by one. *)
Lemma trackAll_within (identifier : string) (ts : list Z) :
  forall (store : gmap string Attempts) (record : Attempts),
    store !! identifier = Some record ->
    Forall (fun t => t - firstAttempt record <= hour) ts ->
    trackAll ts identifier store !! identifier
    = Some {| count := count record + Z.of_nat (length ts);
              firstAttempt := firstAttempt record;
              lastAttempt := List.last ts (lastAttempt record) |}.
Proof.
  induction ts as [| t ts IH]; intros store record Hrecord Hwithin.
  - cbn. rewrite Hrecord, Z.add_0_r. destruct record; reflexivity.
  - inversion Hwithin as [| t' ts' Ht Hts]; subst.
    rewrite trackAll_cons.
    assert (Hstep : snd (trackFailedAttempt t identifier store)
                    = <[identifier := {| count := count record + 1;
                                         firstAttempt := firstAttempt record;
                                         lastAttempt := t |}]> store).
    { unfold trackFailedAttempt. rewrite Hrecord.
      cbn [default from_option Datatypes.id firstAttempt count lastAttempt snd].
      destruct (Z.gtb_spec (t - firstAttempt record) hour) as [Hgt | _];
        [lia | reflexivity]. }
    rewrite Hstep.
    rewrite (IH _ {| count := count record + 1; firstAttempt := firstAttempt record;
                     lastAttempt := t |}); [| apply lookup_insert_eq | exact Hts].
    cbn [count firstAttempt lastAttempt length]. rewrite last_cons. f_equal. f_equal. lia.
Qed.

(** X16.  Failures within the hour of the first one add up, and the fifth
    locks the account.  From a store without a record for the identifier,
    failed attempts at [t0] and then at times no later than an hour after
    [t0] leave a record with their number, [t0] as the first and the last
    time as the last attempt.  With fewer than five the account is not
    locked.  With five or more it is locked until one hour after the last
    attempt, the check leaving the record as it is; once that time has come
    the check answers unlocked and forgets the record. *)
Theorem failures_within_the_hour_lock (identifier : string)
    (store : gmap string Attempts) (t0 : Z) (ts : list Z) (now : Z) :
  store !! identifier = None ->
  Forall (fun t => t - t0 <= hour) ts ->
  let store' := trackAll (t0 :: ts) identifier store in
  let n := 1 + Z.of_nat (length ts) in
  store' !! identifier
  = Some {| count := n; firstAttempt := t0; lastAttempt := List.last ts t0 |}
  /\ (n < 5 -> isAccountLocked now identifier store' = (Unlocked, store'))
  /\ (5 <= n -> now < List.last ts t0 + hour ->
      isAccountLocked now identifier store' = (Locked (List.last ts t0 + hour) n, store'))
  /\ (5 <= n -> List.last ts t0 + hour <= now ->
      isAccountLocked now identifier store' = (Unlocked, delete identifier store')).
Proof.
  intros Hnone Hwithin store' n.
  assert (Hrecord : store' !! identifier
                    = Some {| count := n; firstAttempt := t0; lastAttempt := List.last ts t0 |}).
  { unfold store'. rewrite trackAll_cons.
    assert (Hstep : snd (trackFailedAttempt t0 identifier store)
                    = <[identifier := {| count := 1; firstAttempt := t0;
                                         lastAttempt := t0 |}]> store).
    { unfold trackFailedAttempt. rewrite Hnone.
      cbn [default from_option Datatypes.id firstAttempt count lastAttempt snd].
      destruct (Z.gtb_spec (t0 - t0) hour) as [Hgt | _];
        [unfold hour in Hgt; lia | reflexivity]. }
    rewrite Hstep.
    rewrite (trackAll_within identifier ts _
               {| count := 1; firstAttempt := t0; lastAttempt := t0 |});
      [reflexivity | apply lookup_insert_eq | exact Hwithin]. }
  split; [exact Hrecord |]. unfold isAccountLocked. rewrite Hrecord.
  cbn [count lastAttempt]. split; [| split].
  - intros Hn. destruct (Z.geb_spec n 5); [lia | reflexivity].
  - intros Hn Hnow. destruct (Z.geb_spec n 5); [| lia].
    destruct (Z.ltb_spec now (List.last ts t0 + hour)); [reflexivity | lia].
  - intros Hn Hnow. destruct (Z.geb_spec n 5); [| lia].
    destruct (Z.ltb_spec now (List.last ts t0 + hour)); [lia | reflexivity].
Qed.

(** X17.  A failed attempt made more than an hour after the first one
    starts the count again, and so lifts a lock: whatever the record held,
    the account's record is then one attempt at that time, and the account
    is not locked, even if it was locked a moment before. *)
Theorem late_failure_lifts_lock (identifier : string) (store : gmap string Attempts)
    (record : Attempts) (now : Z) :
  store !! identifier = Some record ->
  hour < now - firstAttempt record ->
  let r := trackFailedAttempt now identifier store in
  fst r = {| count := 1; firstAttempt := now; lastAttempt := now |}
  /\ snd r !! identifier = Some (fst r)
  /\ forall now', isAccountLocked now' identifier (snd r) = (Unlocked, snd r).
Proof.
  intros Hrecord Hlate r.
  assert (Hr : r = ({| count := 1; firstAttempt := now; lastAttempt := now |},
                    <[identifier := {| count := 1; firstAttempt := now;
                                       lastAttempt := now |}]> store)).
  { unfold r, trackFailedAttempt. rewrite Hrecord.
    cbn [default from_option Datatypes.id firstAttempt count lastAttempt].
    destruct (Z.gtb_spec (now - firstAttempt record) hour) as [_ | Hle]; [reflexivity | lia]. }
  rewrite Hr. cbn [fst snd]. split; [reflexivity |].
  split; [apply lookup_insert_eq |].
  intros now'. unfold isAccountLocked. rewrite lookup_insert_eq. reflexivity.
Qed.

(** Five failures in 59 minutes lock the account until minute 119. *)
Lemma failures_within_the_hour_lock_witness :
  LockoutScenarios.locked !! "producer@example.com"
  = Some {| count := 5; firstAttempt := 0; lastAttempt := 59 * LockoutScenarios.minute |}
  /\ isAccountLocked (61 * LockoutScenarios.minute) "producer@example.com"
       LockoutScenarios.locked
     = (Locked (119 * LockoutScenarios.minute) 5, LockoutScenarios.locked).
Proof.
  destruct (failures_within_the_hour_lock "producer@example.com" ∅ 0
              (tl LockoutScenarios.failures) (61 * LockoutScenarios.minute))
    as (Hrecord & _ & Hlocked & _).
  - apply lookup_empty.
  - repeat constructor; vm_compute; discriminate.
  - split; [exact Hrecord |]. apply Hlocked; vm_compute; [discriminate | reflexivity].
Defined.

(** A sixth failure at minute 61, while the account is locked, lifts the
    lock. *)
Lemma late_failure_lifts_lock_witness :
  fst (isAccountLocked (61 * LockoutScenarios.minute) "producer@example.com"
         LockoutScenarios.locked) = Locked (119 * LockoutScenarios.minute) 5
  /\ fst (isAccountLocked (61 * LockoutScenarios.minute) "producer@example.com"
            (snd (trackFailedAttempt (61 * LockoutScenarios.minute)
                    "producer@example.com" LockoutScenarios.locked))) = Unlocked.
Proof.
  split; [vm_compute; reflexivity |].
  destruct (late_failure_lifts_lock "producer@example.com" LockoutScenarios.locked
              {| count := 5; firstAttempt := 0;
                 lastAttempt := 59 * LockoutScenarios.minute |}
              (61 * LockoutScenarios.minute)) as (_ & _ & Hunlocked).
  - vm_compute. reflexivity.
  - vm_compute. reflexivity.
  - rewrite Hunlocked. reflexivity.
Defined.

Lemma digits_nonneg (s : string) (acc n : Z) :
  0 <= acc -> Decimal.digits s acc = Some n -> 0 <= n.
Proof.
  revert acc. induction s as [| a s IH]; intros acc Hacc; cbn [Decimal.digits].
  - intros H; inversion H; subst; exact Hacc.
  - destruct (Decimal.digit a) as [d |] eqn:Hd; [| discriminate].
    apply IH. assert (0 <= d); [| lia].
    unfold Decimal.digit in Hd.
    destruct (_ && _)%bool eqn:Hrange; [| discriminate].
    inversion Hd; subst d. apply andb_true_iff in Hrange.
    destruct Hrange as [Hlow _]. apply Nat.leb_le in Hlow. lia.
Qed.

Lemma parseExpirationTime_nonneg (expiresIn : string) :
  0 <= _parseExpirationTime expiresIn.
Proof.
  unfold _parseExpirationTime.
  destruct (splitLast expiresIn) as [[value unit] |]; [| lia].
  destruct (timeUnits unit) as [milliseconds |] eqn:Hunit; [| lia].
  destruct (String.eqb value ""); [lia |].
  destruct (Decimal.digits value 0) as [n |] eqn:Hn; [| lia].
  apply digits_nonneg in Hn; [| lia].
  assert (0 <= milliseconds); [| nia].
  unfold timeUnits in Hunit.
  repeat (destruct (Ascii.eqb unit _); [inversion Hunit; lia |]). discriminate.
Qed.

Section AnyTokens.
Context {P : Type}.
Variable payloadId : P -> option Z.
Variable sign : TokenPayload P -> string -> Completion string.
Variable verify : string -> Completion (TokenPayload P).

(** X18.  The life of a token.  A token that [generateSecureToken] has
    issued, and that the token library reads back as it was signed, is
    accepted by [verifyToken] while its session is in the store and valid:
    it is rejected after [revokeToken], which answers [true] for it, and
    after [cleanExpiredSessions] has run at or past the session's expiry,
    the time of issue plus the parsed [expiresIn] (24 hours when that text
    is not digits and a unit); cleaning before the expiry and revoking
    another token leave it accepted.  When the expiry lies beyond the
    range of a date the session is never cleaned.  A token without a [jti]
    is rejected whatever the store holds.  Every rejection is the same
    error. *)
Theorem token_lifecycle (tokenId : string) (t1 t2 t3 : Z) (data : P) (expiresIn : string)
    (store store' : gmap string Session) (token : string) :
  generateSecureToken payloadId sign tokenId t1 t2 t3 data expiresIn store
  = (Return (token, tokenId), store') ->
  verify token = Return {| payload := data; jti := Some tokenId; iat := t1 / 1000 |} ->
  0 <= t3 ->
  let decoded := {| payload := data; jti := Some tokenId; iat := t1 / 1000 |} in
  let expiry := t3 + _parseExpirationTime expiresIn in
  0 <= _parseExpirationTime expiresIn
  /\ verifyToken verify token store' = Return decoded
  /\ fst (revokeToken tokenId store') = true
  /\ verifyToken verify token (snd (revokeToken tokenId store')) = invalidToken
  /\ (forall now, expiry <= now -> expiry <= maxDate ->
        verifyToken verify token (cleanExpiredSessions now store') = invalidToken)
  /\ (forall now, now < expiry \/ maxDate < expiry ->
        verifyToken verify token (cleanExpiredSessions now store') = Return decoded)
  /\ (forall other, other <> tokenId ->
        verifyToken verify token (snd (revokeToken other store')) = Return decoded)
  /\ (forall token' decoded' anyStore,
        verify token' = Return decoded' -> jti decoded' = None ->
        verifyToken verify token' anyStore = invalidToken).
Proof.
  intros Hgenerate Hverify Ht3 decoded expiry. subst decoded expiry.
  pose proof (parseExpirationTime_nonneg expiresIn) as Hparsed.
  unfold generateSecureToken in Hgenerate.
  destruct (sign _ expiresIn) as [token0 | e]; [| discriminate].
  inversion Hgenerate; subst token0 store'. clear Hgenerate.
  set (session := {| userId := payloadId data; createdAt := t2;
                     expiresAt := newDate (t3 + _parseExpirationTime expiresIn);
                     isValid := true |}).
  assert (Hsession : <[tokenId := session]> store !! tokenId = Some session)
    by apply lookup_insert_eq.
  split; [exact Hparsed |].
  split; [| split; [| split; [| split; [| split; [| split]]]]].
  - unfold verifyToken. rewrite Hverify. cbn [jti mbind option_bind]; cbv beta.
    rewrite Hsession. reflexivity.
  - unfold revokeToken. rewrite Hsession. reflexivity.
  - unfold verifyToken, revokeToken. rewrite Hverify, Hsession. cbn [jti mbind option_bind snd]; cbv beta.
    rewrite lookup_insert_eq. reflexivity.
  - intros now Hnow Hrange. unfold verifyToken. rewrite Hverify.
    cbn [jti mbind option_bind]; cbv beta.
    unfold cleanExpiredSessions.
    rewrite (proj2 (map_lookup_filter_None _ _ tokenId)); [reflexivity |].
    right. intros x Hx. rewrite Hsession in Hx. inversion Hx; subst x.
    cbn [snd]. unfold expired, session, newDate. cbn [expiresAt].
    destruct (Z.leb_spec (Z.abs (t3 + _parseExpirationTime expiresIn)) maxDate); [| lia].
    destruct (Z.leb_spec (t3 + _parseExpirationTime expiresIn) now); [discriminate | lia].
  - intros now Hnow. unfold verifyToken. rewrite Hverify. cbn [jti mbind option_bind]; cbv beta.
    unfold cleanExpiredSessions.
    rewrite (proj2 (map_lookup_filter_Some _ _ tokenId session)); [reflexivity |].
    split; [exact Hsession |]. cbn [snd]. unfold expired, session, newDate.
    cbn [expiresAt].
    destruct (Z.leb_spec (Z.abs (t3 + _parseExpirationTime expiresIn)) maxDate);
      [| reflexivity].
    destruct (Z.leb_spec (t3 + _parseExpirationTime expiresIn) now); [lia | reflexivity].
  - intros other Hother. unfold verifyToken, revokeToken. rewrite Hverify.
    cbn [jti mbind option_bind]; cbv beta.
    destruct (<[tokenId := session]> store !! other) as [s |]; cbn [snd].
    + rewrite lookup_insert_ne by exact Hother. rewrite Hsession. reflexivity.
    + rewrite Hsession. reflexivity.
  - intros token' decoded' anyStore Hv Hjti. unfold verifyToken. rewrite Hv, Hjti.
    reflexivity.
Qed.

End AnyTokens.

Section AnyHash.
Variable sha256 : string -> string.
Variable text : string -> string.
Variable iso : Z -> string.

(** X19.  A record of the audit trail does not verify.  [createAuditTrail]
    takes the checksum of the record while it has a [checksum] property,
    [null]; [verifyAuditTrail] takes it of the record without that
    property.  The text hashed at creation is 16 characters longer than the
    one hashed at verification, so a record just created verifies exactly
    when SHA-256 gives the two different texts the same digest. *)
Theorem audit_trail_checksum_differs (uuid : string) (now : Z)
    (action userId resourceType resourceId oldData newData : option string) :
  let r := createAuditTrail sha256 text iso uuid now action userId resourceType
             resourceId oldData newData in
  let created := stringify (properties text iso r ++ [("checksum", Some "null")]) in
  let verified := stringify (properties text iso r) in
  ar_checksum r = Some (sha256 created)
  /\ String.length created = (String.length verified + 16)%nat
  /\ created <> verified
  /\ (verifyAuditTrail sha256 text iso r = true <-> sha256 created = sha256 verified).
Proof.
  intros r created verified.
  assert (Hlen : String.length created = (String.length verified + 16)%nat).
  { unfold created, verified, stringify. rewrite omap_app.
    change (omap _ [("checksum", Some "null")])
      with [quote ++ "checksum" ++ quote ++ ":" ++ "null"].
    rewrite concat_snoc by (unfold properties; cbn; discriminate).
    rewrite !length_append. cbn. lia. }
  split; [reflexivity |]. split; [exact Hlen |]. split.
  - intros Heq. rewrite Heq in Hlen. lia.
  - unfold verifyAuditTrail. cbn [r createAuditTrail ar_checksum].
    fold r. change (nullable text None) with (Some "null"). fold created. fold verified.
    split.
    + intros H. apply String.eqb_eq. exact H.
    + intros H. apply String.eqb_eq. exact H.
Qed.
End AnyHash.

(** The token "jwt.uuid-1", issued for 24 hours, is accepted; after its
    revocation it is rejected. *)
Lemma token_lifecycle_witness :
  let issued := generateSecureToken TokenScenarios.payloadId TokenScenarios.sign "uuid-1"
                  1700000000000 1700000000001 1700000000002 2 "24h" ∅ in
  fst issued = Return ("jwt.uuid-1", "uuid-1")
  /\ expiresAt <$> snd issued !! "uuid-1" = Some (Some 1700086400002)
  /\ verifyToken TokenScenarios.verify "jwt.uuid-1" (snd issued)
     = Return {| payload := 2; jti := Some "uuid-1"; iat := 1700000000 |}
  /\ verifyToken TokenScenarios.verify "jwt.uuid-1" (snd (revokeToken "uuid-1" (snd issued)))
     = invalidToken.
Proof.
  destruct (token_lifecycle TokenScenarios.payloadId TokenScenarios.sign
              TokenScenarios.verify "uuid-1" 1700000000000 1700000000001 1700000000002
              2 "24h" ∅
              (snd (generateSecureToken TokenScenarios.payloadId TokenScenarios.sign
                      "uuid-1" 1700000000000 1700000000001 1700000000002 2 "24h" ∅))
              "jwt.uuid-1") as (_ & Haccept & _ & Hreject & _).
  - reflexivity.
  - reflexivity.
  - lia.
  - split; [reflexivity |]. split; [vm_compute; reflexivity |].
    split; [exact Haccept | exact Hreject].
Defined.

End SecurityFacts.

(** ** The cache (dataIntegrationService.js) *)
Module CacheFacts.
Import DataCache.

Section AnyData.
Context {D S : Type}.


(** X21.  Cleaning the cache is invisible to its readers.  After
    [cleanExpiredCache] the cache holds exactly the entries that had not
    expired at the time of cleaning, so it agrees with the cache before on
    the entries then alive.  And two caches that agree on the entries alive
    at some time behave alike from then on: a call of [getCachedData] made
    at or after that time returns the same result from both, runs its fetch
    function on both or on neither, and leaves caches that agree again. *)
Theorem cleaning_is_invisible (now checkedAt storedAt : Z) (cacheKey : string)
    (fetchFunction : S -> Completion D * S) (ttlSeconds : Z)
    (cache cache' : gmap string (Entry D)) (outside : S) :
  now <= checkedAt ->
  agree now cache cache' ->
  let r := getCachedData checkedAt storedAt cacheKey fetchFunction ttlSeconds cache outside in
  let r' := getCachedData checkedAt storedAt cacheKey fetchFunction ttlSeconds cache'
              outside in
  (forall key entry,
      cleanExpiredCache now cache !! key = Some entry
      <-> cache !! key = Some entry /\ now < expiresAt entry)
  /\ agree now cache (cleanExpiredCache now cache)
  /\ fst (fst r') = fst (fst r)
  /\ snd r' = snd r
  /\ agree checkedAt (snd (fst r)) (snd (fst r')).
Proof.
  intros Hnow Hagree r r'.
  assert (Hclean : forall key entry,
             cleanExpiredCache now cache !! key = Some entry
             <-> cache !! key = Some entry /\ now < expiresAt entry).
  { intros key entry. unfold cleanExpiredCache. rewrite map_lookup_filter_Some.
    cbn. split; intros [H1 H2]; (split; [exact H1 | lia]). }
  split; [exact Hclean |]. split.
  { intros key entry Hlive. rewrite Hclean. tauto. }
  assert (Hlater : agree checkedAt cache cache').
  { intros key entry Hlive. apply Hagree. lia. }
  assert (Hmiss : forall (c : gmap string (Entry D))
                          (fetched : Completion D * gmap string (Entry D) * S),
             (forall cached, c !! cacheKey = Some cached -> expiresAt cached <= checkedAt) ->
             match c !! cacheKey with
             | Some cached =>
                 if expiresAt cached >? checkedAt
                 then (Return (data cached), c, outside) else fetched
             | None => fetched
             end = fetched).
  { intros c fetched H1.
    destruct (c !! cacheKey) as [cached |]; [| reflexivity].
    specialize (H1 cached eq_refl).
    destruct (Z.gtb_spec (expiresAt cached) checkedAt); [lia | reflexivity]. }
  assert (Hcases : (exists cached, cache !! cacheKey = Some cached
                                   /\ checkedAt < expiresAt cached)
                   \/ (forall cached, cache !! cacheKey = Some cached ->
                         expiresAt cached <= checkedAt)).
  { destruct (cache !! cacheKey) as [cached |]; [| right; discriminate].
    destruct (Z.lt_ge_cases checkedAt (expiresAt cached)) as [Hfresh | Hstale].
    - left. exists cached. split; [reflexivity | exact Hfresh].
    - right. intros cached0 H0. inversion H0; subst. lia. }
  destruct Hcases as [(cached & Hc & Hfresh) | Hstale].
  - assert (Hc' : cache' !! cacheKey = Some cached) by (apply Hlater; assumption).
    unfold r, r', getCachedData. rewrite Hc, Hc'.
    destruct (Z.gtb_spec (expiresAt cached) checkedAt); [| lia].
    cbn [fst snd]. split; [reflexivity |]. split; [reflexivity | exact Hlater].
  - assert (Hstale' : forall cached, cache' !! cacheKey = Some cached ->
                        expiresAt cached <= checkedAt).
    { intros cached0 H0.
      destruct (Z.le_gt_cases (expiresAt cached0) checkedAt) as [| Hgt]; [assumption |].
      apply Hlater in H0; [| lia]. specialize (Hstale cached0 H0). lia. }
    unfold r, r', getCachedData.
    rewrite (Hmiss cache _ Hstale), (Hmiss cache' _ Hstale').
    destruct (fetchFunction outside) as [[d | error] outside']; cbn [fst snd].
    + split; [reflexivity |]. split; [reflexivity |].
      intros key entry Hlive. destruct (decide (key = cacheKey)) as [-> | Hne].
      * rewrite !lookup_insert_eq. tauto.
      * rewrite !lookup_insert_ne by congruence. apply Hlater. exact Hlive.
    + split; [reflexivity |]. split; [reflexivity | exact Hlater].
Qed.
End AnyData.


(** Cleaning at 2000 drops the entry that expired at 1000, and a reader of
    "metrics" at 3000 is served the same from both caches. *)
Lemma cleaning_is_invisible_witness :
  let cleaned := cleanExpiredCache 2000 CacheScenarios.cache0 in
  (forall entry, cleaned !! "old" <> Some entry)
  /\ fst (fst (getCachedData 3000 3001 "metrics" CacheScenarios.failing 60 cleaned 0%nat))
     = Return 7.
Proof.
  destruct (cleaning_is_invisible 2000 3000 3001 "metrics" CacheScenarios.failing 60
              CacheScenarios.cache0 CacheScenarios.cache0 0%nat)
    as (Hclean & Hagree & _); [lia | intros key entry _; tauto |].
  destruct (cleaning_is_invisible 2000 3000 3001 "metrics" CacheScenarios.failing 60
              CacheScenarios.cache0 (cleanExpiredCache 2000 CacheScenarios.cache0) 0%nat)
    as (_ & _ & Hsame & _); [lia | exact Hagree |].
  split.
  - intros entry Hentry. apply Hclean in Hentry. destruct Hentry as [Hentry Hlive].
    vm_compute in Hentry. inversion Hentry; subst. cbn in Hlive. lia.
  - cbv zeta. rewrite Hsame. vm_compute. reflexivity.
Defined.

End CacheFacts.
(** ** Reading a project, and the transactions (blockchainService.js) *)
Module ProjectFacts.
Import Ethers BlockchainService.

Lemma projectStatusName_cases (code : N) :
  _getProjectStatusName code =
    match code with
    | 0%N => "Pending"
    | 1%N => "Active"
    | 2%N => "Completed"
    | 3%N => "Suspended"
    | 4%N => "Cancelled"
    | _ => "Unknown"
    end.
Proof.
  unfold _getProjectStatusName.
  destruct (N.lt_ge_cases code 5) as [Hlt | Hge].
  - assert (H : (code = 0 \/ code = 1 \/ code = 2 \/ code = 3 \/ code = 4)%N) by lia.
    destruct H as [-> | [-> | [-> | [-> | ->]]]]; reflexivity.
  - assert (Hn : nth_error ["Pending"; "Active"; "Completed"; "Suspended"; "Cancelled"]
                   (N.to_nat code) = None)
      by (apply nth_error_None; cbn; lia).
    cbn zeta. rewrite Hn.
    destruct code as [| [[[q | q |] | [q | q |] |] | [[q | q |] | [q | q |] |] |]];
      try reflexivity; lia.
Qed.

(** The service is initialised only by release 6, with the three
    variables of the environment set and the connection made. *)
Lemma initialize_true (release : Release) (env : Environment) (connect : Completion unit) :
  initialize release env connect = true ->
  release = Ethers6 /\ connect = Return tt
  /\ configured "0xyour_private_key_here" (BLOCKCHAIN_PRIVATE_KEY env) = true
  /\ configured AddressZero (SUBSIDY_CONTRACT_ADDRESS env) = true
  /\ configured AddressZero (ORACLE_CONTRACT_ADDRESS env) = true.
Proof.
  unfold initialize.
  destruct (configured "0xyour_private_key_here" _); [| discriminate].
  destruct (configured AddressZero (SUBSIDY_CONTRACT_ADDRESS env)); [| discriminate].
  destruct (configured AddressZero (ORACLE_CONTRACT_ADDRESS env)); [| discriminate].
  destruct release; [discriminate |].
  destruct connect as [[] | e]; [| discriminate]. auto.
Qed.

(** X22.  [getProject] returns no project.  The status code is named
    Pending, Active, Completed, Suspended or Cancelled for 0 to 4 and
    Unknown for every other code; but whatever tuple the contract returns
    and whichever release of ethers is installed, the call throws.  With a
    release up to 5 [initialize] leaves the service in demo mode and the
    call ends with "Service not initialized"; the service is initialised
    only with release 6, and the call then ends with "Failed to get
    project: project.id.toNumber is not a function". *)
Theorem getProject_never_returns {L : Type} (c : Contracts L) (l : L) (projectId : Z)
    (raw : RawProject) (env : Environment) (connect : Completion unit) :
  subsidy_getProject c l projectId = Return raw ->
  let initialized := initialize (library c) env connect in
  (forall code : N,
      _getProjectStatusName code =
        match code with
        | 0%N => "Pending"
        | 1%N => "Active"
        | 2%N => "Completed"
        | 3%N => "Suspended"
        | 4%N => "Cancelled"
        | _ => "Unknown"
        end)
  /\ (forall (anyway : bool) (p : Project), getProject c anyway l projectId <> Return p)
  /\ (library c = Ethers5 ->
      initialized = false
      /\ getProject c initialized l projectId = Throw (Error "Service not initialized"))
  /\ (initialized = true ->
      library c = Ethers6
      /\ getProject c initialized l projectId
         = Throw (Error "Failed to get project: project.id.toNumber is not a function")).
Proof.
  intros Hraw initialized. split; [exact projectStatusName_cases |].
  split; [intros anyway p; apply BlockchainFacts.getProject_never |]. split.
  - intros Hrelease. unfold initialized.
    rewrite Hrelease, BlockchainFacts.initialize_ethers5. split; reflexivity.
  - intros Htrue. destruct (initialize_true _ _ _ Htrue) as (Hrelease & _).
    split; [exact Hrelease |]. rewrite Htrue.
    unfold getProject, rethrow, mbind, Completion_bind, Js.bind.
    cbn [negb]. rewrite Hraw, Hrelease. reflexivity.
Qed.

(** Project 1 of the ledger of [Scenarios], read with release 6 on an
    initialised service, and with release 5. *)
Lemma getProject_never_returns_witness :
  initialize Ethers6 Scenarios.environment (Return tt) = true
  /\ SpecLedger.getProject Scenarios.ledger0 1 = Return Scenarios.project1
  /\ getProject SpecLedger.contracts true Scenarios.ledger0 1
     = Throw (Error "Failed to get project: project.id.toNumber is not a function")
  /\ initialize Ethers5 Scenarios.environment (Return tt) = false
  /\ getProject (SpecLedger.contractsOn Ethers5) false Scenarios.ledger0 1
     = Throw (Error "Service not initialized").
Proof.
  destruct (getProject_never_returns SpecLedger.contracts Scenarios.ledger0 1
              Scenarios.project1 Scenarios.environment (Return tt) eq_refl)
    as (_ & _ & _ & Hsix).
  destruct (getProject_never_returns (SpecLedger.contractsOn Ethers5) Scenarios.ledger0 1
              Scenarios.project1 Scenarios.environment (Return tt) eq_refl)
    as (_ & _ & Hfive & _).
  split; [reflexivity |]. split; [reflexivity |].
  split; [apply (Hsix eq_refl) |]. apply (Hfive eq_refl).
Defined.

(** X26.  A transaction is mined before the service builds its result
    from the receipt.  A receipt of release 6, the only release with which
    the service is initialised, has no [events]: whenever the contract
    accepts the transaction, [verifyMilestone] and [addMilestone] throw
    while reading the receipt, and the ledger is the one the transaction
    has left.  So neither ever returns a result, and the error the caller
    gets does not tell that the ledger has changed. *)
Theorem transactions_throw_after_mining {L : Type} (c : Contracts L) (l : L)
    (env : Environment) (connect : Completion unit) :
  initialize (library c) env connect = true ->
  (forall milestoneId actualValue success receipt l',
      subsidy_verifyMilestone c l milestoneId actualValue success = Return (receipt, l') ->
      verifyMilestone c true l milestoneId actualValue success
      = (Throw (Error ("Failed to verify milestone: "
                       ++ "Cannot read properties of undefined (reading 'map')")), l'))
  /\ (forall projectId description wei targetValue verificationSource deadline receipt l',
        subsidy_addMilestone c l projectId description wei targetValue verificationSource
          (deadline / 1000) = Return (receipt, l') ->
        addMilestone c true l projectId description (Some wei) targetValue
          verificationSource deadline
        = (Throw (Error ("Failed to add milestone: "
                         ++ "Cannot read properties of undefined (reading 'find')")), l'))
  /\ (forall milestoneId actualValue success result,
        fst (verifyMilestone c true l milestoneId actualValue success) <> Return result)
  /\ (forall projectId description subsidyAmount targetValue verificationSource deadline
             result,
        fst (addMilestone c true l projectId description subsidyAmount targetValue
               verificationSource deadline) <> Return result).
Proof.
  intros Htrue. destruct (initialize_true _ _ _ Htrue) as (Hrelease & _).
  split; [| split; [| split]].
  - intros milestoneId actualValue success receipt l' Hmined.
    unfold verifyMilestone. cbn [negb]. rewrite Hmined, Hrelease. reflexivity.
  - intros projectId description wei targetValue verificationSource deadline receipt l'
      Hmined.
    unfold addMilestone, mbind, Completion_bind, Js.bind. cbn [negb].
    rewrite Hrelease. cbn [parseEther]. rewrite Hmined. reflexivity.
  - intros milestoneId actualValue success result.
    unfold verifyMilestone. cbn [negb].
    destruct (subsidy_verifyMilestone c l milestoneId actualValue success)
      as [[receipt l'] | e]; [| discriminate].
    rewrite Hrelease. discriminate.
  - intros projectId description subsidyAmount targetValue verificationSource deadline
      result.
    unfold addMilestone, mbind, Completion_bind, Js.bind. cbn [negb].
    rewrite Hrelease.
    destruct subsidyAmount as [wei |]; cbn [parseEther]; [| discriminate].
    destruct (subsidy_addMilestone c l projectId description wei targetValue
                verificationSource (deadline / 1000)) as [[receipt l'] | e];
      [| discriminate].
    discriminate.
Qed.

(** The Pending milestone 1 of the ledger of [Scenarios] is verified with
    500: the call throws, and the ledger holds the milestone as Verified. *)
Lemma transactions_throw_after_mining_witness :
  let r := verifyMilestone SpecLedger.contracts true Scenarios.ledger0 1 500 true in
  fst r = Throw (Error ("Failed to verify milestone: "
                        ++ "Cannot read properties of undefined (reading 'map')"))
  /\ raw_status <$> SpecLedger.milestones Scenarios.ledger0 !! 1 = Some 0%N
  /\ raw_status <$> SpecLedger.milestones (snd r) !! 1 = Some 1%N.
Proof.
  destruct (transactions_throw_after_mining SpecLedger.contracts Scenarios.ledger0
              Scenarios.environment (Return tt) eq_refl) as (Hverify & _).
  cbv zeta.
  rewrite (Hverify 1 500 true _ _ eq_refl).
  split; [reflexivity |]. split; vm_compute; reflexivity.
Defined.

End ProjectFacts.

(** ** The user directory (routes/auth.js) *)
Module AuthRouteFacts.
Import Auth AuthRoutes.

Lemma update_ids (id : Z) (change : Account -> Account) (users : list Account) :
  (forall u, acc_id (change u) = acc_id u) ->
  map acc_id (update id change users) = map acc_id users.
Proof.
  intros Hid. induction users as [| u users IH]; [reflexivity |].
  cbn [update]. destruct (acc_id u =? id); cbn [map]; [rewrite Hid | rewrite IH];
    reflexivity.
Qed.

Lemma update_emails (id : Z) (change : Account -> Account) (users : list Account) :
  (forall u, acc_email (change u) = acc_email u) ->
  map acc_email (update id change users) = map acc_email users.
Proof.
  intros Hid. induction users as [| u users IH]; [reflexivity |].
  cbn [update]. destruct (acc_id u =? id); cbn [map]; [rewrite Hid | rewrite IH];
    reflexivity.
Qed.

Lemma update_wallets (id : Z) (change : Account -> Account) (users : list Account) :
  (forall u, acc_walletAddress (change u) = acc_walletAddress u) ->
  map acc_walletAddress (update id change users) = map acc_walletAddress users.
Proof.
  intros Hid. induction users as [| u users IH]; [reflexivity |].
  cbn [update]. destruct (acc_id u =? id); cbn [map]; [rewrite Hid | rewrite IH];
    reflexivity.
Qed.

Lemma update_length (id : Z) (change : Account -> Account) (users : list Account) :
  length (update id change users) = length users.
Proof.
  induction users as [| u users IH]; [reflexivity |].
  cbn [update]. destruct (acc_id u =? id); cbn [length]; [| rewrite IH]; reflexivity.
Qed.

(** The users after an update are the users before, but for the changed
    one. *)
Lemma update_In (id : Z) (change : Account -> Account) (users : list Account)
    (v : Account) :
  In v (update id change users) ->
  In v users \/ exists u, In u users /\ acc_id u = id /\ v = change u.
Proof.
  induction users as [| u users IH]; [intros [] |].
  cbn [update]. destruct (Z.eqb_spec (acc_id u) id) as [Heq | Hne]; cbn [In].
  - intros [<- | Hin]; [right; exists u; auto | left; auto].
  - intros [<- | Hin]; [left; auto |].
    destruct (IH Hin) as [H | (u' & Hu' & Hid & ->)]; [left; auto |].
    right. exists u'. auto.
Qed.

Lemma update_keeps (id : Z) (change : Account -> Account) (users : list Account)
    (v : Account) :
  In v users -> acc_id v <> id -> In v (update id change users).
Proof.
  induction users as [| u users IH]; [intros [] |].
  cbn [update]. intros [-> | Hin] Hne.
  - destruct (Z.eqb_spec (acc_id v) id); [contradiction | left; reflexivity].
  - destruct (acc_id u =? id); right; [exact Hin | apply IH; assumption].
Qed.

(** The first user with an id, once changed, is found in place of the
    old one. *)
Lemma find_update (id : Z) (change : Account -> Account) (users : list Account)
    (user : Account) :
  (forall u, acc_id (change u) = acc_id u) ->
  List.find (fun u => acc_id u =? id) users = Some user ->
  List.find (fun u => acc_id u =? id) (update id change users) = Some (change user).
Proof.
  intros Hid. induction users as [| u users IH]; [discriminate |].
  cbn [List.find update]. destruct (Z.eqb_spec (acc_id u) id) as [Heq | Hne].
  - intros H; inversion H; subst u. cbn [List.find]. rewrite Hid.
    rewrite (proj2 (Z.eqb_eq _ _) Heq). reflexivity.
  - intros H. cbn [List.find]. rewrite (proj2 (Z.eqb_neq _ _) Hne). apply IH. exact H.
Qed.

Lemma NoDup_snoc {A} (l : list A) (x : A) : List.NoDup l -> ~ In x l -> List.NoDup (l ++ [x]).
Proof.
  intros Hl Hx. induction Hl as [| a l Ha Hl IH]; cbn [app].
  - apply List.NoDup_cons; [intros H; destruct H | apply List.NoDup_nil].
  - apply List.NoDup_cons.
    + intros Hin. apply in_app_or in Hin. destruct Hin as [Hin | [<- | []]].
      * exact (Ha Hin).
      * apply Hx. left. reflexivity.
    + apply IH. intros Hin. apply Hx. right. exact Hin.
Qed.

Lemma map_inj_NoDup {A B} (f : A -> B) (l : list A) :
  (forall x y, f x = f y -> x = y) -> List.NoDup l -> List.NoDup (map f l).
Proof.
  intros Hinj Hl. induction Hl as [| a l Ha Hl IH]; cbn [map]; constructor;
    [| exact IH].
  intros Hin. apply in_map_iff in Hin. destruct Hin as (b & Hb & Hbin).
  apply Hinj in Hb. subst b. exact (Ha Hbin).
Qed.

(** A new wallet address that no user with another id holds keeps the
    addresses apart. *)
Lemma update_wallet_NoDup (id : Z) (w : string) (users : list Account) :
  List.NoDup (map acc_id users) ->
  List.NoDup (map acc_walletAddress users) ->
  (forall u, In u users -> acc_walletAddress u = w -> acc_id u = id) ->
  List.NoDup (map acc_walletAddress (update id (withWalletAddress w) users)).
Proof.
  induction users as [| u users IH]; intros Hids Hwallets Hfree; [constructor |].
  cbn [map] in Hids, Hwallets. inversion Hids as [| ? ? Hidu Hids']; subst.
  inversion Hwallets as [| ? ? Hwu Hwallets']; subst.
  cbn [update]. destruct (Z.eqb_spec (acc_id u) id) as [Heq | Hne]; cbn [map].
  - constructor; [| exact Hwallets'].
    cbn [withWalletAddress acc_walletAddress]. intros Hin.
    apply in_map_iff in Hin. destruct Hin as (v & Hv & Hvin).
    apply Hidu. apply in_map_iff. exists v. split; [| exact Hvin].
    rewrite Heq. apply Hfree; [right; exact Hvin | exact Hv].
  - constructor.
    + intros Hin. apply in_map_iff in Hin. destruct Hin as (v & Hv & Hvin).
      destruct (update_In _ _ _ _ Hvin) as [Hold | (u' & Hu' & Hid' & ->)].
      * apply Hwu. apply in_map_iff. exists v. split; assumption.
      * cbn [withWalletAddress acc_walletAddress] in Hv. subst w.
        apply Hne. apply Hfree; [left; reflexivity | reflexivity].
    + apply IH; [exact Hids' | exact Hwallets' |].
      intros v Hv. apply Hfree. right. exact Hv.
Qed.

Lemma ids_NoDup (users : list Account) :
  map acc_id users = map (fun i => Z.of_nat i + 1) (seq 0 (length users)) ->
  List.NoDup (map acc_id users).
Proof.
  intros ->. apply map_inj_NoDup; [intros i j H; lia | apply List.seq_NoDup].
Qed.


(** A user with the email is found exactly when the email is among the
    emails of the directory. *)
Lemma find_email (email : string) (users : list Account) :
  (exists user, List.find (fun u => String.eqb (acc_email u) email) users = Some user)
  <-> In email (map acc_email users).
Proof.
  induction users as [| u users IH]; cbn [List.find map In].
  - split; [intros [user H]; discriminate | intros []].
  - destruct (String.eqb_spec (acc_email u) email) as [Heq | Hne].
    + split; [intros _; left; exact Heq | intros _; eexists; reflexivity].
    + rewrite IH. split; [intros H; right; exact H | intros [H | H]; [contradiction | exact H]].
Qed.

Lemma find_snoc {A} (f : A -> bool) (l : list A) (x : A) :
  List.find f (l ++ [x])
  = match List.find f l with
    | Some y => Some y
    | None => if f x then Some x else None
    end.
Proof.
  induction l as [| a l IH]; cbn [app List.find]; [reflexivity |].
  destruct (f a); [reflexivity | exact IH].
Qed.

Section AnyLibrary.
Variable generateToken : Account -> string.
Variable hash : string -> string.

(** A profile update and the second turn of a change of password leave
    the ids, and the length of the directory, as they are. *)
Lemma updateProfile_ids (reqUser : User) (body : ProfileBody) (users : list Account) :
  map acc_id (snd (updateProfile reqUser body users)) = map acc_id users.
Proof.
  unfold updateProfile.
  destruct (negb (forallb _ _)); [reflexivity |].
  destruct (List.find _ users) as [user |]; [| reflexivity].
  assert (H1 : map acc_id (match given (trim <$> p_name body) with
                           | Some n => update (acc_id user) (withName n) users
                           | None => users
                           end) = map acc_id users).
  { destruct (given _); [apply update_ids; reflexivity | reflexivity]. }
  destruct (given (p_walletAddress body)) as [w |]; [| exact H1].
  destruct (List.find _ _); [exact H1 |].
  cbn [snd]. rewrite update_ids by reflexivity. exact H1.
Qed.

Lemma idsCountUp_same (users users' : list Account) :
  map acc_id users' = map acc_id users -> idsCountUp users -> idsCountUp users'.
Proof.
  unfold idsCountUp. intros Hsame Hids.
  assert (Hlen : length users' = length users).
  { rewrite <- (length_map acc_id users'), Hsame. apply length_map. }
  rewrite Hsame, Hlen. exact Hids.
Qed.

Lemma idsCountUp_push (users : list Account) (newUser : Account) :
  acc_id newUser = Z.of_nat (length users) + 1 ->
  idsCountUp users -> idsCountUp (users ++ [newUser]).
Proof.
  unfold idsCountUp. intros Hid Hids.
  rewrite map_app, length_app, Hids. cbn [length map].
  rewrite Nat.add_1_r, seq_S, map_app, Hid. reflexivity.
Qed.

(** Every turn of the server keeps the ids counting up from 1. *)
Lemma turn_ids (s : Server) (t : Turn) :
  idsCountUp (directory s) -> idsCountUp (directory (turn generateToken hash s t)).
Proof.
  intros Hids. destruct t as [[body | reqUser body | reqUser body | reqUser body] | i now];
    cbn [turn].
  - exact Hids.
  - destruct (registerStart _ _ _); exact Hids.
  - cbn [respond directory].
    exact (idsCountUp_same _ _ (updateProfile_ids reqUser body (directory s)) Hids).
  - destruct (changePasswordStart _ _ _); exact Hids.
  - destruct (nth_error (waiting s) i) as [[reqUser body | userId body] |];
      [| | exact Hids]; cbn [directory snd registerFinish changePasswordFinish].
    + apply idsCountUp_push; [reflexivity | exact Hids].
    + apply (idsCountUp_same (directory s)); [| exact Hids].
      apply update_ids. reflexivity.
Qed.

Lemma run_ids (turns : list Turn) :
  forall s, idsCountUp (directory s) ->
            idsCountUp (directory (run generateToken hash s turns)).
Proof.
  induction turns as [| t turns IH]; intros s Hids; [exact Hids |].
  cbn [run fold_left]. apply IH. apply turn_ids. exact Hids.
Qed.

(** X23.  The order of the directory.  The users the file starts with
    have the ids 1 to 4 and pairwise different emails and wallet
    addresses.  A registration, a profile update and a change of password
    during which no other request runs leave the ids counting up from 1
    and the emails and the wallet addresses pairwise different.  When
    requests overlap, whatever the order of their turns, the ids still
    count up from 1; the emails and the wallet addresses do not stay
    apart: two registrations that have both looked up the directory before
    either adds its user are both answered 201, and the directory ends
    with both users, be their emails or their wallet addresses the same. *)
Theorem directory_stays_in_order (now : Z) (reqUser : User) (users : list Account) :
  inOrder users ->
  inOrder users0
  /\ (forall body, inOrder (snd (register hash now reqUser body users)))
  /\ (forall body, inOrder (snd (updateProfile reqUser body users)))
  /\ (forall body, inOrder (snd (changePassword hash reqUser body users)))
  /\ (forall turns, idsCountUp (directory (run generateToken hash (serving users) turns)))
  /\ (forall first second now',
        registerStart reqUser first users = None ->
        registerStart reqUser second users = None ->
        let s := run generateToken hash (serving users)
                   [ Arrive (RegisterRequest reqUser first);
                     Arrive (RegisterRequest reqUser second);
                     Resume 0 now; Resume 0 now' ] in
        map fst (sent s) = [201; 201]
        /\ waiting s = []
        /\ map acc_email (directory s)
           = (map acc_email users
              ++ [default "" (r_email first); default "" (r_email second)])%list
        /\ map acc_walletAddress (directory s)
           = (map acc_walletAddress users
              ++ [r_walletAddress first; r_walletAddress second])%list).
Proof.
  assert (Horder : forall l, inOrder l <->
                          map acc_id l = map (fun i => Z.of_nat i + 1) (seq 0 (length l))
                          /\ List.NoDup (map acc_email l)
                          /\ List.NoDup (map acc_walletAddress l)).
  { intros l. unfold inOrder. rewrite !NoDup_ListNoDup. reflexivity. }
  rewrite !Horder. intros (Hids & Hemails & Hwallets).
  split; [| split; [| split; [| split; [| split]]]].
  - split; [reflexivity |]. split.
    + repeat constructor; cbn; intuition discriminate.
    + repeat constructor; cbn; intuition discriminate.
  - intros body. rewrite Horder. unfold register, registerStart.
    destruct (negb (forallb _ _)); [repeat split; assumption |].
    destruct (negb (String.eqb _ _)); [repeat split; assumption |].
    destruct (List.find _ users) as [existing |] eqn:Hfind; [repeat split; assumption |].
    unfold registerFinish. cbn [snd]. split; [| split].
    + rewrite map_app, length_app, Hids. cbn [length map].
      rewrite Nat.add_1_r, seq_S, map_app. reflexivity.
    + rewrite map_app. apply NoDup_snoc; [exact Hemails |].
      cbn [map acc_email]. intros Hin. apply in_map_iff in Hin.
      destruct Hin as (u & Hu & Huin).
      pose proof (find_none _ _ Hfind u Huin) as Hnone. cbn beta in Hnone.
      rewrite Hu, String.eqb_refl in Hnone. discriminate.
    + rewrite map_app. apply NoDup_snoc; [exact Hwallets |].
      cbn [map acc_walletAddress]. intros Hin. apply in_map_iff in Hin.
      destruct Hin as (u & Hu & Huin).
      pose proof (find_none _ _ Hfind u Huin) as Hnone. cbn beta in Hnone.
      rewrite Hu, String.eqb_refl, orb_true_r in Hnone. discriminate.
  - intros body. rewrite Horder. unfold updateProfile.
    destruct (negb (forallb _ _)); [repeat split; assumption |].
    destruct (List.find _ users) as [user |] eqn:Hfind; [| repeat split; assumption].
    set (users1 := match given (trim <$> p_name body) with
                   | Some n => update (acc_id user) (withName n) users
                   | None => users
                   end).
    assert (H1 : map acc_id users1
                 = map (fun i => Z.of_nat i + 1) (seq 0 (length users1))
                 /\ List.NoDup (map acc_email users1)
                 /\ List.NoDup (map acc_walletAddress users1)).
    { unfold users1. destruct (given _) as [n |]; [| repeat split; assumption].
      rewrite update_ids, update_emails, update_wallets, update_length by reflexivity.
      repeat split; assumption. }
    destruct H1 as (Hids1 & Hemails1 & Hwallets1).
    destruct (given (p_walletAddress body)) as [w |]; [| repeat split; assumption].
    destruct (List.find _ users1) as [other |] eqn:Hother; [repeat split; assumption |].
    cbn [snd].
    rewrite update_ids, update_emails, update_length by reflexivity.
    split; [exact Hids1 |]. split; [exact Hemails1 |].
    apply update_wallet_NoDup; [apply ids_NoDup; exact Hids1 | exact Hwallets1 |].
    intros u Hu Hw. pose proof (find_none _ _ Hother u Hu) as Hnone. cbn beta in Hnone.
    rewrite Hw, String.eqb_refl in Hnone. cbn [andb] in Hnone.
    destruct (Z.eqb_spec (acc_id u) (acc_id user)); [assumption | discriminate].
  - intros body. rewrite Horder. unfold changePassword, changePasswordStart.
    destruct (negb (forallb _ _)); [repeat split; assumption |].
    destruct (List.find _ users) as [user |]; [| repeat split; assumption].
    destruct (negb (String.eqb _ _)); [repeat split; assumption |].
    unfold changePasswordFinish. cbn [snd].
    rewrite update_ids, update_emails, update_wallets, update_length by reflexivity.
    repeat split; assumption.
  - intros turns. apply run_ids. exact Hids.
  - intros first second now' Hfirst Hsecond. cbv zeta.
    unfold run, serving. cbn [fold_left turn directory waiting sent].
    rewrite Hfirst. cbn [wait directory waiting sent app]. rewrite Hsecond.
    cbn [wait directory waiting sent app nth_error firstn skipn registerFinish fst snd
           map].
    rewrite !map_app. cbn [map acc_email acc_walletAddress app].
    rewrite <- !app_assoc. cbn [app]. repeat split.
Qed.

(** The status of a log-in depends on the emails of the directory and on
    nothing else in it. *)
Lemma login_status (body : LoginBody) (users : list Account) :
  fst (login generateToken body users)
  = if negb (bool_decide (is_Some (l_email body))
             && (6 <=? String.length (l_password body))%nat)
    then 400
    else if existsb (fun e => String.eqb e (default "" (l_email body)))
              (map acc_email users)
            && String.eqb (l_password body) "password123"
    then 200 else 401.
Proof.
  unfold login, validated. cbn [forallb]. rewrite andb_true_r.
  destruct (bool_decide (is_Some (l_email body)) && _); cbn [negb]; [| reflexivity].
  induction users as [| u users IH]; cbn [List.find map existsb]; [reflexivity |].
  destruct (String.eqb (acc_email u) _); cbn [orb]; [| exact IH].
  destruct (String.eqb (l_password body) "password123"); reflexivity.
Qed.

Lemma existsb_email (email : string) (emails : list string) :
  existsb (fun e => String.eqb e email) emails = true <-> In email emails.
Proof.
  rewrite existsb_exists. split.
  - intros (e & Hin & He). apply String.eqb_eq in He. subst e. exact Hin.
  - intros Hin. exists email. split; [exact Hin | apply String.eqb_refl].
Qed.

(** X24.  The log-in checks no stored password.  A log-in answers 200
    exactly when the body is valid, its email is that of a user and its
    password is the text "password123"; its status depends on the
    directory through the emails alone.  So a user who has just been
    registered logs in with "password123" and with no other password, the
    one given at registration included, and a change of password changes
    nothing for any log-in. *)
Theorem login_checks_no_stored_password (body : LoginBody) (users : list Account) :
  (fst (login generateToken body users) = 200
   <-> exists email, l_email body = Some email
                     /\ In email (map acc_email users)
                     /\ l_password body = "password123")
  /\ (forall users',
        map acc_email users' = map acc_email users ->
        fst (login generateToken body users') = fst (login generateToken body users))
  /\ (forall now reqUser registration registered users' email password,
        register hash now reqUser registration users = ((201, registered), users') ->
        r_email registration = Some email ->
        (fst (login generateToken {| l_email := Some email; l_password := password |}
                users') = 200
         <-> password = "password123"))
  /\ (forall reqUser passwords users',
        changePassword hash reqUser passwords users = ((200, PasswordChanged), users') ->
        fst (login generateToken body users') = fst (login generateToken body users)).
Proof.
  split; [| split; [| split]].
  - rewrite login_status. destruct (l_email body) as [email |]; cbn [default from_option].
    + rewrite bool_decide_eq_true_2 by (eexists; reflexivity). cbn [andb].
      destruct (Nat.leb_spec 6 (String.length (l_password body))) as [Hlen | Hlen];
        cbn [negb].
      * destruct (existsb _ (map acc_email users)) eqn:Hknown; cbn [andb].
        -- apply existsb_email in Hknown.
           destruct (String.eqb_spec (l_password body) "password123") as [Hpw | Hpw].
           ++ split; [intros _; exists email; auto | reflexivity].
           ++ split; [discriminate | intros (e & _ & _ & H); contradiction].
        -- split; [discriminate |].
           intros (e & He & Hin & _). inversion He; subst e.
           pose proof (proj2 (existsb_email email _) Hin) as Hfound.
           exfalso. exact (eq_true_false_abs _ Hfound Hknown).
      * split; [discriminate |]. intros (e & _ & _ & Hpw). rewrite Hpw in Hlen.
        cbn in Hlen. lia.
    + rewrite bool_decide_eq_false_2 by (intros [x Hx]; discriminate). cbn [andb negb].
      split; [discriminate | intros (e & He & _); discriminate].
  - intros users' Hemails. rewrite !login_status, Hemails. reflexivity.
  - intros now reqUser registration registered users' email password Hregister Hemail.
    unfold register, registerStart, registerFinish in Hregister.
    destruct (negb (forallb _ _)); [inversion Hregister |].
    destruct (negb (String.eqb _ _)); [inversion Hregister |].
    destruct (List.find _ users) as [existing |]; [inversion Hregister |].
    inversion Hregister; subst users'. clear Hregister.
    rewrite login_status. cbn [l_email l_password default from_option].
    rewrite bool_decide_eq_true_2 by (eexists; reflexivity). cbn [andb].
    rewrite (proj2 (existsb_email email _)).
    2: { rewrite map_app. apply in_or_app. right. cbn. rewrite Hemail. left. reflexivity. }
    cbn [andb].
    destruct (String.eqb_spec password "password123") as [-> | Hpw].
    + cbn. split; reflexivity.
    + destruct (6 <=? String.length password)%nat; cbn [negb];
        (split; [discriminate | contradiction]).
  - intros reqUser passwords users' Hchange. rewrite !login_status.
    unfold changePassword, changePasswordStart, changePasswordFinish in Hchange.
    destruct (negb (forallb _ _)); [inversion Hchange |].
    destruct (List.find _ users) as [user |]; [| inversion Hchange].
    destruct (negb (String.eqb _ _)); [inversion Hchange |].
    inversion Hchange; subst users'. rewrite update_emails by reflexivity. reflexivity.
Qed.

(** X25.  A profile update that is refused has changed the name.  The
    handler writes the new name before it checks the wallet address: when
    the request names a wallet address that another user holds, it is
    answered 409 and the wallet address stays, but the user's name in the
    directory is the new one. *)
Theorem profile_conflict_keeps_new_name (reqUser : User) (body : ProfileBody)
    (users : list Account) (user other : Account) (name walletAddress : string) :
  List.find (fun u => acc_id u =? user_id reqUser) users = Some user ->
  p_name body = Some name ->
  isLength 2 100 (trim name) = true ->
  p_walletAddress body = Some walletAddress ->
  isEthereumAddress walletAddress = true ->
  In other users ->
  acc_walletAddress other = walletAddress ->
  acc_id other <> acc_id user ->
  let r := updateProfile reqUser body users in
  fst r = (409, AuthError "Wallet address already in use")
  /\ snd r = update (acc_id user) (withName (trim name)) users
  /\ List.find (fun u => acc_id u =? user_id reqUser) (snd r)
     = Some (withName (trim name) user)
  /\ acc_walletAddress (withName (trim name) user) = acc_walletAddress user.
Proof.
  intros Hfind Hname Hlen Hwallet Haddress Hother Hsame Hdiff r.
  assert (Hid : acc_id user = user_id reqUser).
  { apply find_some in Hfind. destruct Hfind as [_ H]. apply Z.eqb_eq. exact H. }
  assert (Hgiven : given (Some (trim name)) = Some (trim name)).
  { unfold given. destruct (String.eqb_spec (trim name) "") as [Hempty | _]; [| reflexivity].
    rewrite Hempty in Hlen. discriminate. }
  assert (Hgiven' : given (Some walletAddress) = Some walletAddress).
  { unfold given. destruct (String.eqb_spec walletAddress "") as [Hempty | _];
      [| reflexivity].
    rewrite Hempty in Haddress. discriminate. }
  assert (Hr : r = ((409, AuthError "Wallet address already in use"),
                    update (acc_id user) (withName (trim name)) users)).
  { unfold r, updateProfile. rewrite Hname, Hwallet. cbn [fmap option_fmap option_map].
    rewrite Hlen, Haddress. cbn [forallb andb negb]. rewrite Hfind, Hgiven, Hgiven'.
    destruct (List.find _ (update _ _ users)) as [found |] eqn:Hfound; [reflexivity |].
    pose proof (find_none _ _ Hfound other
                  (update_keeps _ _ _ _ Hother Hdiff)) as Hnone.
    cbn beta in Hnone. rewrite Hsame, String.eqb_refl in Hnone. cbn [andb] in Hnone.
    destruct (Z.eqb_spec (acc_id other) (acc_id user)); [contradiction | discriminate]. }
  rewrite Hr. cbn [fst snd]. split; [reflexivity |]. split; [reflexivity |].
  split; [| reflexivity].
  rewrite Hid. apply find_update; [reflexivity | exact Hfind].
Qed.
End AnyLibrary.

(** The plant is registered as user 5 and the directory is in order.  Two
    registrations of the plant that overlap are both answered 201 and leave
    the users 5 and 6 with the one email. *)
Lemma directory_stays_in_order_witness :
  let r := register AuthScenarios.hash 1700000000000 AuthScenarios.government
             AuthScenarios.registration users0 in
  let s := run AuthScenarios.generateToken AuthScenarios.hash (serving users0)
             [ Arrive (RegisterRequest AuthScenarios.government AuthScenarios.registration);
               Arrive (RegisterRequest AuthScenarios.government
                         AuthScenarios.registrationAgain);
               Resume 0 1700000000000; Resume 0 1700000000050 ] in
  fst (fst r) = 201 /\ inOrder (snd r) /\ length (snd r) = 5%nat
  /\ map fst (sent s) = [201; 201]
  /\ map acc_id (directory s) = [1; 2; 3; 4; 5; 6]
  /\ map acc_email (skipn 4 (directory s)) = ["plant@example.com"; "plant@example.com"]
  /\ ~ inOrder (directory s).
Proof.
  destruct (directory_stays_in_order AuthScenarios.generateToken AuthScenarios.hash
              1700000000000 AuthScenarios.government users0)
    as (Hstart & Hregister & _ & _ & Hids & Hoverlap).
  - split; [reflexivity |].
    split; apply NoDup_ListNoDup; repeat constructor; cbn; intuition discriminate.
  - destruct (Hoverlap AuthScenarios.registration AuthScenarios.registrationAgain
                1700000000050 eq_refl eq_refl) as (Hsent & _ & Hemails & _).
    cbv zeta. split; [reflexivity |]. split; [apply Hregister |].
    split; [reflexivity |]. split; [exact Hsent |]. split; [reflexivity |].
    split; [reflexivity |].
    intros (_ & Hnodup & _). rewrite Hemails in Hnodup.
    apply NoDup_ListNoDup in Hnodup. cbn in Hnodup.
    repeat match goal with
           | H : List.NoDup (_ :: _) |- _ => inversion H; subst; clear H
           end.
    match goal with
    | H : ~ In "plant@example.com" _ |- _ => apply H; left; reflexivity
    end.
Defined.

(** The plant registers with "electrolyser-2024": that password is
    refused at log-in. *)
Lemma login_checks_no_stored_password_witness :
  let users := snd (register AuthScenarios.hash 1700000000000 AuthScenarios.government
                      AuthScenarios.registration users0) in
  fst (login AuthScenarios.generateToken
         {| l_email := Some "plant@example.com"; l_password := "electrolyser-2024" |}
         users) <> 200
  /\ fst (login AuthScenarios.generateToken
            {| l_email := Some "plant@example.com"; l_password := "password123" |}
            users) = 200.
Proof.
  destruct (login_checks_no_stored_password AuthScenarios.generateToken AuthScenarios.hash
              {| l_email := None; l_password := "" |} users0) as (_ & _ & Hregistered & _).
  pose proof (fun password =>
                Hregistered 1700000000000 AuthScenarios.government
                  AuthScenarios.registration _ _ "plant@example.com" password
                  eq_refl eq_refl) as Hlogin.
  split.
  - intros Hok. apply Hlogin in Hok. discriminate.
  - apply Hlogin. reflexivity.
Defined.

(** The producer asks for a new name and the auditor's wallet address: 409,
    and the name is changed. *)
Lemma profile_conflict_keeps_new_name_witness :
  let r := updateProfile AuthScenarios.producer AuthScenarios.takeover users0 in
  fst (fst r) = 409
  /\ acc_name <$> List.find (fun u => acc_id u =? 2) (snd r) = Some "Renamed Producer".
Proof.
  destruct (profile_conflict_keeps_new_name AuthScenarios.producer AuthScenarios.takeover
              users0
              {| acc_id := 2; acc_email := "producer@example.com";
                 acc_password := "$2b$10$hash_for_producer_password";
                 acc_role := USER_ROLES.PRODUCER; acc_name := "Green Hydrogen Producer";
                 acc_walletAddress := "0xabcdefabcdefabcdefabcdefabcdefabcdefabcd";
                 acc_createdAt := None; acc_createdBy := None |}
              {| acc_id := 3; acc_email := "auditor@example.com";
                 acc_password := "$2b$10$hash_for_auditor_password";
                 acc_role := USER_ROLES.AUDITOR; acc_name := "Independent Auditor";
                 acc_walletAddress := "0x9876543210987654321098765432109876543210";
                 acc_createdAt := None; acc_createdBy := None |}
              "Renamed Producer" "0x9876543210987654321098765432109876543210")
    as (Hstatus & _ & Hfound & _);
    [reflexivity | reflexivity | reflexivity | reflexivity | reflexivity
     | right; right; left; reflexivity | reflexivity | discriminate |].
  cbv zeta. rewrite Hstatus. split; [reflexivity |].
  change (fun u : Account => acc_id u =? 2)
    with (fun u : Account => acc_id u =? user_id AuthScenarios.producer).
  rewrite Hfound. reflexivity.
Defined.

End AuthRouteFacts.
